(** * EcoBuild impact-assessment engine: a shallow embedding of [main.py]

    The engine of [src/main.py] (enrichment, dispersion estimate, the five
    sub-scores, the weighted overall score, the category and the
    recommendation list) is embedded as Rocq functions, together with the
    pydantic records of [src/models.py].  The other endpoints of [main.py]
    (classifier, city proximity, blueprint upload), the analyzer of
    [src/blueprint_utils.py] and the row labelling of
    [src/scripts/generate_data.py] follow.

    Numbers.  Python [int]s are [Z].  Python [float]s that are data (request
    fields, CSV cells, scores) are rationals [Q]: every finite float is a
    rational, and the arithmetic of the engine is carried out exactly, so
    rounding error, infinities and NaN are outside the model.  The one
    place where a finite request makes the arithmetic of [calculate_impact]
    raise, the conversion of the int [vehicles_per_day] to a float at line
    179, is embedded by [float_of_int] and [calculate_impact_checked].  The
    only transcendental code, [haversine], is embedded over the real
    numbers [R].  Text is ASCII.

    Errors.  Python exceptions are the [Raise] branch of the [result] monad
    of [Module Py]. *)

From Stdlib Require Import Reals ROrderedType Lra.
From Stdlib Require Import ZArith QArith Qround Qreals Qabs Lqa Lia.
From Stdlib Require Import String Ascii List Bool.
Import ListNotations.

Local Open Scope Q_scope.
Local Open Scope string_scope.

(* ================================================================== *)
(** ** Python primitives used by the engine *)
(* ================================================================== *)

Module Py.

(** The exceptions the embedded code can raise. *)
Inductive exn : Type :=
| ZeroDivisionError
| ValueError
| OverflowError
| HTTPException (status_code : Z) (detail : string).

Inductive result (A : Type) : Type :=
| Ok (a : A)
| Raise (e : exn).

Arguments Ok {A} a.
Arguments Raise {A} e.

Definition bind {A B : Type} (m : result A) (k : A -> result B) : result B :=
  match m with
  | Ok a => k a
  | Raise e => Raise e
  end.

(** [x > y] and [x < y] on floats. *)
Definition Qltb (x y : Q) : bool := negb (Qle_bool y x).

(** [a / b] with a divisor that is not a literal. *)
Definition truediv (a b : Q) : result Q :=
  if Qeq_bool b 0 then Raise ZeroDivisionError else Ok (a / b).

(** [min(a, b)]: the first argument unless the second is strictly smaller. *)
Definition min (a b : Q) : Q := if Qltb b a then b else a.

(** [max(a, b)]: the first argument unless the second is strictly larger. *)
Definition max (a b : Q) : Q := if Qltb a b then b else a.

(** [int(x)] on a finite float: truncation toward zero. *)
Definition int (x : Q) : Z := Z.quot (Qnum x) (Zpos (Qden x)).

(** The least magnitude of an int that has no float: it lies half-way
    between the largest finite double, [2^1024 - 2^971], and [2^1024], and
    rounds to the latter. *)
Definition float_overflow : Z := (2 ^ 1024 - 2 ^ 970)%Z.

(** [float(n)] on an int, as [n * x] performs it on its int operand before
    it multiplies: OverflowError (int too large to convert to float) from
    [float_overflow] on, and otherwise the float of the int, which the exact
    arithmetic of the model takes to be the int itself. *)
Definition float_of_int (n : Z) : result Q :=
  if (Z.abs n <? float_overflow)%Z then Ok (inject_Z n) else Raise OverflowError.

(** Nearest integer, ties to the even one. *)
Definition round_half_even (x : Q) : Z :=
  let f := Qfloor x in
  match Qcompare (x - inject_Z f) 0.5 with
  | Lt => f
  | Gt => (f + 1)%Z
  | Eq => if Z.even f then f else (f + 1)%Z
  end.

(** [round(x, ndigits)] on a float, for [ndigits >= 0]. *)
Definition round (x : Q) (ndigits : nat) : Q :=
  let m := inject_Z (10 ^ Z.of_nat ndigits) in
  inject_Z (round_half_even (x * m)) / m.

(** [round(n, ndigits)] on an int, for [ndigits >= 0]: the int itself. *)
Definition round_int (n : Z) (ndigits : nat) : Z := n.

(** [str.lower] on ASCII text. *)
Definition lower_ascii (c : ascii) : ascii :=
  let n := nat_of_ascii c in
  if (65 <=? n)%nat && (n <=? 90)%nat then ascii_of_nat (n + 32) else c.

Fixpoint lower (s : string) : string :=
  match s with
  | EmptyString => EmptyString
  | String c r => String (lower_ascii c) (lower r)
  end.

(** [str.isspace] on one ASCII character. *)
Definition isspace (c : ascii) : bool :=
  let n := nat_of_ascii c in
  ((9 <=? n)%nat && (n <=? 13)%nat) || ((28 <=? n)%nat && (n <=? 32)%nat).

Fixpoint lstrip (s : string) : string :=
  match s with
  | EmptyString => EmptyString
  | String c r => if isspace c then lstrip r else s
  end.

Fixpoint rstrip (s : string) : string :=
  match s with
  | EmptyString => EmptyString
  | String c r =>
      match rstrip r with
      | EmptyString => if isspace c then EmptyString else String c EmptyString
      | r' => String c r'
      end
  end.

(** [str.strip] with no argument. *)
Definition strip (s : string) : string := rstrip (lstrip s).

(** [math.radians]. *)
Definition radians (x : R) : R := (x * PI / 180)%R.

End Py.

Notation "x <- m ;; k" := (Py.bind m (fun x => k))
  (at level 61, m at next level, right associativity).

(* ================================================================== *)
(** ** [models.py] *)
(* ================================================================== *)

Module UserInput.
Record t : Type := mk {
  city : string;
  project_type : string;
  land_area_m2 : Q;
  built_up_area_m2 : Q;
  floors : Z;
  daily_water_m3 : Q;
  daily_waste_kg : Q;
  hazardous_waste_kg_per_month : Q;
  vehicles_per_day : Z;
  fuel_consumption_l_per_day : Q;
  dg_hours_per_day : Q;
  distance_to_residential_m : Q;
  distance_to_water_body_km : Q;
  vegetation_removed_percent : Q;
  green_area_percent : Q;
  has_rainwater_harvesting : Z;
  has_solar : Z;
  energy_efficient_lighting : Z;
  waste_segregation : Z;
  stp_present : Z
}.
End UserInput.

Module EnrichedProjectInput.
Record t : Type := mk {
  land_area_m2 : Q;
  built_up_area_m2 : Q;
  floors : Z;
  daily_water_m3 : Q;
  daily_waste_kg : Q;
  hazardous_waste_kg_per_month : Q;
  vehicles_per_day : Z;
  fuel_consumption_l_per_day : Q;
  distance_to_residential_m : Q;
  vegetation_removed_percent : Q;
  avg_noise_db : Q;
  near_sensitive_zone : Z;
  baseline_pm25 : Q;
  baseline_no2 : Q;
  baseline_so2 : Q;
  baseline_co : Q;
  baseline_o3 : Q;
  dg_hours_per_day : Q;
  distance_to_water_body_km : Q;
  stp_present : Z;
  has_rainwater_harvesting : Z;
  waste_segregation : Z;
  green_area_percent : Z;
  has_solar : Z;
  energy_efficient_lighting : Z;
  rooms : Z
}.
End EnrichedProjectInput.

Module ImpactResult.
Record t : Type := mk {
  overall_score : Q;
  impact_class : string;
  breakdown : list (string * Q);
  added_pollution : list (string * Q);
  final_pollution : list (string * Q);
  recommendations : list string
}.
End ImpactResult.

Module MLPrediction.
Record t : Type := mk {
  predicted_class : Z;
  label : string;
  confidence : Q
}.
End MLPrediction.

(* ================================================================== *)
(** ** Floats with infinities, as [blueprint_utils.py] uses them *)
(* ================================================================== *)

(** [analyze_blueprint] starts its bounding box at [float('inf')] and
    [float('-inf')], so its accumulators range over the extended floats.
    Finite values stay exact rationals. *)
Module Float.

Inductive t : Type :=
| NaN
| NegInf
| Fin (q : Q)
| PosInf.

(** An int used where a float is expected. *)
Definition of_int (n : Z) : t := Fin (inject_Z n).

(** [x < y]; every comparison with NaN is false. *)
Definition ltb (x y : t) : bool :=
  match x, y with
  | NaN, _ => false
  | _, NaN => false
  | NegInf, NegInf => false
  | NegInf, _ => true
  | Fin _, NegInf => false
  | Fin a, Fin b => Py.Qltb a b
  | Fin _, PosInf => true
  | PosInf, _ => false
  end.

(** [x == y]. *)
Definition eqb (x y : t) : bool :=
  match x, y with
  | NegInf, NegInf => true
  | Fin a, Fin b => Qeq_bool a b
  | PosInf, PosInf => true
  | _, _ => false
  end.

(** [x != y]. *)
Definition neb (x y : t) : bool := negb (eqb x y).

(** [min(a, b, c)]: the first of the smallest, scanning left to right. *)
Definition min3 (a b c : t) : t :=
  let m := a in
  let m := if ltb b m then b else m in
  if ltb c m then c else m.

(** [max(a, b, c)]: the first of the largest, scanning left to right. *)
Definition max3 (a b c : t) : t :=
  let m := a in
  let m := if ltb m b then b else m in
  if ltb m c then c else m.

(** [x - y]. *)
Definition sub (x y : t) : t :=
  match x, y with
  | NaN, _ => NaN
  | _, NaN => NaN
  | Fin a, Fin b => Fin (a - b)
  | Fin _, PosInf => NegInf
  | Fin _, NegInf => PosInf
  | PosInf, PosInf => NaN
  | PosInf, _ => PosInf
  | NegInf, NegInf => NaN
  | NegInf, _ => NegInf
  end.

(** An infinity times a finite factor. *)
Definition scale_inf (positive : bool) (a : Q) : t :=
  if Qeq_bool a 0 then NaN
  else if Bool.eqb positive (Py.Qltb 0 a) then PosInf else NegInf.

(** [x * y]. *)
Definition mul (x y : t) : t :=
  match x, y with
  | NaN, _ => NaN
  | _, NaN => NaN
  | Fin a, Fin b => Fin (a * b)
  | Fin a, PosInf => scale_inf true a
  | Fin a, NegInf => scale_inf false a
  | PosInf, Fin b => scale_inf true b
  | NegInf, Fin b => scale_inf false b
  | PosInf, PosInf => PosInf
  | NegInf, NegInf => PosInf
  | PosInf, NegInf => NegInf
  | NegInf, PosInf => NegInf
  end.

(** [x / y]: [ZeroDivisionError] on a zero divisor. *)
Definition truediv (x y : t) : Py.result t :=
  match y with
  | NaN => Py.Ok NaN
  | Fin b =>
      if Qeq_bool b 0 then Py.Raise Py.ZeroDivisionError
      else match x with
           | NaN => Py.Ok NaN
           | Fin a => Py.Ok (Fin (a / b))
           | PosInf => Py.Ok (if Py.Qltb 0 b then PosInf else NegInf)
           | NegInf => Py.Ok (if Py.Qltb 0 b then NegInf else PosInf)
           end
  | PosInf | NegInf =>
      match x with
      | Fin _ => Py.Ok (Fin 0)
      | _ => Py.Ok NaN
      end
  end.

(** [round(x, ndigits)]: infinities and NaN are returned unchanged. *)
Definition round (x : t) (ndigits : nat) : t :=
  match x with
  | Fin q => Fin (Py.round q ndigits)
  | _ => x
  end.

End Float.

(* ================================================================== *)
(** ** [blueprint_utils.py] *)
(* ================================================================== *)

Module BlueprintUtils.

Import Py.

(** An entity of the modelspace: its type and, read for a LINE only, the
    x and y of [e.dxf.start] and [e.dxf.end]. *)
Record Entity : Type := mkEntity {
  dxftype : string;
  dxf_start : Q * Q;
  dxf_end : Q * Q
}.

(** What [ezdxf.readfile] does on a file. *)
Inductive ReadOutcome : Type :=
| RaisesIOError
| RaisesDXFStructureError
| RaisesException (str_e : string)
| Document (msp : list Entity).

(** The files on disk: path and content, the first entry of a path wins. *)
Definition FS : Type := list (string * string).

Fixpoint fs_read (fs : FS) (path : string) : option string :=
  match fs with
  | [] => None
  | (p, content) :: rest =>
      if String.eqb p path then Some content else fs_read rest path
  end.

(** The keys of the success dictionary, besides [success] and [message]. *)
Record Metrics : Type := mkMetrics {
  entity_counts : list (string * Z);
  total_entities : Z;
  estimated_width_m : Float.t;
  estimated_height_m : Float.t;
  estimated_area_m2 : Float.t;
  complexity_score : Z
}.

(** The dictionary returned by [analyze_blueprint]; [metrics] is present
    exactly on the success path. *)
Record Result : Type := mkResult {
  success : bool;
  metrics : option Metrics;
  message : string
}.

(** [key in counts]. *)
Definition dict_mem (key : string) (d : list (string * Z)) : bool :=
  existsb (fun kv => String.eqb (fst kv) key) d.

(** [counts[key] += 1] for a key that is present. *)
Definition dict_incr (key : string) (d : list (string * Z)) : list (string * Z) :=
  map (fun kv => if String.eqb (fst kv) key then (fst kv, (snd kv + 1)%Z) else kv) d.

(** Lines 15-22. *)
Definition counts0 : list (string * Z) :=
  [ ("LINE", 0%Z); ("CIRCLE", 0%Z); ("ARC", 0%Z); ("LWPOLYLINE", 0%Z);
    ("TEXT", 0%Z); ("MTEXT", 0%Z) ].

(** The variables the loop of lines 30-41 updates. *)
Record Acc : Type := mkAcc {
  counts : list (string * Z);
  min_x : Float.t;
  min_y : Float.t;
  max_x : Float.t;
  max_y : Float.t;
  entity_count : Z
}.

(** Lines 15-28. *)
Definition acc0 : Acc :=
  {| counts := counts0;
     min_x := Float.PosInf; min_y := Float.PosInf;
     max_x := Float.NegInf; max_y := Float.NegInf;
     entity_count := 0 |}.

(** Lines 31-41: one turn of the loop. *)
Definition loop_body (acc : Acc) (e : Entity) : Acc :=
  let dxftype := dxftype e in
  let counts :=
    if dict_mem dxftype (counts acc) then dict_incr dxftype (counts acc)
    else counts acc in
  let entity_count := (entity_count acc + 1)%Z in
  if String.eqb dxftype "LINE" then
    {| counts := counts;
       min_x := Float.min3 (min_x acc) (Float.Fin (fst (dxf_start e)))
                           (Float.Fin (fst (dxf_end e)));
       max_x := Float.max3 (max_x acc) (Float.Fin (fst (dxf_start e)))
                           (Float.Fin (fst (dxf_end e)));
       min_y := Float.min3 (min_y acc) (Float.Fin (snd (dxf_start e)))
                           (Float.Fin (snd (dxf_end e)));
       max_y := Float.max3 (max_y acc) (Float.Fin (snd (dxf_start e)))
                           (Float.Fin (snd (dxf_end e)));
       entity_count := entity_count |}
  else
    {| counts := counts;
       min_x := min_x acc; min_y := min_y acc;
       max_x := max_x acc; max_y := max_y acc;
       entity_count := entity_count |}.

(** Lines 44-51: width, height and area. *)
Definition dimensions (acc : Acc) : Float.t * Float.t * Float.t :=
  let width := Float.of_int 0 in
  let height := Float.of_int 0 in
  let area := Float.of_int 0 in
  if Float.neb (min_x acc) Float.PosInf then
    let width := Float.sub (max_x acc) (min_x acc) in
    let height := Float.sub (max_y acc) (min_y acc) in
    let area := Float.mul width height in
    (width, height, area)
  else (width, height, area).

(** Lines 55-61: the complexity heuristic. *)
Definition complexity (entity_count : Z) (area : Float.t) : result Z :=
  let complexity_score := 1%Z in
  complexity_score <-
    (if Float.ltb (Float.of_int 0) area then
       density <- Float.truediv (Float.of_int entity_count) area ;;
       Ok (if Float.ltb (Float.Fin 0.1) density then 3%Z
           else if Float.ltb (Float.Fin 0.01) density then 2%Z
           else complexity_score)
     else Ok complexity_score) ;;
  Ok (if (1000 <? entity_count)%Z then (complexity_score + 1)%Z
      else complexity_score).

(** Lines 12-75: the body of the [try], once the file has been read. *)
Definition analyze_document (msp : list Entity) : result Result :=
  let acc := fold_left loop_body msp acc0 in
  let '(width, height, area) := dimensions acc in
  complexity_score <- complexity (entity_count acc) area ;;
  let final_complexity := Z.min 10 (complexity_score * 2) in
  Ok {| success := true;
        metrics := Some {| entity_counts := counts acc;
                           total_entities := entity_count acc;
                           estimated_width_m := Float.round width 2;
                           estimated_height_m := Float.round height 2;
                           estimated_area_m2 := Float.round area 2;
                           complexity_score := final_complexity |};
        message := "DXF Analysis Successful" |}.

Section Ezdxf.

(** The DXF parser of the [ezdxf] library, on the content of a file. *)
Variable ezdxf_parse : string -> ReadOutcome.

(** [str(e)] on an exception raised inside the [try]. *)
Variable str_exn : exn -> string.

(** [ezdxf.readfile(file_path)]: a missing file is an [IOError]. *)
Definition readfile (fs : FS) (file_path : string) : ReadOutcome :=
  match fs_read fs file_path with
  | Some content => ezdxf_parse content
  | None => RaisesIOError
  end.

(** [analyze_blueprint] (lines 5-82). *)
Definition analyze_blueprint (fs : FS) (file_path : string) : Result :=
  match readfile fs file_path with
  | Document msp =>
      match analyze_document msp with
      | Ok r => r
      | Raise e =>
          {| success := false; metrics := None; message := str_exn e |}
      end
  | RaisesIOError =>
      {| success := false; metrics := None;
         message := "Not a valid DXF file or file not found." |}
  | RaisesDXFStructureError =>
      {| success := false; metrics := None;
         message := "Invalid or Corrupt DXF file." |}
  | RaisesException str_e =>
      {| success := false; metrics := None; message := str_e |}
  end.

End Ezdxf.

End BlueprintUtils.

(** [models.py], lines 95-98. *)
Module BlueprintResult.
Record t : Type := mk {
  success : bool;
  data : option BlueprintUtils.Result;
  message : string
}.
End BlueprintResult.

(* ================================================================== *)
(** ** Rounding a real distance *)
(* ================================================================== *)

(** [round(x, ndigits)] on the result of [haversine], which is a real
    number in this development: the definition of [Py.round], on [R]. *)
Module PyReal.

Definition round_half_even (x : R) : Z :=
  let f := Int_part x in
  match Rcompare (x - IZR f) (1 / 2) with
  | Lt => f
  | Gt => (f + 1)%Z
  | Eq => if Z.even f then f else (f + 1)%Z
  end.

Definition round (x : R) (ndigits : nat) : R :=
  let m := IZR (10 ^ Z.of_nat ndigits) in
  (IZR (round_half_even (x * m)) / m)%R.

End PyReal.

(* ================================================================== *)
(** ** [main.py] *)
(* ================================================================== *)

Module Main.

Import Py.

(** *** Resources (main.py, lines 31-43) *)

(** One line of [data/cities_aqi.csv]. *)
Record CsvCity : Type := mkCsvCity {
  city : string;
  latitude : Q;
  longitude : Q;
  pm25 : Q;
  no2 : Q;
  so2 : Q;
  co_mg_m3 : Q;
  o3 : Q
}.

(** A row of [CITIES_DB]: the CSV columns and the added [city_lower]. *)
Record CityRow : Type := mkCityRow {
  csv : CsvCity;
  city_lower : string
}.

(** One line of [data/sensitive_locations.csv]. *)
Record SensitiveRow : Type := mkSensitiveRow {
  name : string;
  category : string;
  lat : Q;
  lng : Q
}.

(** The classifier unpickled from [impact_model.pkl]. *)
Record Model : Type := mkModel {
  predict : list Q -> Z;
  predict_proba : list Q -> list Q
}.

(** The three module-level globals. *)
Record Resources : Type := mkResources {
  ML_MODEL : option Model;
  SENSITIVE_LOCS : option (list SensitiveRow);
  CITIES_DB : option (list CityRow)
}.

(** The [try] block at import time.  Each argument is the outcome of one
    read ([None] when it raises); any failure leaves all three globals
    [None]. *)
Definition load_resources
  (model_file : option Model)
  (sensitive_csv : option (list SensitiveRow))
  (cities_csv : option (list CsvCity)) : Resources :=
  match model_file, sensitive_csv, cities_csv with
  | Some m, Some s, Some c =>
      {| ML_MODEL := Some m;
         SENSITIVE_LOCS := Some s;
         CITIES_DB := Some (map (fun r => mkCityRow r (lower (city r))) c) |}
  | _, _, _ =>
      {| ML_MODEL := None; SENSITIVE_LOCS := None; CITIES_DB := None |}
  end.

(** *** [haversine] (main.py, lines 54-65) *)

Definition haversine (lon1 lat1 lon2 lat2 : R) : R :=
  let lon1 := radians lon1 in
  let lat1 := radians lat1 in
  let lon2 := radians lon2 in
  let lat2 := radians lat2 in
  let dlon := (lon2 - lon1)%R in
  let dlat := (lat2 - lat1)%R in
  let a := ((sin (dlat / 2)) ^ 2 + cos lat1 * cos lat2 * (sin (dlon / 2)) ^ 2)%R in
  let c := (2 * asin (sqrt a))%R in
  let r := 6371%R in
  (c * r)%R.

(** *** [enrich_data] (main.py, lines 67-134) *)

(** The [defaults] dictionary. *)
Definition defaults_pm25 : Q := 100.0.
Definition defaults_no2 : Q := 40.0.
Definition defaults_so2 : Q := 15.0.
Definition defaults_co : Q := 1.5.
Definition defaults_o3 : Q := 30.0.
Definition defaults_lat : Q := 20.5937.
Definition defaults_lng : Q := 78.9629.
Definition defaults_noise : Q := 55.0.

(** Lines 77-83: [city_key] and [city_data]. *)
Definition city_key (user_input : UserInput.t) : string :=
  strip (lower (UserInput.city user_input)).

Definition city_data (res : Resources) (user_input : UserInput.t)
  : option CityRow :=
  match CITIES_DB res with
  | Some db => find (fun row => String.eqb (city_lower row) (city_key user_input)) db
  | None => None
  end.

(** Lines 86-87: the resolved coordinates [(lat, lng)]. *)
Definition resolved_lat (res : Resources) (user_input : UserInput.t) : Q :=
  match city_data res user_input with
  | Some c => latitude (csv c)
  | None => defaults_lat
  end.

Definition resolved_lng (res : Resources) (user_input : UserInput.t) : Q :=
  match city_data res user_input with
  | Some c => longitude (csv c)
  | None => defaults_lng
  end.

(** Lines 93-97: the loop over the rows, leaving at the first hit. *)
Fixpoint near_sensitive_loop (lng0 lat0 : Q) (rows : list SensitiveRow) : Z :=
  match rows with
  | [] => 0%Z
  | row :: rest =>
      if Rlt_dec (haversine (Q2R lng0) (Q2R lat0) (Q2R (lng row)) (Q2R (lat row))) 5
      then 1%Z
      else near_sensitive_loop lng0 lat0 rest
  end.

(** Lines 91-97. *)
Definition near_sensitive (locs : option (list SensitiveRow)) (lng0 lat0 : Q) : Z :=
  match locs with
  | Some rows => near_sensitive_loop lng0 lat0 rows
  | None => 0%Z
  end.

(** Lines 100-102. *)
Definition base_noise (user_input : UserInput.t) : Q :=
  if String.eqb (UserInput.project_type user_input) "Industrial" then 75.0
  else if String.eqb (UserInput.project_type user_input) "Commercial" then 65.0
  else 50.0.

Definition enrich_data (res : Resources) (user_input : UserInput.t)
  : EnrichedProjectInput.t :=
  let city_data := city_data res user_input in
  let lat := resolved_lat res user_input in
  let lng := resolved_lng res user_input in
  let near_sensitive := near_sensitive (SENSITIVE_LOCS res) lng lat in
  let base_noise := base_noise user_input in
  {| EnrichedProjectInput.land_area_m2 := UserInput.land_area_m2 user_input;
     EnrichedProjectInput.built_up_area_m2 := UserInput.built_up_area_m2 user_input;
     EnrichedProjectInput.floors := UserInput.floors user_input;
     EnrichedProjectInput.daily_water_m3 := UserInput.daily_water_m3 user_input;
     EnrichedProjectInput.daily_waste_kg := UserInput.daily_waste_kg user_input;
     EnrichedProjectInput.hazardous_waste_kg_per_month :=
       UserInput.hazardous_waste_kg_per_month user_input;
     EnrichedProjectInput.vehicles_per_day := UserInput.vehicles_per_day user_input;
     EnrichedProjectInput.fuel_consumption_l_per_day :=
       UserInput.fuel_consumption_l_per_day user_input;
     EnrichedProjectInput.distance_to_residential_m :=
       UserInput.distance_to_residential_m user_input;
     EnrichedProjectInput.vegetation_removed_percent :=
       UserInput.vegetation_removed_percent user_input;
     EnrichedProjectInput.avg_noise_db := base_noise;
     EnrichedProjectInput.near_sensitive_zone := near_sensitive;
     EnrichedProjectInput.baseline_pm25 :=
       match city_data with Some c => pm25 (csv c) | None => defaults_pm25 end;
     EnrichedProjectInput.baseline_no2 :=
       match city_data with Some c => no2 (csv c) | None => defaults_no2 end;
     EnrichedProjectInput.baseline_so2 :=
       match city_data with Some c => so2 (csv c) | None => defaults_so2 end;
     EnrichedProjectInput.baseline_co :=
       match city_data with Some c => co_mg_m3 (csv c) | None => defaults_co end;
     EnrichedProjectInput.baseline_o3 :=
       match city_data with Some c => o3 (csv c) | None => defaults_o3 end;
     EnrichedProjectInput.dg_hours_per_day := UserInput.dg_hours_per_day user_input;
     EnrichedProjectInput.distance_to_water_body_km :=
       UserInput.distance_to_water_body_km user_input;
     EnrichedProjectInput.stp_present := UserInput.stp_present user_input;
     EnrichedProjectInput.has_rainwater_harvesting :=
       UserInput.has_rainwater_harvesting user_input;
     EnrichedProjectInput.waste_segregation := UserInput.waste_segregation user_input;
     EnrichedProjectInput.green_area_percent :=
       int (UserInput.green_area_percent user_input);
     EnrichedProjectInput.has_solar := UserInput.has_solar user_input;
     EnrichedProjectInput.energy_efficient_lighting :=
       UserInput.energy_efficient_lighting user_input;
     EnrichedProjectInput.rooms := 1 |}.

(** *** [calculate_impact] (main.py, lines 172-267) *)

(** Lines 179-180: added pollution. *)
Definition added_pm25 (data : EnrichedProjectInput.t) : Q :=
  ((inject_Z (EnrichedProjectInput.vehicles_per_day data) * 0.5)
   + (EnrichedProjectInput.fuel_consumption_l_per_day data * 2)) / 1000.

Definition added_no2 (data : EnrichedProjectInput.t) : Q :=
  ((inject_Z (EnrichedProjectInput.vehicles_per_day data) * 0.2)
   + (EnrichedProjectInput.fuel_consumption_l_per_day data * 20)) / 1000.

(** Line 183: construction dust. *)
Definition construction_dust (data : EnrichedProjectInput.t) : Q :=
  EnrichedProjectInput.built_up_area_m2 data * 0.0001
  * (1 + (EnrichedProjectInput.vegetation_removed_percent data / 100)).

(** Lines 186-187: final concentrations. *)
Definition final_pm25 (data : EnrichedProjectInput.t) (added_pm25 : Q) : Q :=
  EnrichedProjectInput.baseline_pm25 data + (added_pm25 * 50).

Definition final_no2 (data : EnrichedProjectInput.t) (added_no2 : Q) : Q :=
  EnrichedProjectInput.baseline_no2 data + (added_no2 * 50).

(** Lines 195-196: air score. *)
Definition air_score (data : EnrichedProjectInput.t) (final_pm25 final_no2 : Q) : Q :=
  let air_score :=
    (final_pm25 / 250 * 50) + (final_no2 / 100 * 30)
    + (EnrichedProjectInput.dg_hours_per_day data * 2) in
  min 100 air_score.

(** Lines 204-212: water score.  The score is built from int literals only,
    so it is an int. *)
Definition persons (data : EnrichedProjectInput.t) : Q :=
  max 1 (EnrichedProjectInput.built_up_area_m2 data / 15).

Definition water_score (data : EnrichedProjectInput.t) : result Z :=
  let persons := persons data in
  lpcd <- truediv (EnrichedProjectInput.daily_water_m3 data * 1000) persons ;;
  let water_score := 0%Z in
  let water_score :=
    if Qltb 150 lpcd then (water_score + 40)%Z else water_score in
  let water_score :=
    if Qltb (EnrichedProjectInput.distance_to_water_body_km data) 0.5
    then (water_score + 40)%Z else water_score in
  let water_score :=
    if (EnrichedProjectInput.stp_present data =? 0)%Z
    then (water_score + 20)%Z else water_score in
  let water_score :=
    if (EnrichedProjectInput.has_rainwater_harvesting data =? 1)%Z
    then (water_score - 10)%Z else water_score in
  Ok (Z.max 0 (Z.min 100 water_score)).

(** Lines 215-217: waste score. *)
Definition waste_score (data : EnrichedProjectInput.t) : Q :=
  let waste_score :=
    (EnrichedProjectInput.daily_waste_kg data / 100 * 10)
    + (EnrichedProjectInput.hazardous_waste_kg_per_month data * 2) in
  let waste_score :=
    if (EnrichedProjectInput.waste_segregation data =? 0)%Z
    then waste_score + 20 else waste_score in
  min 100 waste_score.

(** Lines 220-223: land score. *)
Definition land_score (data : EnrichedProjectInput.t) : Q :=
  let land_score := EnrichedProjectInput.vegetation_removed_percent data in
  let land_score :=
    if (EnrichedProjectInput.near_sensitive_zone data =? 1)%Z
    then land_score + 40 else land_score in
  let land_score :=
    if (EnrichedProjectInput.green_area_percent data <? 10)%Z
    then land_score + 20 else land_score in
  min 100 land_score.

(** Lines 226-229: noise score. *)
Definition noise_score (data : EnrichedProjectInput.t) : Q :=
  let noise_score := EnrichedProjectInput.avg_noise_db data - 45 in
  let noise_score := max 0 (noise_score * 2) in
  let noise_score :=
    if Qltb (EnrichedProjectInput.distance_to_residential_m data) 50
    then noise_score + 20 else noise_score in
  min 100 noise_score.

(** Line 233: the weighted sum. *)
Definition overall_score (air_score : Q) (water_score : Z)
  (land_score waste_score noise_score : Q) : Q :=
  (air_score * 0.3) + (inject_Z water_score * 0.25) + (land_score * 0.2)
  + (waste_score * 0.15) + (noise_score * 0.10).

(** Lines 236-241: recommendations, appended in program order. *)
Definition rec_air : string :=
  "High Air Pollution risk: Install Air Purifiers and Smog Towers.".
Definition rec_water : string :=
  "Critical Water usage: Mandate STP and Rainwater Harvesting.".
Definition rec_land : string :=
  "High ecological impact: Increase Green Belt area > 30%.".
Definition rec_solar : string :=
  "Energy: Install Solar Panels to reduce carbon footprint.".
Definition rec_led : string :=
  "Energy: Switch to LED lighting.".

Definition recs (data : EnrichedProjectInput.t)
  (air_score : Q) (water_score : Z) (land_score : Q) : list string :=
  let recs : list string := [] in
  let recs := if Qltb 50 air_score then (recs ++ [rec_air])%list else recs in
  let recs := if (50 <? water_score)%Z then (recs ++ [rec_water])%list else recs in
  let recs := if Qltb 50 land_score then (recs ++ [rec_land])%list else recs in
  let recs :=
    if (EnrichedProjectInput.has_solar data =? 0)%Z
    then (recs ++ [rec_solar])%list else recs in
  let recs :=
    if (EnrichedProjectInput.energy_efficient_lighting data =? 0)%Z
    then (recs ++ [rec_led])%list else recs in
  recs.

(** Lines 244-246: the class, decided on the weighted sum of line 233. *)
Definition imp_class (overall_score : Q) : string :=
  if Qltb 60 overall_score then "High"
  else if Qltb 30 overall_score then "Moderate"
  else "Low".

Definition calculate_impact (res : Resources) (user_data : UserInput.t)
  : result ImpactResult.t :=
  let data := enrich_data res user_data in
  let added_pm25 := added_pm25 data in
  let added_no2 := added_no2 data in
  let construction_dust := construction_dust data in
  let final_pm25 := final_pm25 data added_pm25 in
  let final_no2 := final_no2 data added_no2 in
  let air_score := air_score data final_pm25 final_no2 in
  water_score <- water_score data ;;
  let waste_score := waste_score data in
  let land_score := land_score data in
  let noise_score := noise_score data in
  let overall_score :=
    overall_score air_score water_score land_score waste_score noise_score in
  let recs := recs data air_score water_score land_score in
  let imp_class := imp_class overall_score in
  Ok {| ImpactResult.overall_score := round overall_score 1;
        ImpactResult.impact_class := imp_class;
        ImpactResult.breakdown :=
          [ ("Air Impact", round air_score 1);
            ("Water Impact", inject_Z (round_int water_score 1));
            ("Land Impact", round land_score 1);
            ("Waste Impact", round waste_score 1);
            ("Noise Impact", round noise_score 1) ];
        ImpactResult.added_pollution :=
          [ ("PM2.5", round added_pm25 4); ("NO2", round added_no2 4) ];
        ImpactResult.final_pollution :=
          [ ("PM2.5", round final_pm25 2); ("NO2", round final_no2 2) ];
        ImpactResult.recommendations := recs |}.

(** The same pipeline with the construction-dust line (183) deleted. *)
Definition calculate_impact_without_dust (res : Resources) (user_data : UserInput.t)
  : result ImpactResult.t :=
  let data := enrich_data res user_data in
  let added_pm25 := added_pm25 data in
  let added_no2 := added_no2 data in
  let final_pm25 := final_pm25 data added_pm25 in
  let final_no2 := final_no2 data added_no2 in
  let air_score := air_score data final_pm25 final_no2 in
  water_score <- water_score data ;;
  let waste_score := waste_score data in
  let land_score := land_score data in
  let noise_score := noise_score data in
  let overall_score :=
    overall_score air_score water_score land_score waste_score noise_score in
  let recs := recs data air_score water_score land_score in
  let imp_class := imp_class overall_score in
  Ok {| ImpactResult.overall_score := round overall_score 1;
        ImpactResult.impact_class := imp_class;
        ImpactResult.breakdown :=
          [ ("Air Impact", round air_score 1);
            ("Water Impact", inject_Z (round_int water_score 1));
            ("Land Impact", round land_score 1);
            ("Waste Impact", round waste_score 1);
            ("Noise Impact", round noise_score 1) ];
        ImpactResult.added_pollution :=
          [ ("PM2.5", round added_pm25 4); ("NO2", round added_no2 4) ];
        ImpactResult.final_pollution :=
          [ ("PM2.5", round final_pm25 2); ("NO2", round final_no2 2) ];
        ImpactResult.recommendations := recs |}.

(** [calculate_impact] with the conversion that line 179 performs made
    explicit.  [data.vehicles_per_day * 0.5] multiplies an int by a float:
    the int is converted first, and a count of magnitude [float_overflow]
    or more raises OverflowError there, after enrichment (line 175) and
    before anything is scored.  Line 180 converts the same int again. *)
Definition calculate_impact_checked (res : Resources) (user_data : UserInput.t)
  : result ImpactResult.t :=
  let data := enrich_data res user_data in
  vehicles <- float_of_int (EnrichedProjectInput.vehicles_per_day data) ;;
  calculate_impact res user_data.

(** *** [predict_impact_ml] (main.py, lines 269-315) *)

(** [max(probs)]: [ValueError] on an empty sequence. *)
Definition max_seq (probs : list Q) : result Q :=
  match probs with
  | [] => Raise ValueError
  | p :: rest => Ok (fold_left (fun m x => if Qltb m x then x else m) rest p)
  end.

Definition labels_get (k : Z) : string :=
  if (k =? 0)%Z then "Low"
  else if (k =? 1)%Z then "Moderate"
  else if (k =? 2)%Z then "High"
  else "Unknown".

Definition predict_impact_ml (res : Resources) (user_data : UserInput.t)
  : result MLPrediction.t :=
  match ML_MODEL res with
  | None => Raise (HTTPException 503 "ML Model not loaded")
  | Some model =>
      let data := enrich_data res user_data in
      let added_pm25 := added_pm25 data in
      let added_no2 := added_no2 data in
      let construction_dust := construction_dust data in
      let final_pm25 := final_pm25 data added_pm25 in
      let final_no2 := final_no2 data added_no2 in
      let final_so2 := EnrichedProjectInput.baseline_so2 data in
      let final_co := EnrichedProjectInput.baseline_co data in
      let features :=
        [ EnrichedProjectInput.land_area_m2 data;
          EnrichedProjectInput.built_up_area_m2 data;
          inject_Z (EnrichedProjectInput.floors data);
          EnrichedProjectInput.daily_water_m3 data;
          EnrichedProjectInput.daily_waste_kg data;
          EnrichedProjectInput.hazardous_waste_kg_per_month data;
          EnrichedProjectInput.avg_noise_db data;
          EnrichedProjectInput.distance_to_residential_m data;
          EnrichedProjectInput.vegetation_removed_percent data;
          inject_Z (EnrichedProjectInput.near_sensitive_zone data);
          inject_Z (EnrichedProjectInput.vehicles_per_day data);
          EnrichedProjectInput.fuel_consumption_l_per_day data;
          final_pm25; final_no2; final_so2; final_co ] in
      let pred_class := predict model features in
      let probs := predict_proba model features in
      confidence <- max_seq probs ;;
      Ok {| MLPrediction.predicted_class := pred_class;
            MLPrediction.label := labels_get pred_class;
            MLPrediction.confidence := round (confidence * 100) 2 |}
  end.

(** Lines 297-303: the feature vector handed to the classifier. *)
Definition features (data : EnrichedProjectInput.t) : list Q :=
  let added_pm25 := added_pm25 data in
  let added_no2 := added_no2 data in
  let final_pm25 := final_pm25 data added_pm25 in
  let final_no2 := final_no2 data added_no2 in
  let final_so2 := EnrichedProjectInput.baseline_so2 data in
  let final_co := EnrichedProjectInput.baseline_co data in
  [ EnrichedProjectInput.land_area_m2 data;
    EnrichedProjectInput.built_up_area_m2 data;
    inject_Z (EnrichedProjectInput.floors data);
    EnrichedProjectInput.daily_water_m3 data;
    EnrichedProjectInput.daily_waste_kg data;
    EnrichedProjectInput.hazardous_waste_kg_per_month data;
    EnrichedProjectInput.avg_noise_db data;
    EnrichedProjectInput.distance_to_residential_m data;
    EnrichedProjectInput.vegetation_removed_percent data;
    inject_Z (EnrichedProjectInput.near_sensitive_zone data);
    inject_Z (EnrichedProjectInput.vehicles_per_day data);
    EnrichedProjectInput.fuel_consumption_l_per_day data;
    final_pm25; final_no2; final_so2; final_co ].

(** *** [upload_blueprint] (main.py, lines 138-170) *)

(** The uploaded file: its name and its content. *)
Record UploadFile : Type := mkUploadFile {
  filename : string;
  file : string
}.

(** [s.endswith(suffix)]. *)
Definition endswith (s suffix : string) : bool :=
  (String.length suffix <=? String.length s)%nat
  && String.eqb
       (substring (String.length s - String.length suffix)
                  (String.length suffix) s)
       suffix.

(** [os.path.exists(path)]. *)
Definition os_path_exists (fs : BlueprintUtils.FS) (path : string) : bool :=
  match BlueprintUtils.fs_read fs path with
  | Some _ => true
  | None => false
  end.

(** [os.remove(path)]: [None] when it raises [FileNotFoundError]. *)
Definition os_remove (fs : BlueprintUtils.FS) (path : string)
  : option BlueprintUtils.FS :=
  if os_path_exists fs path
  then Some (filter (fun kv => negb (String.eqb (fst kv) path)) fs)
  else None.

(** [str(e)] for the [FileNotFoundError] of [os.remove]. *)
Definition str_file_not_found (path : string) : string :=
  "[Errno 2] No such file or directory: '" ++ path ++ "'".

Section UploadBlueprint.

Variable ezdxf_parse : string -> BlueprintUtils.ReadOutcome.
Variable str_exn : exn -> string.

(** The name [tempfile.NamedTemporaryFile(delete=False, suffix=".dxf")]
    gives to the file it creates, on the current disk. *)
Variable NamedTemporaryFile : BlueprintUtils.FS -> string.

(** The handler threads the disk: it returns the disk it leaves behind and
    the response. *)
Definition upload_blueprint (fs : BlueprintUtils.FS) (upload : UploadFile)
  : BlueprintUtils.FS * BlueprintResult.t :=
  if endswith (lower (filename upload)) ".dwg" then
    (fs,
     {| BlueprintResult.success := false;
        BlueprintResult.data := None;
        BlueprintResult.message :=
          "DWG files are binary and not supported. Please convert to .DXF using a CAD tool (or online converter) and upload." |})
  else if negb (endswith (filename upload) ".dxf"
                || endswith (filename upload) ".DXF") then
    (fs,
     {| BlueprintResult.success := false;
        BlueprintResult.data := None;
        BlueprintResult.message :=
          "Only .DXF files are supported for Blueprint Analysis in this version." |})
  else
    let temp_path := NamedTemporaryFile fs in
    let fs := (temp_path, file upload) :: fs in
    let result :=
      BlueprintUtils.analyze_blueprint ezdxf_parse str_exn fs temp_path in
    match os_remove fs temp_path with
    | Some fs =>
        (fs,
         {| BlueprintResult.success := BlueprintUtils.success result;
            BlueprintResult.data := Some result;
            BlueprintResult.message := BlueprintUtils.message result |})
    | None =>
        let fs :=
          if os_path_exists fs temp_path
          then match os_remove fs temp_path with
               | Some fs' => fs'
               | None => fs
               end
          else fs in
        (fs,
         {| BlueprintResult.success := false;
            BlueprintResult.data := None;
            BlueprintResult.message := str_file_not_found temp_path |})
    end.

End UploadBlueprint.

(** *** [analyze_location_proximity] (main.py, lines 317-350) *)

(** [min_dist]: [float('inf')] or a distance in km. *)
Inductive Dist : Type :=
| Inf
| Km (d : R).

(** [dist < min_dist]. *)
Definition lt_dist (dist : R) (min_dist : Dist) : bool :=
  match min_dist with
  | Inf => true
  | Km m => if Rlt_dec dist m then true else false
  end.

(** [min_dist < x] for a literal [x]. *)
Definition dist_lt (min_dist : Dist) (x : R) : bool :=
  match min_dist with
  | Inf => false
  | Km m => if Rlt_dec m x then true else false
  end.

(** [round(min_dist, 2)]. *)
Definition round_dist (min_dist : Dist) (ndigits : nat) : Dist :=
  match min_dist with
  | Inf => Inf
  | Km m => Km (PyReal.round m ndigits)
  end.

(** The returned dictionary; the key [type] is absent from the three
    early returns. *)
Record LocationInfo : Type := mkLocationInfo {
  nearest_location : string;
  type : option string;
  distance_km : Dist;
  risk : string
}.

Inductive LocationOutcome : Type :=
| Returns (info : LocationInfo)
| RaisesTypeError.

(** Lines 335-339: one turn of the scan. *)
Definition nearest_step (lng0 lat0 : Q)
  (st : Dist * option SensitiveRow) (row : SensitiveRow)
  : Dist * option SensitiveRow :=
  let dist := haversine (Q2R lng0) (Q2R lat0) (Q2R (lng row)) (Q2R (lat row)) in
  if lt_dist dist (fst st) then (Km dist, Some row) else st.

Definition analyze_location_proximity (res : Resources) (city : string)
  : LocationOutcome :=
  match CITIES_DB res with
  | None =>
      Returns {| nearest_location := "Unknown"; type := None;
                 distance_km := Km 0; risk := "Unknown" |}
  | Some db =>
      match find (fun row => String.eqb (city_lower row) (lower city)) db with
      | None =>
          Returns {| nearest_location := "City Not Found"; type := None;
                     distance_km := Km 0; risk := "Unknown" |}
      | Some city_data =>
          let lat := latitude (csv city_data) in
          let lng := longitude (csv city_data) in
          match SENSITIVE_LOCS res with
          | None =>
              Returns {| nearest_location := "Unknown"; type := None;
                         distance_km := Km 0; risk := "Unknown" |}
          | Some rows =>
              let '(min_dist, nearest) :=
                fold_left (nearest_step lng lat) rows (Inf, None) in
              let risk :=
                if dist_lt min_dist 2 then "High"
                else if dist_lt min_dist 10 then "Moderate"
                else "Low" in
              match nearest with
              | Some nearest =>
                  Returns {| nearest_location := name nearest;
                             type := Some (category nearest);
                             distance_km := round_dist min_dist 2;
                             risk := risk |}
              | None => RaisesTypeError
              end
          end
      end
  end.

End Main.

(* ================================================================== *)
(** ** Vocabulary of the specification *)
(* ================================================================== *)

Module Spec.

Import Py Main.

(** A valid raw input: every numeric field is non-negative. *)
Definition valid_input (u : UserInput.t) : Prop :=
  0 <= UserInput.land_area_m2 u /\
  0 <= UserInput.built_up_area_m2 u /\
  (0 <= UserInput.floors u)%Z /\
  0 <= UserInput.daily_water_m3 u /\
  0 <= UserInput.daily_waste_kg u /\
  0 <= UserInput.hazardous_waste_kg_per_month u /\
  (0 <= UserInput.vehicles_per_day u)%Z /\
  0 <= UserInput.fuel_consumption_l_per_day u /\
  0 <= UserInput.dg_hours_per_day u /\
  0 <= UserInput.distance_to_residential_m u /\
  0 <= UserInput.distance_to_water_body_km u /\
  0 <= UserInput.vegetation_removed_percent u /\
  0 <= UserInput.green_area_percent u.

(** A raw input with at least one negative numeric field. *)
Definition has_negative_field (u : UserInput.t) : Prop :=
  UserInput.land_area_m2 u < 0 \/
  UserInput.built_up_area_m2 u < 0 \/
  (UserInput.floors u < 0)%Z \/
  UserInput.daily_water_m3 u < 0 \/
  UserInput.daily_waste_kg u < 0 \/
  UserInput.hazardous_waste_kg_per_month u < 0 \/
  (UserInput.vehicles_per_day u < 0)%Z \/
  UserInput.fuel_consumption_l_per_day u < 0 \/
  UserInput.dg_hours_per_day u < 0 \/
  UserInput.distance_to_residential_m u < 0 \/
  UserInput.distance_to_water_body_km u < 0 \/
  UserInput.vegetation_removed_percent u < 0 \/
  UserInput.green_area_percent u < 0.

(** A reference snapshot whose city rows carry non-negative baselines. *)
Definition nonneg_baselines (res : Resources) : Prop :=
  forall db row, CITIES_DB res = Some db -> In row db ->
    0 <= pm25 (csv row) /\ 0 <= no2 (csv row) /\ 0 <= so2 (csv row) /\
    0 <= co_mg_m3 (csv row) /\ 0 <= o3 (csv row).

(** The trimmed, lower-cased city name matches no row of the city table. *)
Definition city_not_found (res : Resources) (u : UserInput.t) : Prop :=
  match CITIES_DB res with
  | Some db =>
      forall row, In row db -> city_lower row <> strip (lower (UserInput.city u))
  | None => True
  end.

(** The value bound to [overall_score] at line 233, for the enriched record
    [data] and the water score [water]. *)
Definition weighted_sum (data : EnrichedProjectInput.t) (water : Z) : Q :=
  overall_score
    (air_score data (final_pm25 data (added_pm25 data))
                    (final_no2 data (added_no2 data)))
    water (land_score data) (waste_score data) (noise_score data).

(** The dictionary returned at lines 248-267, as a function of the enriched
    record [data] and of the water score [water]. *)
Definition response_of (data : EnrichedProjectInput.t) (water : Z)
  : ImpactResult.t :=
  let air := air_score data (final_pm25 data (added_pm25 data))
                            (final_no2 data (added_no2 data)) in
  {| ImpactResult.overall_score := round (weighted_sum data water) 1;
     ImpactResult.impact_class := imp_class (weighted_sum data water);
     ImpactResult.breakdown :=
       [ ("Air Impact", round air 1);
         ("Water Impact", inject_Z water);
         ("Land Impact", round (land_score data) 1);
         ("Waste Impact", round (waste_score data) 1);
         ("Noise Impact", round (noise_score data) 1) ];
     ImpactResult.added_pollution :=
       [ ("PM2.5", round (added_pm25 data) 4);
         ("NO2", round (added_no2 data) 4) ];
     ImpactResult.final_pollution :=
       [ ("PM2.5", round (final_pm25 data (added_pm25 data)) 2);
         ("NO2", round (final_no2 data (added_no2 data)) 2) ];
     ImpactResult.recommendations := recs data air water (land_score data) |}.

(** The vehicle count is one that line 179 can convert to a float. *)
Definition converts_to_float (n : Z) : Prop := (Z.abs n < float_overflow)%Z.

(** The five rules of the recommendation generator, in the order of the
    specification, each with its trigger and its text. *)
Definition rules (data : EnrichedProjectInput.t)
  (air : Q) (water : Z) (land : Q) : list (bool * string) :=
  [ (Qltb 50 air, rec_air);
    ((50 <? water)%Z, rec_water);
    (Qltb 50 land, rec_land);
    ((EnrichedProjectInput.has_solar data =? 0)%Z, rec_solar);
    ((EnrichedProjectInput.energy_efficient_lighting data =? 0)%Z, rec_led) ].

(** The texts of the triggered rules, in rule order. *)
Definition recs_spec (data : EnrichedProjectInput.t)
  (air : Q) (water : Z) (land : Q) : list string :=
  map snd (filter fst (rules data air water land)).

End Spec.

(* ================================================================== *)
(** ** Sample data *)
(* ================================================================== *)

Module Samples.

Import Py Main.

(** The state of the globals after a failed load. *)
Definition degraded : Resources := load_resources None None None.

Definition sample_cities : list CsvCity :=
  [ {| city := "Delhi"; latitude := 28.6139; longitude := 77.2090;
       pm25 := 153.0; no2 := 61.0; so2 := 14.0; co_mg_m3 := 1.8; o3 := 42.0 |};
    {| city := "Pune"; latitude := 18.5204; longitude := 73.8567;
       pm25 := 58.0; no2 := 32.0; so2 := 9.0; co_mg_m3 := 0.9; o3 := 27.0 |} ].

Definition sample_zones : list SensitiveRow :=
  [ {| name := "Sanjay Gandhi National Park"; category := "National Park";
       lat := 19.2147; lng := 72.9106 |} ].

Definition sample_model : Model :=
  {| predict := fun _ => 1%Z; predict_proba := fun _ => [0.2; 0.7; 0.1] |}.

Definition sample_resources : Resources :=
  load_resources (Some sample_model) (Some sample_zones) (Some sample_cities).

(** A commercial project in a listed city. *)
Definition sample_input : UserInput.t :=
  {| UserInput.city := "  Pune ";
     UserInput.project_type := "Commercial";
     UserInput.land_area_m2 := 1000;
     UserInput.built_up_area_m2 := 1500;
     UserInput.floors := 3;
     UserInput.daily_water_m3 := 20;
     UserInput.daily_waste_kg := 0;
     UserInput.hazardous_waste_kg_per_month := 0;
     UserInput.vehicles_per_day := 0;
     UserInput.fuel_consumption_l_per_day := 0;
     UserInput.dg_hours_per_day := 34;
     UserInput.distance_to_residential_m := 100;
     UserInput.distance_to_water_body_km := 0.3;
     UserInput.vegetation_removed_percent := 5.2;
     UserInput.green_area_percent := 9.9;
     UserInput.has_rainwater_harvesting := 0;
     UserInput.has_solar := 0;
     UserInput.energy_efficient_lighting := 0;
     UserInput.waste_segregation := 1;
     UserInput.stp_present := 0 |}.

(** The same project in a city that is in no table. *)
Definition unknown_city_input : UserInput.t :=
  {| UserInput.city := "Atlantis";
     UserInput.project_type := "Commercial";
     UserInput.land_area_m2 := 1000;
     UserInput.built_up_area_m2 := 1500;
     UserInput.floors := 3;
     UserInput.daily_water_m3 := 20;
     UserInput.daily_waste_kg := 0;
     UserInput.hazardous_waste_kg_per_month := 0;
     UserInput.vehicles_per_day := 0;
     UserInput.fuel_consumption_l_per_day := 0;
     UserInput.dg_hours_per_day := 34;
     UserInput.distance_to_residential_m := 100;
     UserInput.distance_to_water_body_km := 0.3;
     UserInput.vegetation_removed_percent := 5.2;
     UserInput.green_area_percent := 20;
     UserInput.has_rainwater_harvesting := 0;
     UserInput.has_solar := 0;
     UserInput.energy_efficient_lighting := 0;
     UserInput.waste_segregation := 1;
     UserInput.stp_present := 0 |}.

(** A request with negative land area, water use and vehicle count. *)
Definition negative_input : UserInput.t :=
  {| UserInput.city := "Pune";
     UserInput.project_type := "Residential";
     UserInput.land_area_m2 := -1000;
     UserInput.built_up_area_m2 := 1500;
     UserInput.floors := 3;
     UserInput.daily_water_m3 := -20;
     UserInput.daily_waste_kg := 50;
     UserInput.hazardous_waste_kg_per_month := 0;
     UserInput.vehicles_per_day := -40;
     UserInput.fuel_consumption_l_per_day := 10;
     UserInput.dg_hours_per_day := 2;
     UserInput.distance_to_residential_m := 100;
     UserInput.distance_to_water_body_km := 1.5;
     UserInput.vegetation_removed_percent := 0;
     UserInput.green_area_percent := 0;
     UserInput.has_rainwater_harvesting := 0;
     UserInput.has_solar := 0;
     UserInput.energy_efficient_lighting := 0;
     UserInput.waste_segregation := 0;
     UserInput.stp_present := 0 |}.

(** A valid request whose vehicle count, [10 ** 400], is beyond the range
    of a double. *)
Definition huge_traffic_input : UserInput.t :=
  {| UserInput.city := "Pune";
     UserInput.project_type := "Residential";
     UserInput.land_area_m2 := 1000;
     UserInput.built_up_area_m2 := 1500;
     UserInput.floors := 3;
     UserInput.daily_water_m3 := 20;
     UserInput.daily_waste_kg := 50;
     UserInput.hazardous_waste_kg_per_month := 0;
     UserInput.vehicles_per_day := 10 ^ 400;
     UserInput.fuel_consumption_l_per_day := 10;
     UserInput.dg_hours_per_day := 2;
     UserInput.distance_to_residential_m := 100;
     UserInput.distance_to_water_body_km := 1.5;
     UserInput.vegetation_removed_percent := 0;
     UserInput.green_area_percent := 0;
     UserInput.has_rainwater_harvesting := 0;
     UserInput.has_solar := 0;
     UserInput.energy_efficient_lighting := 0;
     UserInput.waste_segregation := 0;
     UserInput.stp_present := 0 |}.

End Samples.

(* ================================================================== *)
(** ** [scripts/generate_data.py]: the label of a synthetic row *)
(* ================================================================== *)

(** The labelling of one row of [generate_synthetic_data] (lines 53-88), as
    a function of the values the loop has drawn for that row. *)
Module GenerateData.

Import Py.

(** Lines 53-72: the score before the noise. *)
Definition score (water waste haz_waste : Q) (vehicles sensitive dist_res : Z)
  (veg_removed : Q) : Z :=
  let score := 0%Z in
  let score :=
    if Qltb 1000 water then (score + 15)%Z
    else if Qltb 100 water then (score + 10)%Z
    else (score + 5)%Z in
  let score :=
    if Qltb 500 waste then (score + 15)%Z
    else if Qltb 50 waste then (score + 10)%Z
    else (score + 5)%Z in
  let score := if Qltb 50 haz_waste then (score + 20)%Z else score in
  let score := if (500 <? vehicles)%Z then (score + 15)%Z else score in
  let score := if negb (sensitive =? 0)%Z then (score + 25)%Z else score in
  let score := if (dist_res <? 100)%Z then (score + 10)%Z else score in
  let score := if Qltb 50 veg_removed then (score + 10)%Z else score in
  score.

(** Line 76. *)
Definition final_score (score noise : Z) : Z :=
  Z.max 0 (Z.min 100 (score + noise)).

(** Lines 80-88: [(impact_class, label)]. *)
Definition impact_class (final_score : Z) : Z * string :=
  if (final_score <? 40)%Z then (0%Z, "Low")
  else if (final_score <? 70)%Z then (1%Z, "Moderate")
  else (2%Z, "High").

End GenerateData.

(* ================================================================== *)
(** ** Vocabulary of the further properties *)
(* ================================================================== *)

Module Derived.

Import Py Main BlueprintUtils.

(** The input [u] with its load fields replaced: vehicles, fuel, generator
    hours, daily waste, hazardous waste and vegetation removal. *)
Definition with_loads (u : UserInput.t) (vehicles : Z)
  (fuel dg waste hazardous vegetation : Q) : UserInput.t :=
  {| UserInput.city := UserInput.city u;
     UserInput.project_type := UserInput.project_type u;
     UserInput.land_area_m2 := UserInput.land_area_m2 u;
     UserInput.built_up_area_m2 := UserInput.built_up_area_m2 u;
     UserInput.floors := UserInput.floors u;
     UserInput.daily_water_m3 := UserInput.daily_water_m3 u;
     UserInput.daily_waste_kg := waste;
     UserInput.hazardous_waste_kg_per_month := hazardous;
     UserInput.vehicles_per_day := vehicles;
     UserInput.fuel_consumption_l_per_day := fuel;
     UserInput.dg_hours_per_day := dg;
     UserInput.distance_to_residential_m := UserInput.distance_to_residential_m u;
     UserInput.distance_to_water_body_km := UserInput.distance_to_water_body_km u;
     UserInput.vegetation_removed_percent := vegetation;
     UserInput.green_area_percent := UserInput.green_area_percent u;
     UserInput.has_rainwater_harvesting := UserInput.has_rainwater_harvesting u;
     UserInput.has_solar := UserInput.has_solar u;
     UserInput.energy_efficient_lighting := UserInput.energy_efficient_lighting u;
     UserInput.waste_segregation := UserInput.waste_segregation u;
     UserInput.stp_present := UserInput.stp_present u |}.

(** The input [u] with its rainwater-harvesting flag replaced. *)
Definition with_rainwater (u : UserInput.t) (flag : Z) : UserInput.t :=
  {| UserInput.city := UserInput.city u;
     UserInput.project_type := UserInput.project_type u;
     UserInput.land_area_m2 := UserInput.land_area_m2 u;
     UserInput.built_up_area_m2 := UserInput.built_up_area_m2 u;
     UserInput.floors := UserInput.floors u;
     UserInput.daily_water_m3 := UserInput.daily_water_m3 u;
     UserInput.daily_waste_kg := UserInput.daily_waste_kg u;
     UserInput.hazardous_waste_kg_per_month :=
       UserInput.hazardous_waste_kg_per_month u;
     UserInput.vehicles_per_day := UserInput.vehicles_per_day u;
     UserInput.fuel_consumption_l_per_day := UserInput.fuel_consumption_l_per_day u;
     UserInput.dg_hours_per_day := UserInput.dg_hours_per_day u;
     UserInput.distance_to_residential_m := UserInput.distance_to_residential_m u;
     UserInput.distance_to_water_body_km := UserInput.distance_to_water_body_km u;
     UserInput.vegetation_removed_percent := UserInput.vegetation_removed_percent u;
     UserInput.green_area_percent := UserInput.green_area_percent u;
     UserInput.has_rainwater_harvesting := flag;
     UserInput.has_solar := UserInput.has_solar u;
     UserInput.energy_efficient_lighting := UserInput.energy_efficient_lighting u;
     UserInput.waste_segregation := UserInput.waste_segregation u;
     UserInput.stp_present := UserInput.stp_present u |}.

(** The input [u] with its land area and floor count replaced. *)
Definition with_land_floors (u : UserInput.t) (land : Q) (floors : Z)
  : UserInput.t :=
  {| UserInput.city := UserInput.city u;
     UserInput.project_type := UserInput.project_type u;
     UserInput.land_area_m2 := land;
     UserInput.built_up_area_m2 := UserInput.built_up_area_m2 u;
     UserInput.floors := floors;
     UserInput.daily_water_m3 := UserInput.daily_water_m3 u;
     UserInput.daily_waste_kg := UserInput.daily_waste_kg u;
     UserInput.hazardous_waste_kg_per_month :=
       UserInput.hazardous_waste_kg_per_month u;
     UserInput.vehicles_per_day := UserInput.vehicles_per_day u;
     UserInput.fuel_consumption_l_per_day := UserInput.fuel_consumption_l_per_day u;
     UserInput.dg_hours_per_day := UserInput.dg_hours_per_day u;
     UserInput.distance_to_residential_m := UserInput.distance_to_residential_m u;
     UserInput.distance_to_water_body_km := UserInput.distance_to_water_body_km u;
     UserInput.vegetation_removed_percent := UserInput.vegetation_removed_percent u;
     UserInput.green_area_percent := UserInput.green_area_percent u;
     UserInput.has_rainwater_harvesting := UserInput.has_rainwater_harvesting u;
     UserInput.has_solar := UserInput.has_solar u;
     UserInput.energy_efficient_lighting := UserInput.energy_efficient_lighting u;
     UserInput.waste_segregation := UserInput.waste_segregation u;
     UserInput.stp_present := UserInput.stp_present u |}.

(** The value bound to [a] at line 62 of [haversine]. *)
Definition haversine_a (lon1 lat1 lon2 lat2 : R) : R :=
  ((sin ((radians lat2 - radians lat1) / 2)) ^ 2
   + cos (radians lat1) * cos (radians lat2)
     * (sin ((radians lon2 - radians lon1) / 2)) ^ 2)%R.

(** The distance from the point (lng0, lat0) to a sensitive zone, as both
    loops over [SENSITIVE_LOCS] compute it. *)
Definition zone_distance (lng0 lat0 : Q) (row : SensitiveRow) : R :=
  haversine (Q2R lng0) (Q2R lat0) (Q2R (lng row)) (Q2R (lat row)).

(** The state of the nearest-zone scan after the rows [seen]: nothing yet,
    or the first of the nearest rows. *)
Definition scan_inv (lng0 lat0 : Q) (seen : list SensitiveRow)
  (st : Dist * option SensitiveRow) : Prop :=
  (seen = [] /\ st = (Inf, None)) \/
  (exists pre r post,
     seen = (pre ++ r :: post)%list /\
     st = (Km (zone_distance lng0 lat0 r), Some r) /\
     (forall r', In r' pre ->
        (zone_distance lng0 lat0 r < zone_distance lng0 lat0 r')%R) /\
     (forall r', In r' post ->
        (zone_distance lng0 lat0 r <= zone_distance lng0 lat0 r')%R)).

(** A LINE entity. *)
Definition is_line (e : Entity) : bool := String.eqb (dxftype e) "LINE".

(** An entity of one of the six counted types. *)
Definition known_type (e : Entity) : bool := dict_mem (dxftype e) counts0.

(** The x, and the y, of the end points of the LINE entities, in order. *)
Definition line_xs (msp : list Entity) : list Q :=
  flat_map (fun e => if is_line e
                     then [fst (dxf_start e); fst (dxf_end e)] else []) msp.

Definition line_ys (msp : list Entity) : list Q :=
  flat_map (fun e => if is_line e
                     then [snd (dxf_start e); snd (dxf_end e)] else []) msp.

(** For each of the six keys, the number of entities of that type. *)
Definition tally (msp : list Entity) : list (string * Z) :=
  map (fun kv =>
         (fst kv,
          Z.of_nat (List.length
                      (filter (fun e => String.eqb (dxftype e) (fst kv)) msp))))
      counts0.

(** The running minimum and maximum over finite values, from [m]. *)
Definition run_min (m : Float.t) (xs : list Q) : Float.t :=
  fold_left (fun m x => if Float.ltb (Float.Fin x) m then Float.Fin x else m)
            xs m.

Definition run_max (m : Float.t) (xs : list Q) : Float.t :=
  fold_left (fun m x => if Float.ltb m (Float.Fin x) then Float.Fin x else m)
            xs m.

(** A drawing of two lines and a circle, a parser that reads it from any
    file, and an upload of it. *)
Definition sample_drawing : list Entity :=
  [ {| dxftype := "LINE"; dxf_start := (0, 0); dxf_end := (10, 0) |};
    {| dxftype := "CIRCLE"; dxf_start := (0, 0); dxf_end := (0, 0) |};
    {| dxftype := "LINE"; dxf_start := (10, 0); dxf_end := (10, 5) |} ].

(** The sample request with the city written as the table writes it. *)
Definition pune_request : UserInput.t :=
  {| UserInput.city := "Pune";
     UserInput.project_type := "Commercial";
     UserInput.land_area_m2 := 1000;
     UserInput.built_up_area_m2 := 1500;
     UserInput.floors := 3;
     UserInput.daily_water_m3 := 20;
     UserInput.daily_waste_kg := 0;
     UserInput.hazardous_waste_kg_per_month := 0;
     UserInput.vehicles_per_day := 0;
     UserInput.fuel_consumption_l_per_day := 0;
     UserInput.dg_hours_per_day := 34;
     UserInput.distance_to_residential_m := 100;
     UserInput.distance_to_water_body_km := 0.3;
     UserInput.vegetation_removed_percent := 5.2;
     UserInput.green_area_percent := 9.9;
     UserInput.has_rainwater_harvesting := 0;
     UserInput.has_solar := 0;
     UserInput.energy_efficient_lighting := 0;
     UserInput.waste_segregation := 1;
     UserInput.stp_present := 0 |}.

Definition sample_parse (content : string) : ReadOutcome :=
  Document sample_drawing.

Definition sample_upload : UploadFile :=
  {| filename := "plan.dxf"; file := "0 SECTION" |}.

End Derived.

(* ================================================================== *)
(** ** Properties *)
(* ================================================================== *)

Import Py Main Spec Samples.

(** Linear arithmetic over [Q] with the literal divisors turned into
    literal factors. *)
Ltac qlra := unfold Qdiv in *; cbn [Qinv Qnum Qden] in *; lra.

(** *** Comparisons, [min] and [max] *)

Lemma Qltb_true (x y : Q) : Qltb x y = true <-> x < y.
Proof.
  unfold Qltb. rewrite negb_true_iff, <- not_true_iff_false, Qle_bool_iff.
  split; [apply Qnot_le_lt | apply Qlt_not_le].
Qed.

Lemma Qltb_false (x y : Q) : Qltb x y = false <-> y <= x.
Proof.
  unfold Qltb. rewrite negb_false_iff. apply Qle_bool_iff.
Qed.

Lemma Qltb_spec (x y : Q) : reflect (x < y) (Qltb x y).
Proof.
  destruct (Qltb x y) eqn:E; constructor.
  - now apply Qltb_true.
  - apply Qltb_false in E. now apply Qle_not_lt.
Qed.

Lemma min_le_l (a b : Q) : Py.min a b <= a.
Proof. unfold Py.min. destruct (Qltb_spec b a); lra. Qed.

Lemma min_glb (c a b : Q) : c <= a -> c <= b -> c <= Py.min a b.
Proof. unfold Py.min. destruct (Qltb_spec b a); lra. Qed.

Lemma max_ge_l (a b : Q) : a <= Py.max a b.
Proof. unfold Py.max. destruct (Qltb_spec a b); lra. Qed.

Lemma inject_Z_nonneg (z : Z) : (0 <= z)%Z -> 0 <= inject_Z z.
Proof. intros H. rewrite Zle_Qle in H. exact H. Qed.

(** *** [round] stays between integer bounds *)

Lemma round_half_even_bounds (lo hi : Z) (x : Q) :
  inject_Z lo <= x -> x <= inject_Z hi ->
  (lo <= round_half_even x <= hi)%Z.
Proof.
  intros Hlo Hhi.
  assert (Hf1 : (lo <= Qfloor x)%Z).
  { rewrite <- (Qfloor_Z lo). now apply Qfloor_resp_le. }
  assert (Hf2 : (Qfloor x <= hi)%Z).
  { rewrite <- (Qfloor_Z hi). now apply Qfloor_resp_le. }
  assert (Hup : 0 < x - inject_Z (Qfloor x) -> (Qfloor x + 1 <= hi)%Z).
  { intros Hpos.
    assert (Hlt : inject_Z (Qfloor x) < inject_Z hi) by lra.
    rewrite <- Zlt_Qlt in Hlt. lia. }
  unfold round_half_even.
  destruct (Qcompare_spec (x - inject_Z (Qfloor x)) 0.5) as [E|E|E].
  - destruct (Z.even (Qfloor x)); [lia|].
    split; [lia|]. apply Hup. rewrite E. reflexivity.
  - lia.
  - split; [lia|]. apply Hup. lra.
Qed.

Lemma round_bounds (lo hi : Z) (n : nat) (x : Q) :
  inject_Z lo <= x -> x <= inject_Z hi ->
  inject_Z lo <= round x n <= inject_Z hi.
Proof.
  intros Hlo Hhi. unfold round.
  set (M := (10 ^ Z.of_nat n)%Z).
  assert (HM : (0 < M)%Z) by (apply Z.pow_pos_nonneg; lia).
  assert (HMq : inject_Z 0 < inject_Z M) by (rewrite <- Zlt_Qlt; exact HM).
  change (inject_Z 0) with 0 in HMq.
  destruct (round_half_even_bounds (lo * M) (hi * M) (x * inject_Z M)) as [H1 H2].
  - rewrite inject_Z_mult. nra.
  - rewrite inject_Z_mult. nra.
  - rewrite Zle_Qle, inject_Z_mult in H1, H2.
    split.
    + apply Qle_shift_div_l; [exact HMq | exact H1].
    + apply Qle_shift_div_r; [exact HMq | exact H2].
Qed.

Lemma round_0_100 (n : nat) (x : Q) : 0 <= x <= 100 -> 0 <= round x n <= 100.
Proof. intros [H1 H2]. apply (round_bounds 0 100 n x); assumption. Qed.

(** *** [int] is truncation toward zero *)

Lemma int_floor (x : Q) :
  int x = if Qle_bool 0 x then Qfloor x else (- Qfloor (- x))%Z.
Proof.
  destruct x as [n d]. unfold int, Qle_bool, Qfloor, Qopp. cbn [Qnum Qden].
  rewrite Z.mul_1_r. change (0 * Z.pos d)%Z with 0%Z.
  destruct (Z.leb_spec 0 n) as [H|H].
  - apply Z.quot_div_nonneg; lia.
  - rewrite <- (Z.opp_involutive n) at 1.
    rewrite Z.quot_opp_l by lia.
    rewrite Z.quot_div_nonneg by lia. reflexivity.
Qed.

Lemma int_comp (x y : Q) : x == y -> int x = int y.
Proof.
  intros H. rewrite !int_floor.
  rewrite (Qleb_comp 0 0 (Qeq_refl 0) x y H).
  rewrite (Qfloor_comp x y H).
  rewrite (Qfloor_comp (- x) (- y)) by (rewrite H; reflexivity).
  reflexivity.
Qed.

(** Truncating first never changes the outcome of the test against 10. *)
Remark int_lt_10_iff (x : Q) : (int x < 10)%Z <-> x < 10.
Proof.
  rewrite int_floor.
  destruct (Qle_bool 0 x) eqn:E.
  - apply Qle_bool_iff in E. split; intros H.
    + pose proof (Qlt_floor x) as Hf.
      assert (Hz : (Qfloor x + 1 <= 10)%Z) by lia.
      rewrite Zle_Qle in Hz. change (inject_Z 10) with 10 in Hz. lra.
    + pose proof (Qfloor_le x) as Hf.
      assert (Hz : inject_Z (Qfloor x) < inject_Z 10)
        by (change (inject_Z 10) with 10; lra).
      rewrite <- Zlt_Qlt in Hz. exact Hz.
  - assert (Hneg : x < 0).
    { apply Qnot_le_lt. intros H. apply Qle_bool_iff in H. congruence. }
    split; intros _; [lra|].
    assert (Hf : (0 <= Qfloor (- x))%Z).
    { rewrite <- (Qfloor_Z 0). apply Qfloor_resp_le.
      change (inject_Z 0) with 0. lra. }
    lia.
Qed.

(** *** The division of the water score never fails *)

Lemma persons_ge_1 (data : EnrichedProjectInput.t) : 1 <= persons data.
Proof. unfold persons. apply max_ge_l. Qed.

Lemma truediv_ok (a b : Q) : 0 < b -> truediv a b = Ok (a / b).
Proof.
  intros Hb. unfold truediv.
  destruct (Qeq_bool b 0) eqn:E; [|reflexivity].
  apply Qeq_bool_eq in E. lra.
Qed.

Lemma water_score_returns (data : EnrichedProjectInput.t) :
  exists w, water_score data = Ok w /\ (0 <= w <= 100)%Z.
Proof.
  unfold water_score.
  rewrite truediv_ok by (pose proof (persons_ge_1 data); lra).
  cbn [bind]. eexists. split; [reflexivity|]. lia.
Qed.

(** In the exact arithmetic of the model the body of [calculate_impact]
    returns for every snapshot and every request, and this is what it
    returns. *)
Lemma calculate_impact_returns (res : Resources) (u : UserInput.t) :
  exists w, water_score (enrich_data res u) = Ok w /\
  calculate_impact res u =
    (let data := enrich_data res u in
     let air := air_score data (final_pm25 data (added_pm25 data))
                               (final_no2 data (added_no2 data)) in
     Ok {| ImpactResult.overall_score := round (weighted_sum data w) 1;
           ImpactResult.impact_class := imp_class (weighted_sum data w);
           ImpactResult.breakdown :=
             [ ("Air Impact", round air 1);
               ("Water Impact", inject_Z w);
               ("Land Impact", round (land_score data) 1);
               ("Waste Impact", round (waste_score data) 1);
               ("Noise Impact", round (noise_score data) 1) ];
           ImpactResult.added_pollution :=
             [ ("PM2.5", round (added_pm25 data) 4);
               ("NO2", round (added_no2 data) 4) ];
           ImpactResult.final_pollution :=
             [ ("PM2.5", round (final_pm25 data (added_pm25 data)) 2);
               ("NO2", round (final_no2 data (added_no2 data)) 2) ];
           ImpactResult.recommendations :=
             recs data air w (land_score data) |}).
Proof.
  destruct (water_score_returns (enrich_data res u)) as (w & Hw & _).
  exists w. split; [exact Hw|].
  unfold calculate_impact. rewrite Hw. reflexivity.
Qed.

(** *** [round]: error, monotonicity, sign *)

Lemma pow10_pos (n : nat) : 0 < inject_Z (10 ^ Z.of_nat n).
Proof.
  assert (HM : (0 < 10 ^ Z.of_nat n)%Z) by (apply Z.pow_pos_nonneg; lia).
  rewrite Zlt_Qlt in HM. exact HM.
Qed.

Lemma round_half_even_ge_floor (x : Q) : (Qfloor x <= round_half_even x)%Z.
Proof.
  unfold round_half_even.
  destruct (Qcompare (x - inject_Z (Qfloor x)) 0.5);
    [destruct (Z.even (Qfloor x))|..]; lia.
Qed.

Lemma round_half_even_le_ceil (x : Q) : (round_half_even x <= Qfloor x + 1)%Z.
Proof.
  unfold round_half_even.
  destruct (Qcompare (x - inject_Z (Qfloor x)) 0.5);
    [destruct (Z.even (Qfloor x))|..]; lia.
Qed.

Lemma round_half_even_error (x : Q) :
  Qabs (inject_Z (round_half_even x) - x) <= 1 # 2.
Proof.
  pose proof (Qfloor_le x) as Hlo. pose proof (Qlt_floor x) as Hhi.
  rewrite inject_Z_plus in Hhi. change (inject_Z 1) with 1 in Hhi.
  unfold round_half_even.
  destruct (Qcompare_spec (x - inject_Z (Qfloor x)) 0.5) as [E|E|E].
  - destruct (Z.even (Qfloor x)).
    + apply Qabs_case; intros; lra.
    + rewrite inject_Z_plus. change (inject_Z 1) with 1.
      apply Qabs_case; intros; lra.
  - apply Qabs_case; intros; lra.
  - rewrite inject_Z_plus. change (inject_Z 1) with 1.
    apply Qabs_case; intros; lra.
Qed.

Lemma round_half_even_mono (x y : Q) :
  x <= y -> (round_half_even x <= round_half_even y)%Z.
Proof.
  intros Hxy.
  pose proof (Qfloor_resp_le x y Hxy) as Hf.
  pose proof (round_half_even_ge_floor y) as Hy.
  pose proof (round_half_even_le_ceil x) as Hx.
  destruct (Z.eq_dec (Qfloor x) (Qfloor y)) as [Heq|Hne]; [|lia].
  unfold round_half_even. rewrite <- Heq.
  destruct (Qcompare_spec (x - inject_Z (Qfloor x)) 0.5) as [E|E|E];
    destruct (Qcompare_spec (y - inject_Z (Qfloor x)) 0.5) as [F|F|F];
    try destruct (Z.even (Qfloor x)); try lia; exfalso; lra.
Qed.

Lemma round_mono (n : nat) (x y : Q) : x <= y -> round x n <= round y n.
Proof.
  intros Hxy. unfold round.
  pose proof (pow10_pos n) as HM.
  set (m := inject_Z (10 ^ Z.of_nat n)) in *.
  assert (H : (round_half_even (x * m) <= round_half_even (y * m))%Z).
  { apply round_half_even_mono. nra. }
  rewrite Zle_Qle in H.
  apply Qle_shift_div_l; [exact HM|].
  setoid_replace (inject_Z (round_half_even (x * m)) / m * m)
    with (inject_Z (round_half_even (x * m))) by (field; lra).
  exact H.
Qed.

Lemma round_error (n : nat) (x : Q) :
  Qabs (round x n - x) <= (1 # 2) / inject_Z (10 ^ Z.of_nat n).
Proof.
  unfold round.
  pose proof (pow10_pos n) as HM.
  set (m := inject_Z (10 ^ Z.of_nat n)) in *.
  pose proof (round_half_even_error (x * m)) as H.
  apply Qabs_Qle_condition in H. apply Qabs_Qle_condition.
  assert (Hi : / m * m == 1) by (field; lra).
  assert (Hp : 0 < / m) by (apply Qinv_lt_0_compat; exact HM).
  unfold Qdiv. revert Hi Hp. generalize (/ m). intros im Hi Hp.
  generalize dependent (inject_Z (round_half_even (x * m))). intros r H.
  assert (E : r * im - x == (r - x * m) * im).
  { setoid_replace ((r - x * m) * im) with (r * im - x * (im * m)) by ring.
    rewrite Hi. ring. }
  rewrite E. set (d := r - x * m) in *. clearbody d.
  destruct H as [H1 H2]. split; nra.
Qed.

Lemma round_nonneg (n : nat) (x : Q) : 0 <= x -> 0 <= round x n.
Proof.
  intros Hx. unfold round.
  pose proof (pow10_pos n) as HM.
  set (m := inject_Z (10 ^ Z.of_nat n)) in *.
  assert (Hf : (0 <= Qfloor (x * m))%Z).
  { rewrite <- (Qfloor_Z 0). apply Qfloor_resp_le.
    change (inject_Z 0) with 0. nra. }
  pose proof (round_half_even_ge_floor (x * m)) as Hr.
  assert (Hz : (0 <= round_half_even (x * m))%Z) by lia.
  rewrite Zle_Qle in Hz. change (inject_Z 0) with 0 in Hz.
  apply Qle_shift_div_l; [exact HM|]. lra.
Qed.

Lemma min_mono_r (c a b : Q) : a <= b -> Py.min c a <= Py.min c b.
Proof.
  intros H. unfold Py.min.
  destruct (Qltb_spec a c), (Qltb_spec b c); lra.
Qed.

(** *** The conversion of the vehicle count at line 179 *)

Lemma float_of_int_cases (n : Z) :
  (converts_to_float n /\ float_of_int n = Ok (inject_Z n)) \/
  ((float_overflow <= Z.abs n)%Z /\ float_of_int n = Raise OverflowError).
Proof.
  unfold converts_to_float, float_of_int.
  destruct (Z.ltb_spec (Z.abs n) float_overflow) as [H|H].
  - left. split; [exact H|reflexivity].
  - right. split; [exact H|reflexivity].
Qed.

(** With the conversion made explicit, [calculate_impact] either returns
    the dictionary of lines 248-267 or raises OverflowError at line 179,
    and the vehicle count alone decides which. *)
Lemma calculate_impact_checked_cases (res : Resources) (u : UserInput.t) :
  (converts_to_float (UserInput.vehicles_per_day u) /\
   exists w, water_score (enrich_data res u) = Ok w /\ (0 <= w <= 100)%Z /\
             calculate_impact_checked res u
               = Ok (response_of (enrich_data res u) w)) \/
  ((float_overflow <= Z.abs (UserInput.vehicles_per_day u))%Z /\
   calculate_impact_checked res u = Raise OverflowError).
Proof.
  unfold calculate_impact_checked.
  change (EnrichedProjectInput.vehicles_per_day (enrich_data res u))
    with (UserInput.vehicles_per_day u).
  destruct (float_of_int_cases (UserInput.vehicles_per_day u)) as [[Hc ->]|[Hb ->]].
  - left. split; [exact Hc|].
    destruct (water_score_returns (enrich_data res u)) as (w & Hw & Hr).
    exists w. split; [exact Hw|]. split; [exact Hr|].
    cbn [bind]. unfold calculate_impact. rewrite Hw. reflexivity.
  - right. split; [exact Hb|reflexivity].
Qed.

(** *** C1: validation at the boundary *)

(** C1 (as amended).  A negative numeric field is never a reason for
    rejection: [calculate_impact] holds no validation step.  For a raw
    input with a negative field, enrichment runs and, when the vehicle count
    converts to a float, the response of lines 248-267 is returned, computed
    from the enriched record as for any other input.  The only other
    outcome is the OverflowError of line 179, for a vehicle count of
    magnitude [2^1024 - 2^970] or more, whatever its sign. *)
Theorem C1_negative_input_is_not_rejected (res : Resources) (u : UserInput.t) :
  has_negative_field u ->
  (converts_to_float (UserInput.vehicles_per_day u) /\
   exists w, water_score (enrich_data res u) = Ok w /\ (0 <= w <= 100)%Z /\
             calculate_impact_checked res u
               = Ok (response_of (enrich_data res u) w)) \/
  ((float_overflow <= Z.abs (UserInput.vehicles_per_day u))%Z /\
   calculate_impact_checked res u = Raise OverflowError).
Proof.
  intros _. apply calculate_impact_checked_cases.
Qed.

(** C1 at a request with negative land area, water use and vehicle count,
    against the loaded sample tables. *)
Lemma C1_negative_input_is_not_rejected_witness :
  has_negative_field negative_input /\
  exists w, calculate_impact_checked sample_resources negative_input
              = Ok (response_of (enrich_data sample_resources negative_input) w).
Proof.
  assert (Hneg : has_negative_field negative_input) by (left; reflexivity).
  split; [exact Hneg|].
  destruct (C1_negative_input_is_not_rejected sample_resources negative_input Hneg)
    as [(_ & w & _ & _ & H)|(Hbig & _)].
  - exists w. exact H.
  - exfalso. apply Hbig. vm_compute. reflexivity.
Defined.

(** C1 (counterexample).  A request with negative land area, negative water
    use and a negative vehicle count is not rejected: it is scored, as a
    Low-impact project with overall score 25.4. *)
Lemma C1_negative_input_is_scored :
  has_negative_field negative_input /\
  exists r, calculate_impact degraded negative_input = Ok r /\
            ImpactResult.impact_class r = "Low" /\
            ImpactResult.overall_score r == 25.4.
Proof.
  split.
  - left. reflexivity.
  - eexists. split; [vm_compute; reflexivity|]. split; reflexivity.
Qed.

(** *** C2: the scores stay within 0 and 100 *)

Section ScoreRanges.

Variable data : EnrichedProjectInput.t.

Hypothesis baseline_pm25_nonneg : 0 <= EnrichedProjectInput.baseline_pm25 data.
Hypothesis baseline_no2_nonneg : 0 <= EnrichedProjectInput.baseline_no2 data.
Hypothesis vehicles_nonneg : (0 <= EnrichedProjectInput.vehicles_per_day data)%Z.
Hypothesis fuel_nonneg : 0 <= EnrichedProjectInput.fuel_consumption_l_per_day data.
Hypothesis dg_hours_nonneg : 0 <= EnrichedProjectInput.dg_hours_per_day data.
Hypothesis daily_waste_nonneg : 0 <= EnrichedProjectInput.daily_waste_kg data.
Hypothesis hazardous_nonneg :
  0 <= EnrichedProjectInput.hazardous_waste_kg_per_month data.
Hypothesis vegetation_nonneg :
  0 <= EnrichedProjectInput.vegetation_removed_percent data.

Lemma air_score_range :
  0 <= air_score data (final_pm25 data (added_pm25 data))
                      (final_no2 data (added_no2 data)) <= 100.
Proof.
  pose proof (inject_Z_nonneg _ vehicles_nonneg) as Hv.
  unfold air_score. split; [|apply min_le_l].
  apply min_glb; [lra|].
  unfold final_pm25, final_no2, added_pm25, added_no2. qlra.
Qed.

Lemma waste_score_range : 0 <= waste_score data <= 100.
Proof.
  unfold waste_score. split; [|apply min_le_l].
  apply min_glb; [lra|].
  destruct (EnrichedProjectInput.waste_segregation data =? 0)%Z; qlra.
Qed.

Lemma land_score_range : 0 <= land_score data <= 100.
Proof.
  unfold land_score. split; [|apply min_le_l].
  apply min_glb; [lra|].
  destruct (EnrichedProjectInput.near_sensitive_zone data =? 1)%Z;
    destruct (EnrichedProjectInput.green_area_percent data <? 10)%Z; lra.
Qed.

(** The noise score needs no assumption: it has its own lower clamp. *)
Lemma noise_score_range : 0 <= noise_score data <= 100.
Proof.
  unfold noise_score. split; [|apply min_le_l].
  apply min_glb; [lra|].
  pose proof (max_ge_l 0 ((EnrichedProjectInput.avg_noise_db data - 45) * 2)).
  destruct (Qltb (EnrichedProjectInput.distance_to_residential_m data) 50); lra.
Qed.

End ScoreRanges.

Lemma overall_score_range (a : Q) (w : Z) (l ws n : Q) :
  0 <= a <= 100 -> (0 <= w <= 100)%Z -> 0 <= l <= 100 ->
  0 <= ws <= 100 -> 0 <= n <= 100 ->
  0 <= overall_score a w l ws n <= 100.
Proof.
  intros Ha [Hw1 Hw2] Hl Hws Hn.
  rewrite Zle_Qle in Hw1, Hw2.
  change (inject_Z 0) with 0 in Hw1. change (inject_Z 100) with 100 in Hw2.
  unfold overall_score. lra.
Qed.

Lemma city_data_In (res : Resources) (u : UserInput.t) (c : CityRow) :
  city_data res u = Some c ->
  exists db, CITIES_DB res = Some db /\ In c db /\ city_lower c = city_key u.
Proof.
  unfold city_data. destruct (CITIES_DB res) as [db|]; [|discriminate].
  intros H. apply find_some in H. destruct H as [Hin Heq].
  exists db. repeat split; auto. now apply String.eqb_eq.
Qed.

Lemma enrich_baselines_nonneg (res : Resources) (u : UserInput.t) :
  nonneg_baselines res ->
  0 <= EnrichedProjectInput.baseline_pm25 (enrich_data res u) /\
  0 <= EnrichedProjectInput.baseline_no2 (enrich_data res u).
Proof.
  intros Hres. cbn.
  destruct (city_data res u) as [c|] eqn:E.
  - apply city_data_In in E. destruct E as (db & Hdb & Hin & _).
    destruct (Hres db c Hdb Hin) as (? & ? & _). auto.
  - unfold defaults_pm25, defaults_no2. split; lra.
Qed.

(** C2.  For every valid raw input and every reference snapshot with
    non-negative baselines, [calculate_impact] returns a result; the five
    sub-scores it computes (air, water, waste, land, noise) and their
    weighted sum lie in [0, 100], and so do the five reported sub-scores and
    the reported overall score. *)
Theorem C2_scores_within_0_100 (res : Resources) (u : UserInput.t) :
  valid_input u -> nonneg_baselines res ->
  let data := enrich_data res u in
  let air := air_score data (final_pm25 data (added_pm25 data))
                            (final_no2 data (added_no2 data)) in
  exists (water : Z) (r : ImpactResult.t),
    water_score data = Ok water /\
    calculate_impact res u = Ok r /\
    0 <= air <= 100 /\
    (0 <= water <= 100)%Z /\
    0 <= waste_score data <= 100 /\
    0 <= land_score data <= 100 /\
    0 <= noise_score data <= 100 /\
    0 <= overall_score air water (land_score data) (waste_score data)
                       (noise_score data) <= 100 /\
    map fst (ImpactResult.breakdown r)
      = ["Air Impact"; "Water Impact"; "Land Impact"; "Waste Impact";
         "Noise Impact"] /\
    (forall k v, In (k, v) (ImpactResult.breakdown r) -> 0 <= v <= 100) /\
    0 <= ImpactResult.overall_score r <= 100.
Proof.
  intros Hu Hres data air.
  destruct Hu as
    (_ & _ & _ & _ & Hwaste & Hhaz & Hveh & Hfuel & Hdg & _ & _ & Hveg & _).
  destruct (enrich_baselines_nonneg res u Hres) as [Hpm Hno].
  destruct (water_score_returns data) as (w & Hw & Hwr).
  assert (Ha : 0 <= air <= 100) by (apply air_score_range; assumption).
  assert (Hws : 0 <= waste_score data <= 100)
    by (apply waste_score_range; assumption).
  assert (Hl : 0 <= land_score data <= 100)
    by (apply land_score_range; assumption).
  pose proof (noise_score_range data) as Hn.
  pose proof (overall_score_range _ _ _ _ _ Ha Hwr Hl Hws Hn) as Ho.
  exists w. eexists. split; [exact Hw|]. split.
  { unfold calculate_impact. fold data. rewrite Hw. cbn [bind]. reflexivity. }
  cbn [ImpactResult.breakdown ImpactResult.overall_score map fst].
  repeat (split; [assumption|]). split; [reflexivity|]. split.
  - intros k v Hin. cbn [In] in Hin.
    destruct Hin as [H|[H|[H|[H|[H|[]]]]]]; inversion H; subst v;
      try (apply round_0_100; assumption).
    unfold round_int. destruct Hwr as [Hw1 Hw2]. rewrite Zle_Qle in Hw1, Hw2.
    split; assumption.
  - apply round_0_100. exact Ho.
Qed.

Lemma sample_input_valid : valid_input sample_input.
Proof. repeat split; vm_compute; discriminate. Defined.

Lemma sample_resources_nonneg : nonneg_baselines sample_resources.
Proof.
  intros db row Hdb Hin. injection Hdb as <-.
  destruct Hin as [<-|[<-|[]]]; repeat split; vm_compute; discriminate.
Defined.

(** C2 at the sample request against the sample snapshot. *)
Lemma C2_scores_within_0_100_witness :
  valid_input sample_input /\ nonneg_baselines sample_resources /\
  exists r, calculate_impact sample_resources sample_input = Ok r /\
            0 <= ImpactResult.overall_score r <= 100.
Proof.
  split; [exact sample_input_valid|].
  split; [exact sample_resources_nonneg|].
  destruct (C2_scores_within_0_100 sample_resources sample_input
              sample_input_valid sample_resources_nonneg)
    as (w & r & _ & Hr & _ & _ & _ & _ & _ & _ & _ & _ & Ho).
  exists r. split; [exact Hr | exact Ho].
Defined.

(** *** C3: category thresholds *)

Lemma imp_class_cases (s : Q) :
  (60 < s /\ imp_class s = "High") \/
  (30 < s /\ s <= 60 /\ imp_class s = "Moderate") \/
  (s <= 30 /\ imp_class s = "Low").
Proof.
  unfold imp_class.
  destruct (Qltb_spec 60 s) as [H60|H60];
    [left; split; [exact H60|reflexivity]|].
  destruct (Qltb_spec 30 s) as [H30|H30].
  - right; left. repeat split; [exact H30|lra].
  - right; right. split; [lra|reflexivity].
Qed.

(** C3 (as amended).  The category is decided on the weighted sum before
    that sum is rounded to the one-decimal overall score of the response,
    so the category follows the returned overall score except at the two
    boundary values: a returned score above 60 comes with High, one
    strictly between 30 and 60 with Moderate, one below 30 with Low; a
    returned score of exactly 60.0 comes with Moderate or High, and one of
    exactly 30.0 with Low or Moderate.  The returned score is within 0.05 of
    the weighted sum.  The threshold test of lines 244-246 is exclusive: on
    the unrounded values 30.0, 30.01, 60.0 and 60.01 it gives Low, Moderate,
    Moderate and High. *)
Theorem C3_class_follows_reported_score (res : Resources) (u : UserInput.t) :
  converts_to_float (UserInput.vehicles_per_day u) ->
  exists (water : Z) (r : ImpactResult.t),
    water_score (enrich_data res u) = Ok water /\
    calculate_impact_checked res u = Ok r /\
    Qabs (ImpactResult.overall_score r
          - weighted_sum (enrich_data res u) water) <= 0.05 /\
    ((60 < ImpactResult.overall_score r /\
      ImpactResult.impact_class r = "High") \/
     (ImpactResult.overall_score r == 60 /\
      (ImpactResult.impact_class r = "Moderate" \/
       ImpactResult.impact_class r = "High")) \/
     (30 < ImpactResult.overall_score r /\
      ImpactResult.overall_score r < 60 /\
      ImpactResult.impact_class r = "Moderate") \/
     (ImpactResult.overall_score r == 30 /\
      (ImpactResult.impact_class r = "Low" \/
       ImpactResult.impact_class r = "Moderate")) \/
     (ImpactResult.overall_score r < 30 /\
      ImpactResult.impact_class r = "Low")) /\
    imp_class 30.0 = "Low" /\ imp_class 30.01 = "Moderate" /\
    imp_class 60.0 = "Moderate" /\ imp_class 60.01 = "High".
Proof.
  intros Hc.
  destruct (calculate_impact_checked_cases res u)
    as [(_ & w & Hw & _ & H)|(Hbig & _)];
    [|unfold converts_to_float in Hc; lia].
  exists w. eexists. split; [exact Hw|]. split; [exact H|].
  cbn [response_of ImpactResult.overall_score ImpactResult.impact_class].
  set (s := weighted_sum (enrich_data res u) w).
  split; [|split; [|repeat split; reflexivity]].
  - pose proof (round_error 1 s) as He.
    change ((1 # 2) / inject_Z (10 ^ Z.of_nat 1)) with ((1 # 2) / 10) in He.
    qlra.
  - assert (R60 : round 60 1 == 60) by reflexivity.
    assert (R30 : round 30 1 == 30) by reflexivity.
    destruct (imp_class_cases s) as [[H1 ->]|[(H1 & H2 & ->)|[H1 ->]]].
    + assert (H60 : 60 <= round s 1)
        by (rewrite <- R60; apply round_mono; lra).
      destruct (Qlt_le_dec 60 (round s 1)) as [Hgt|Hle].
      * left. split; [exact Hgt|reflexivity].
      * right; left. split; [lra|right; reflexivity].
    + assert (H30 : 30 <= round s 1)
        by (rewrite <- R30; apply round_mono; lra).
      assert (H60 : round s 1 <= 60)
        by (rewrite <- R60; apply round_mono; exact H2).
      destruct (Qlt_le_dec (round s 1) 60) as [Hlt|Hge].
      * destruct (Qlt_le_dec 30 (round s 1)) as [Hgt|Hle].
        -- right; right; left. repeat split; assumption.
        -- right; right; right; left. split; [lra|right; reflexivity].
      * right; left. split; [lra|left; reflexivity].
    + assert (H30 : round s 1 <= 30)
        by (rewrite <- R30; apply round_mono; exact H1).
      destruct (Qlt_le_dec (round s 1) 30) as [Hlt|Hge].
      * right; right; right; right. split; [exact Hlt|reflexivity].
      * right; right; right; left. split; [lra|left; reflexivity].
Qed.

(** C3 at the sample request against the loaded sample tables. *)
Lemma C3_class_follows_reported_score_witness :
  converts_to_float (UserInput.vehicles_per_day sample_input) /\
  exists r, calculate_impact_checked sample_resources sample_input = Ok r /\
            ((60 < ImpactResult.overall_score r /\
              ImpactResult.impact_class r = "High") \/
             (ImpactResult.overall_score r == 60 /\
              (ImpactResult.impact_class r = "Moderate" \/
               ImpactResult.impact_class r = "High")) \/
             (30 < ImpactResult.overall_score r /\
              ImpactResult.overall_score r < 60 /\
              ImpactResult.impact_class r = "Moderate") \/
             (ImpactResult.overall_score r == 30 /\
              (ImpactResult.impact_class r = "Low" \/
               ImpactResult.impact_class r = "Moderate")) \/
             (ImpactResult.overall_score r < 30 /\
              ImpactResult.impact_class r = "Low")).
Proof.
  assert (Hc : converts_to_float (UserInput.vehicles_per_day sample_input))
    by (vm_compute; reflexivity).
  split; [exact Hc|].
  destruct (C3_class_follows_reported_score sample_resources sample_input Hc)
    as (w & r & _ & Hr & _ & Hclass & _).
  exists r. split; [exact Hr | exact Hclass].
Defined.

(** C3 (counterexample).  With no table loaded, the commercial sample
    project in an unlisted city has the weighted sum 60.04: the response
    carries the overall score 60.0 and the category High, not Moderate. *)
Lemma C3_returned_60_comes_with_high :
  weighted_sum (enrich_data degraded unknown_city_input) 100 == 60.04 /\
  exists r, calculate_impact_checked degraded unknown_city_input = Ok r /\
            ImpactResult.overall_score r == 60.0 /\
            ImpactResult.impact_class r = "High".
Proof.
  split; [reflexivity|].
  eexists. split; [vm_compute; reflexivity|]. split; reflexivity.
Qed.

(** *** C4: unknown city *)

Lemma city_not_found_None (res : Resources) (u : UserInput.t) :
  city_not_found res u -> city_data res u = None.
Proof.
  unfold city_not_found, city_data, city_key.
  destruct (CITIES_DB res) as [db|]; [|reflexivity].
  intros Hnf.
  destruct (find _ db) as [c|] eqn:E; [|reflexivity].
  apply find_some in E. destruct E as [Hin Heq].
  apply String.eqb_eq in Heq. exfalso. exact (Hnf c Hin Heq).
Qed.

Lemma enrich_data_fallback (res : Resources) (u : UserInput.t) :
  city_data res u = None ->
  resolved_lat res u = 20.5937 /\
  resolved_lng res u = 78.9629 /\
  EnrichedProjectInput.near_sensitive_zone (enrich_data res u)
    = near_sensitive (SENSITIVE_LOCS res) 78.9629 20.5937 /\
  EnrichedProjectInput.baseline_pm25 (enrich_data res u) = 100.0 /\
  EnrichedProjectInput.baseline_no2 (enrich_data res u) = 40.0 /\
  EnrichedProjectInput.baseline_so2 (enrich_data res u) = 15.0 /\
  EnrichedProjectInput.baseline_co (enrich_data res u) = 1.5 /\
  EnrichedProjectInput.baseline_o3 (enrich_data res u) = 30.0.
Proof.
  intros Hnone.
  unfold enrich_data, resolved_lat, resolved_lng.
  cbn [EnrichedProjectInput.near_sensitive_zone
       EnrichedProjectInput.baseline_pm25 EnrichedProjectInput.baseline_no2
       EnrichedProjectInput.baseline_so2 EnrichedProjectInput.baseline_co
       EnrichedProjectInput.baseline_o3].
  rewrite Hnone. repeat split; reflexivity.
Qed.

(** C4.  For every raw input whose trimmed, lower-cased city name matches no
    row of the city table, enrichment resolves the coordinates to latitude
    20.5937 and longitude 78.9629, runs the proximity check from that point,
    and returns a record with the baselines PM2.5 = 100, NO2 = 40, SO2 = 15,
    CO = 1.5 and O3 = 30. *)
Theorem C4_unknown_city_uses_fallback (res : Resources) (u : UserInput.t) :
  city_not_found res u ->
  resolved_lat res u = 20.5937 /\
  resolved_lng res u = 78.9629 /\
  EnrichedProjectInput.near_sensitive_zone (enrich_data res u)
    = near_sensitive (SENSITIVE_LOCS res) 78.9629 20.5937 /\
  EnrichedProjectInput.baseline_pm25 (enrich_data res u) = 100.0 /\
  EnrichedProjectInput.baseline_no2 (enrich_data res u) = 40.0 /\
  EnrichedProjectInput.baseline_so2 (enrich_data res u) = 15.0 /\
  EnrichedProjectInput.baseline_co (enrich_data res u) = 1.5 /\
  EnrichedProjectInput.baseline_o3 (enrich_data res u) = 30.0.
Proof.
  intros Hnf. apply enrich_data_fallback. now apply city_not_found_None.
Qed.

Lemma atlantis_not_found : city_not_found sample_resources unknown_city_input.
Proof.
  intros row Hin. destruct Hin as [<-|[<-|[]]]; vm_compute; discriminate.
Defined.

(** C4 at a city that the sample table does not list. *)
Lemma C4_unknown_city_uses_fallback_witness :
  city_not_found sample_resources unknown_city_input /\
  EnrichedProjectInput.baseline_pm25
    (enrich_data sample_resources unknown_city_input) = 100.0 /\
  resolved_lat sample_resources unknown_city_input = 20.5937.
Proof.
  split; [exact atlantis_not_found|].
  destruct (C4_unknown_city_uses_fallback sample_resources unknown_city_input
              atlantis_not_found) as (Hlat & _ & _ & Hpm & _).
  split; [exact Hpm | exact Hlat].
Defined.

(** *** C5: degraded store *)

Lemma load_failure_degraded (model_file : option Model)
  (sensitive_csv : option (list SensitiveRow))
  (cities_csv : option (list CsvCity)) :
  model_file = None \/ sensitive_csv = None \/ cities_csv = None ->
  load_resources model_file sensitive_csv cities_csv = degraded.
Proof.
  intros H.
  destruct model_file, sensitive_csv, cities_csv; try reflexivity.
  destruct H as [H|[H|H]]; discriminate H.
Qed.

(** C5 (as amended).  When any of the three reads of the load fails, the
    store is left degraded: both tables are absent, every city lookup made
    by enrichment finds nothing, every proximity query answers 0, and the
    enriched record has [near_sensitive_zone = 0] and the fallback
    baselines.  For every input whose vehicle count converts to a float,
    [calculate_impact] then returns the complete response of lines 248-267
    computed from that record: the five breakdown entries, the added
    pollution, the final concentrations over the fallback baselines 100.0
    and 40.0, the class and the recommendations.  A larger vehicle count
    raises OverflowError at line 179. *)
Theorem C5_degraded_store_uses_defaults
  (model_file : option Model) (sensitive_csv : option (list SensitiveRow))
  (cities_csv : option (list CsvCity)) (u : UserInput.t) :
  model_file = None \/ sensitive_csv = None \/ cities_csv = None ->
  let res := load_resources model_file sensitive_csv cities_csv in
  let data := enrich_data res u in
  CITIES_DB res = None /\ SENSITIVE_LOCS res = None /\
  city_data res u = None /\
  (forall lng0 lat0, near_sensitive (SENSITIVE_LOCS res) lng0 lat0 = 0%Z) /\
  EnrichedProjectInput.near_sensitive_zone data = 0%Z /\
  EnrichedProjectInput.baseline_pm25 data = 100.0 /\
  EnrichedProjectInput.baseline_no2 data = 40.0 /\
  EnrichedProjectInput.baseline_so2 data = 15.0 /\
  EnrichedProjectInput.baseline_co data = 1.5 /\
  EnrichedProjectInput.baseline_o3 data = 30.0 /\
  ((converts_to_float (UserInput.vehicles_per_day u) /\
    exists w, water_score data = Ok w /\ (0 <= w <= 100)%Z /\
      calculate_impact_checked res u = Ok (response_of data w) /\
      map fst (ImpactResult.breakdown (response_of data w))
        = [ "Air Impact"; "Water Impact"; "Land Impact"; "Waste Impact";
            "Noise Impact" ] /\
      ImpactResult.added_pollution (response_of data w)
        = [ ("PM2.5", round (added_pm25 data) 4);
            ("NO2", round (added_no2 data) 4) ] /\
      ImpactResult.final_pollution (response_of data w)
        = [ ("PM2.5", round (100.0 + added_pm25 data * 50) 2);
            ("NO2", round (40.0 + added_no2 data * 50) 2) ] /\
      ImpactResult.overall_score (response_of data w)
        = round (weighted_sum data w) 1 /\
      ImpactResult.impact_class (response_of data w)
        = imp_class (weighted_sum data w)) \/
   ((float_overflow <= Z.abs (UserInput.vehicles_per_day u))%Z /\
    calculate_impact_checked res u = Raise OverflowError)).
Proof.
  intros Hfail res data. unfold data, res.
  rewrite (load_failure_degraded _ _ _ Hfail).
  repeat (split; [reflexivity|]).
  destruct (calculate_impact_checked_cases degraded u)
    as [(Hc & w & Hw & Hr & H)|(Hbig & H)].
  - left. split; [exact Hc|]. exists w.
    split; [exact Hw|]. split; [exact Hr|]. split; [exact H|].
    repeat split; reflexivity.
  - right. split; [exact Hbig | exact H].
Qed.

(** C5 when the classifier file is missing and both CSV files are fine. *)
Lemma C5_degraded_store_uses_defaults_witness :
  ((@None Model) = None \/ Some sample_zones = None \/ Some sample_cities = None) /\
  EnrichedProjectInput.near_sensitive_zone
    (enrich_data (load_resources None (Some sample_zones) (Some sample_cities))
                 sample_input) = 0%Z /\
  exists w,
    calculate_impact_checked
      (load_resources None (Some sample_zones) (Some sample_cities))
      sample_input
    = Ok (response_of
            (enrich_data
               (load_resources None (Some sample_zones) (Some sample_cities))
               sample_input) w).
Proof.
  split; [left; reflexivity|].
  destruct (C5_degraded_store_uses_defaults None (Some sample_zones)
              (Some sample_cities) sample_input (or_introl eq_refl))
    as (_ & _ & _ & _ & Hnear & _ & _ & _ & _ & _ & Hcalc).
  split; [exact Hnear|].
  destruct Hcalc as [(_ & w & _ & _ & H & _)|(Hbig & _)].
  - exists w. exact H.
  - exfalso. apply Hbig. vm_compute. reflexivity.
Defined.

(** C5 (counterexample).  A request with no negative field and a vehicle
    count of [10 ** 400] is not answered when the store failed to load:
    line 179 raises OverflowError. *)
Lemma C5_huge_vehicle_count_raises :
  valid_input huge_traffic_input /\
  calculate_impact_checked degraded huge_traffic_input = Raise OverflowError.
Proof.
  split.
  - repeat split; discriminate.
  - vm_compute. reflexivity.
Qed.

(** *** C6: the great-circle distance *)

Lemma sin_half_diff_sqr (a b : R) :
  ((sin ((a - b) / 2)) ^ 2 = (sin ((b - a) / 2)) ^ 2)%R.
Proof.
  replace ((a - b) / 2)%R with (- ((b - a) / 2))%R by Lra.lra.
  rewrite sin_neg. ring.
Qed.

(** C6.  [haversine] is symmetric, the distance from A to B is the distance
    from B to A, and the distance from a point to itself is 0. *)
Theorem C6_haversine_symmetric_zero (lon1 lat1 lon2 lat2 : R) :
  haversine lon1 lat1 lon2 lat2 = haversine lon2 lat2 lon1 lat1 /\
  haversine lon1 lat1 lon1 lat1 = 0%R.
Proof.
  split.
  - unfold haversine. cbv zeta.
    rewrite (sin_half_diff_sqr (radians lat2) (radians lat1)).
    rewrite (sin_half_diff_sqr (radians lon2) (radians lon1)).
    rewrite (Rmult_comm (cos (radians lat1)) (cos (radians lat2))).
    reflexivity.
  - unfold haversine. cbv zeta.
    replace ((radians lat1 - radians lat1) / 2)%R with 0%R by Lra.lra.
    replace ((radians lon1 - radians lon1) / 2)%R with 0%R by Lra.lra.
    rewrite sin_0.
    replace (0 ^ 2 + cos (radians lat1) * cos (radians lat1) * 0 ^ 2)%R
      with 0%R by ring.
    rewrite sqrt_0, asin_0. ring.
Qed.

(** *** C7: a worked water score *)

Lemma persons_1500 (data : EnrichedProjectInput.t) :
  EnrichedProjectInput.built_up_area_m2 data == 1500 -> persons data == 100.
Proof.
  intros Hb. unfold persons, Py.max.
  destruct (Qltb_spec 1 (EnrichedProjectInput.built_up_area_m2 data / 15))
    as [H|H].
  - rewrite Hb. reflexivity.
  - exfalso. apply H. rewrite Hb. reflexivity.
Qed.

(** C7.  For an enriched record with built-up area 1500, daily water 20,
    distance to the water body 0.3, no sewage treatment and no rainwater
    harvesting: persons = 100, lpcd = 200, and the water score is 100; a
    request that enriches to such a record gets the water sub-score 100. *)
Theorem C7_water_score_example (data : EnrichedProjectInput.t) :
  EnrichedProjectInput.built_up_area_m2 data == 1500 ->
  EnrichedProjectInput.daily_water_m3 data == 20 ->
  EnrichedProjectInput.distance_to_water_body_km data == 0.3 ->
  EnrichedProjectInput.stp_present data = 0%Z ->
  EnrichedProjectInput.has_rainwater_harvesting data = 0%Z ->
  persons data == 100 /\
  (exists lpcd,
     truediv (EnrichedProjectInput.daily_water_m3 data * 1000) (persons data)
       = Ok lpcd /\ lpcd == 200) /\
  water_score data = Ok 100%Z /\
  (forall res u, enrich_data res u = data ->
     exists r, calculate_impact res u = Ok r /\
               In ("Water Impact", 100) (ImpactResult.breakdown r)).
Proof.
  intros Hb Hd Hw Hs Hr.
  pose proof (persons_1500 data Hb) as Hp.
  assert (Hpos : 0 < persons data) by (rewrite Hp; reflexivity).
  assert (Hl : EnrichedProjectInput.daily_water_m3 data * 1000 / persons data
               == 200).
  { rewrite Hd, Hp. reflexivity. }
  assert (Hws : water_score data = Ok 100%Z).
  { unfold water_score. rewrite (truediv_ok _ _ Hpos). cbn [bind].
    assert (H1 : Qltb 150 (EnrichedProjectInput.daily_water_m3 data * 1000
                           / persons data) = true).
    { apply Qltb_true. rewrite Hl. reflexivity. }
    assert (H2 : Qltb (EnrichedProjectInput.distance_to_water_body_km data) 0.5
                 = true).
    { apply Qltb_true. rewrite Hw. reflexivity. }
    rewrite H1, H2, Hs, Hr. reflexivity. }
  split; [exact Hp|]. split.
  { eexists. split; [apply truediv_ok; exact Hpos | exact Hl]. }
  split; [exact Hws|].
  intros res u Hdata.
  destruct (calculate_impact_returns res u) as (w & Hw' & H).
  rewrite Hdata in Hw'. rewrite Hws in Hw'. injection Hw' as <-.
  rewrite H. eexists. split; [reflexivity|].
  cbn [ImpactResult.breakdown]. right. left. reflexivity.
Qed.

(** C7 at the enrichment of the sample request. *)
Lemma C7_water_score_example_witness :
  water_score (enrich_data degraded sample_input) = Ok 100%Z.
Proof.
  exact (proj1 (proj2 (proj2
    (C7_water_score_example (enrich_data degraded sample_input)
       (Qeq_refl 1500) (Qeq_refl 20) (Qeq_refl 0.3) eq_refl eq_refl)))).
Defined.

(** *** C8: recommendations *)

Lemma recs_follow_rule_order (data : EnrichedProjectInput.t)
  (air : Q) (water : Z) (land : Q) :
  recs data air water land = recs_spec data air water land.
Proof.
  unfold recs, recs_spec, rules.
  destruct (Qltb 50 air), (50 <? water)%Z, (Qltb 50 land),
    (EnrichedProjectInput.has_solar data =? 0)%Z,
    (EnrichedProjectInput.energy_efficient_lighting data =? 0)%Z;
    reflexivity.
Qed.

(** C8.  The recommendation list is the list of the texts of the triggered
    rules, taken in the fixed order air > 50, water > 50, land > 50, solar
    absent, efficient lighting absent, and this is the list that
    [calculate_impact] returns; for air = 70, water = 10, land = 10, no
    solar and no efficient lighting it is exactly the air text, the solar
    text and the LED text, in that order. *)
Theorem C8_recommendations_in_rule_order (data : EnrichedProjectInput.t)
  (air : Q) (water : Z) (land : Q) :
  recs data air water land = recs_spec data air water land /\
  (forall res u, enrich_data res u = data ->
     exists w r, water_score data = Ok w /\ calculate_impact res u = Ok r /\
       ImpactResult.recommendations r =
         recs_spec data
           (air_score data (final_pm25 data (added_pm25 data))
                           (final_no2 data (added_no2 data)))
           w (land_score data)) /\
  (air == 70 -> water = 10%Z -> land == 10 ->
   EnrichedProjectInput.has_solar data = 0%Z ->
   EnrichedProjectInput.energy_efficient_lighting data = 0%Z ->
   recs data air water land = [rec_air; rec_solar; rec_led]).
Proof.
  split; [apply recs_follow_rule_order|]. split.
  - intros res u Hdata.
    destruct (calculate_impact_returns res u) as (w & Hw & H).
    rewrite Hdata in Hw, H. exists w. eexists.
    split; [exact Hw|]. split; [exact H|].
    cbn [ImpactResult.recommendations]. apply recs_follow_rule_order.
  - intros Ha Hw Hl Hs He. unfold recs.
    assert (H1 : Qltb 50 air = true)
      by (apply Qltb_true; rewrite Ha; reflexivity).
    assert (H2 : Qltb 50 land = false)
      by (apply Qltb_false; rewrite Hl; discriminate).
    rewrite H1, H2, Hw, Hs, He. reflexivity.
Qed.

(** C8 at the enrichment of the sample request, with the scores of the
    worked example. *)
Lemma C8_recommendations_in_rule_order_witness :
  recs (enrich_data degraded sample_input) 70 10 10
    = [rec_air; rec_solar; rec_led].
Proof.
  destruct (C8_recommendations_in_rule_order
              (enrich_data degraded sample_input) 70 10 10) as (_ & _ & H).
  apply H; reflexivity.
Defined.

(** *** C9: construction dust *)

(** C9.  The construction-dust term has no effect: for every snapshot and
    every input, [calculate_impact] returns what the pipeline without that
    computation returns, field for field. *)
Theorem C9_construction_dust_has_no_effect (res : Resources) (u : UserInput.t) :
  calculate_impact res u = calculate_impact_without_dust res u.
Proof. reflexivity. Qed.

(** *** C10: green area is truncated before scoring *)

(** C10.  Enrichment stores [int(green_area_percent)], and the land score
    adds its 20 points when that truncated value is below 10.  An input of
    9.9 is stored as 9 and gets the 20 points; an input of 10.0 is stored as
    10 and does not. *)
Theorem C10_green_area_truncated_before_scoring
  (res : Resources) (u : UserInput.t) :
  let data := enrich_data res u in
  let base :=
    if (EnrichedProjectInput.near_sensitive_zone data =? 1)%Z
    then UserInput.vegetation_removed_percent u + 40
    else UserInput.vegetation_removed_percent u in
  EnrichedProjectInput.green_area_percent data
    = int (UserInput.green_area_percent u) /\
  land_score data =
    Py.min 100 (if (int (UserInput.green_area_percent u) <? 10)%Z
                then base + 20 else base) /\
  (UserInput.green_area_percent u == 9.9 ->
     EnrichedProjectInput.green_area_percent data = 9%Z /\
     land_score data = Py.min 100 (base + 20)) /\
  (UserInput.green_area_percent u == 10.0 ->
     EnrichedProjectInput.green_area_percent data = 10%Z /\
     land_score data = Py.min 100 base).
Proof.
  intros data base.
  split; [reflexivity|]. split; [reflexivity|].
  unfold land_score. subst base data.
  cbn [enrich_data EnrichedProjectInput.green_area_percent
       EnrichedProjectInput.vegetation_removed_percent
       EnrichedProjectInput.near_sensitive_zone].
  split; intros H; rewrite (int_comp _ _ H); split; reflexivity.
Qed.

(** C10 at the sample request, whose green-area percentage is 9.9. *)
Lemma C10_green_area_truncated_before_scoring_witness :
  EnrichedProjectInput.green_area_percent (enrich_data degraded sample_input)
    = 9%Z /\
  land_score (enrich_data degraded sample_input) == 25.2.
Proof.
  destruct (C10_green_area_truncated_before_scoring degraded sample_input)
    as (_ & _ & H & _).
  destruct (H (Qeq_refl 9.9)) as [H9 Hland].
  split; [exact H9|]. rewrite Hland. reflexivity.
Defined.

(* ================================================================== *)
(** ** Further properties of [main.py] *)
(* ================================================================== *)

Import Derived.

(** *** [calculate_impact]: what the response says about the scores *)

(** X1.  The reported overall score is within 0.05 of the weighted sum, and
    it agrees with the reported class: High comes with a score of at least
    60, Moderate with a score between 30 and 60, Low with at most 30. *)
Theorem reported_score_agrees_with_class (res : Resources) (u : UserInput.t) :
  exists (w : Z) (r : ImpactResult.t),
    water_score (enrich_data res u) = Ok w /\
    calculate_impact res u = Ok r /\
    Qabs (ImpactResult.overall_score r - weighted_sum (enrich_data res u) w)
      <= 0.05 /\
    ((60 <= ImpactResult.overall_score r /\
      ImpactResult.impact_class r = "High") \/
     (30 <= ImpactResult.overall_score r /\
      ImpactResult.overall_score r <= 60 /\
      ImpactResult.impact_class r = "Moderate") \/
     (ImpactResult.overall_score r <= 30 /\
      ImpactResult.impact_class r = "Low")).
Proof.
  destruct (calculate_impact_returns res u) as (w & Hw & H).
  exists w. eexists. split; [exact Hw|]. split; [exact H|].
  cbn [ImpactResult.overall_score ImpactResult.impact_class].
  set (s := weighted_sum (enrich_data res u) w).
  split.
  - pose proof (round_error 1 s) as He.
    change ((1 # 2) / inject_Z (10 ^ Z.of_nat 1)) with ((1 # 2) / 10) in He.
    qlra.
  - assert (R60 : round 60 1 == 60) by reflexivity.
    assert (R30 : round 30 1 == 30) by reflexivity.
    destruct (imp_class_cases s) as [[H1 ->]|[(H1 & H2 & ->)|[H1 ->]]].
    + left. split; [|reflexivity].
      rewrite <- R60. apply round_mono. lra.
    + right; left. repeat split.
      * rewrite <- R30. apply round_mono. lra.
      * rewrite <- R60. apply round_mono. exact H2.
    + right; right. split; [|reflexivity].
      rewrite <- R30. apply round_mono. exact H1.
Qed.

Lemma air_score_mono (res : Resources) (u : UserInput.t)
  (vehicles : Z) (fuel dg waste hazardous vegetation : Q) :
  (UserInput.vehicles_per_day u <= vehicles)%Z ->
  UserInput.fuel_consumption_l_per_day u <= fuel ->
  UserInput.dg_hours_per_day u <= dg ->
  let data := enrich_data res u in
  let data' :=
    enrich_data res (with_loads u vehicles fuel dg waste hazardous vegetation) in
  air_score data (final_pm25 data (added_pm25 data))
                 (final_no2 data (added_no2 data))
  <= air_score data' (final_pm25 data' (added_pm25 data'))
                     (final_no2 data' (added_no2 data')).
Proof.
  intros Hv Hf Hd data data'.
  rewrite Zle_Qle in Hv.
  assert (Hpm : final_pm25 data (added_pm25 data)
                <= final_pm25 data' (added_pm25 data')).
  { unfold final_pm25, added_pm25, data, data'.
    cbn [enrich_data with_loads EnrichedProjectInput.baseline_pm25
         EnrichedProjectInput.vehicles_per_day
         EnrichedProjectInput.fuel_consumption_l_per_day
         UserInput.vehicles_per_day UserInput.fuel_consumption_l_per_day].
    change (city_data res (with_loads u vehicles fuel dg waste hazardous vegetation))
      with (city_data res u).
    qlra. }
  assert (Hno : final_no2 data (added_no2 data)
                <= final_no2 data' (added_no2 data')).
  { unfold final_no2, added_no2, data, data'.
    cbn [enrich_data with_loads EnrichedProjectInput.baseline_no2
         EnrichedProjectInput.vehicles_per_day
         EnrichedProjectInput.fuel_consumption_l_per_day
         UserInput.vehicles_per_day UserInput.fuel_consumption_l_per_day].
    change (city_data res (with_loads u vehicles fuel dg waste hazardous vegetation))
      with (city_data res u).
    qlra. }
  unfold air_score. apply min_mono_r.
  change (EnrichedProjectInput.dg_hours_per_day data') with dg.
  change (EnrichedProjectInput.dg_hours_per_day data)
    with (UserInput.dg_hours_per_day u).
  qlra.
Qed.

(** X2.  Raising any of the load inputs (vehicles, fuel, generator hours,
    daily waste, hazardous waste, vegetation removal) and leaving the rest
    of the request alone never lowers the weighted sum or the reported
    overall score; the water score is untouched. *)
Theorem more_load_never_lowers_score (res : Resources) (u : UserInput.t)
  (vehicles : Z) (fuel dg waste hazardous vegetation : Q) :
  (UserInput.vehicles_per_day u <= vehicles)%Z ->
  UserInput.fuel_consumption_l_per_day u <= fuel ->
  UserInput.dg_hours_per_day u <= dg ->
  UserInput.daily_waste_kg u <= waste ->
  UserInput.hazardous_waste_kg_per_month u <= hazardous ->
  UserInput.vegetation_removed_percent u <= vegetation ->
  let u' := with_loads u vehicles fuel dg waste hazardous vegetation in
  exists (w : Z) (r r' : ImpactResult.t),
    water_score (enrich_data res u) = Ok w /\
    water_score (enrich_data res u') = Ok w /\
    calculate_impact res u = Ok r /\
    calculate_impact res u' = Ok r' /\
    weighted_sum (enrich_data res u) w <= weighted_sum (enrich_data res u') w /\
    ImpactResult.overall_score r <= ImpactResult.overall_score r'.
Proof.
  intros Hv Hf Hd Hw Hh Hg u'.
  destruct (calculate_impact_returns res u) as (w & Hws & H).
  destruct (calculate_impact_returns res u') as (w' & Hws' & H').
  assert (Hsame : water_score (enrich_data res u')
                  = water_score (enrich_data res u)) by reflexivity.
  rewrite Hsame, Hws in Hws'. injection Hws' as <-.
  pose proof (air_score_mono res u vehicles fuel dg waste hazardous vegetation
                Hv Hf Hd) as Hair.
  cbv zeta in Hair. fold u' in Hair.
  assert (Hwaste : waste_score (enrich_data res u)
                   <= waste_score (enrich_data res u')).
  { unfold waste_score.
    change (EnrichedProjectInput.waste_segregation (enrich_data res u'))
      with (EnrichedProjectInput.waste_segregation (enrich_data res u)).
    change (EnrichedProjectInput.daily_waste_kg (enrich_data res u')) with waste.
    change (EnrichedProjectInput.hazardous_waste_kg_per_month (enrich_data res u'))
      with hazardous.
    change (EnrichedProjectInput.daily_waste_kg (enrich_data res u))
      with (UserInput.daily_waste_kg u).
    change (EnrichedProjectInput.hazardous_waste_kg_per_month (enrich_data res u))
      with (UserInput.hazardous_waste_kg_per_month u).
    apply min_mono_r.
    destruct (EnrichedProjectInput.waste_segregation (enrich_data res u) =? 0)%Z;
      qlra. }
  assert (Hland : land_score (enrich_data res u)
                  <= land_score (enrich_data res u')).
  { unfold land_score.
    change (EnrichedProjectInput.near_sensitive_zone (enrich_data res u'))
      with (EnrichedProjectInput.near_sensitive_zone (enrich_data res u)).
    change (EnrichedProjectInput.green_area_percent (enrich_data res u'))
      with (EnrichedProjectInput.green_area_percent (enrich_data res u)).
    change (EnrichedProjectInput.vegetation_removed_percent (enrich_data res u'))
      with vegetation.
    change (EnrichedProjectInput.vegetation_removed_percent (enrich_data res u))
      with (UserInput.vegetation_removed_percent u).
    apply min_mono_r.
    destruct (EnrichedProjectInput.near_sensitive_zone (enrich_data res u) =? 1)%Z;
      destruct (EnrichedProjectInput.green_area_percent (enrich_data res u) <? 10)%Z;
      lra. }
  assert (Hnoise : noise_score (enrich_data res u')
                   = noise_score (enrich_data res u)) by reflexivity.
  assert (Hsum : weighted_sum (enrich_data res u) w
                 <= weighted_sum (enrich_data res u') w).
  { unfold weighted_sum, overall_score. rewrite Hnoise. lra. }
  exists w. do 2 eexists.
  split; [exact Hws|]. split; [rewrite Hsame; exact Hws|].
  split; [exact H|]. split; [exact H'|]. split; [exact Hsum|].
  cbn [ImpactResult.overall_score]. apply round_mono. exact Hsum.
Qed.

(** X2 at the sample request with ten more vehicles and one more hour of
    generator use. *)
Lemma more_load_never_lowers_score_witness :
  exists r r',
    calculate_impact degraded sample_input = Ok r /\
    calculate_impact degraded
      (with_loads sample_input 10 0 35 0 0 5.2) = Ok r' /\
    ImpactResult.overall_score r <= ImpactResult.overall_score r'.
Proof.
  destruct (more_load_never_lowers_score degraded sample_input 10 0 35 0 0 5.2)
    as (w & r & r' & _ & _ & Hr & Hr' & _ & Hle);
    try (vm_compute; discriminate).
  exists r, r'. auto.
Defined.

(** X3.  Rainwater harvesting is worth exactly ten points of water score,
    floored at zero: with the flag at 1 the water score is the score with
    the flag at 0 minus 10, or 0 when that score is below 10.  Without the
    flag the score is a multiple of 10 between 0 and 100. *)
Theorem rainwater_harvesting_is_worth_ten_points
  (res : Resources) (u : UserInput.t) :
  exists w0 : Z,
    water_score (enrich_data res (with_rainwater u 0)) = Ok w0 /\
    water_score (enrich_data res (with_rainwater u 1)) = Ok (Z.max 0 (w0 - 10)) /\
    (exists k, (0 <= k <= 10)%Z /\ w0 = (10 * k)%Z).
Proof.
  unfold water_score.
  change (persons (enrich_data res (with_rainwater u 1)))
    with (persons (enrich_data res (with_rainwater u 0))).
  change (EnrichedProjectInput.daily_water_m3 (enrich_data res (with_rainwater u 1)))
    with (EnrichedProjectInput.daily_water_m3 (enrich_data res (with_rainwater u 0))).
  rewrite truediv_ok
    by (pose proof (persons_ge_1 (enrich_data res (with_rainwater u 0))); lra).
  cbn [bind].
  change (EnrichedProjectInput.has_rainwater_harvesting
            (enrich_data res (with_rainwater u 0))) with 0%Z.
  change (EnrichedProjectInput.has_rainwater_harvesting
            (enrich_data res (with_rainwater u 1))) with 1%Z.
  change (EnrichedProjectInput.distance_to_water_body_km
            (enrich_data res (with_rainwater u 1)))
    with (EnrichedProjectInput.distance_to_water_body_km
            (enrich_data res (with_rainwater u 0))).
  change (EnrichedProjectInput.stp_present (enrich_data res (with_rainwater u 1)))
    with (EnrichedProjectInput.stp_present (enrich_data res (with_rainwater u 0))).
  eexists. split; [reflexivity|].
  destruct (Qltb 150 _), (Qltb _ 0.5), (_ =? 0)%Z; cbn;
    (split; [reflexivity|]).
  all: first [ exists 10%Z; split; [lia|reflexivity]
             | exists 8%Z; split; [lia|reflexivity]
             | exists 6%Z; split; [lia|reflexivity]
             | exists 4%Z; split; [lia|reflexivity]
             | exists 2%Z; split; [lia|reflexivity]
             | exists 0%Z; split; [lia|reflexivity] ].
Qed.

Lemma recs_spec_NoDup (data : EnrichedProjectInput.t)
  (air : Q) (water : Z) (land : Q) :
  NoDup (recs_spec data air water land).
Proof.
  unfold recs_spec, rules.
  destruct (Qltb 50 air), (50 <? water)%Z, (Qltb 50 land),
    (EnrichedProjectInput.has_solar data =? 0)%Z,
    (EnrichedProjectInput.energy_efficient_lighting data =? 0)%Z;
    cbn; repeat constructor; cbn; intuition discriminate.
Qed.

(** X4.  The recommendation list of a response never repeats a text and
    has at most five entries; the solar text is in it exactly when
    [has_solar] is 0 and the LED text exactly when
    [energy_efficient_lighting] is 0, whatever the scores. *)
Theorem recommendations_distinct_and_flag_driven
  (res : Resources) (u : UserInput.t) :
  exists r : ImpactResult.t,
    calculate_impact res u = Ok r /\
    NoDup (ImpactResult.recommendations r) /\
    (List.length (ImpactResult.recommendations r) <= 5)%nat /\
    (In rec_solar (ImpactResult.recommendations r)
       <-> UserInput.has_solar u = 0%Z) /\
    (In rec_led (ImpactResult.recommendations r)
       <-> UserInput.energy_efficient_lighting u = 0%Z).
Proof.
  destruct (calculate_impact_returns res u) as (w & _ & H).
  eexists. split; [exact H|].
  cbn [ImpactResult.recommendations]. rewrite recs_follow_rule_order.
  split; [apply recs_spec_NoDup|].
  unfold recs_spec, rules.
  change (EnrichedProjectInput.has_solar (enrich_data res u))
    with (UserInput.has_solar u).
  change (EnrichedProjectInput.energy_efficient_lighting (enrich_data res u))
    with (UserInput.energy_efficient_lighting u).
  destruct (Qltb 50 _), (50 <? w)%Z, (Qltb 50 _),
    (Z.eqb_spec (UserInput.has_solar u) 0),
    (Z.eqb_spec (UserInput.energy_efficient_lighting u) 0);
    cbn; (split; [lia|]); split; split; intros HH; try tauto;
    try (repeat destruct HH as [HH|HH]; try discriminate HH; tauto);
    auto 10.
Qed.

(** *** [enrich_data]: what the enriched record can hold *)

(** X5.  The derived noise level is 50, 65 or 75, so through the pipeline
    the noise score is one of 10, 30, 40, 60 and 80: it is never 0 and the
    clamp at 100 never applies. *)
Theorem noise_score_of_enriched (res : Resources) (u : UserInput.t) :
  let n := noise_score (enrich_data res u) in
  (EnrichedProjectInput.avg_noise_db (enrich_data res u) = 50.0 \/
   EnrichedProjectInput.avg_noise_db (enrich_data res u) = 65.0 \/
   EnrichedProjectInput.avg_noise_db (enrich_data res u) = 75.0) /\
  (n == 10 \/ n == 30 \/ n == 40 \/ n == 60 \/ n == 80) /\
  10 <= n <= 80.
Proof.
  cbv zeta.
  assert (H : noise_score (enrich_data res u) == 10 \/
              noise_score (enrich_data res u) == 30 \/
              noise_score (enrich_data res u) == 40 \/
              noise_score (enrich_data res u) == 60 \/
              noise_score (enrich_data res u) == 80).
  { unfold noise_score.
    change (EnrichedProjectInput.avg_noise_db (enrich_data res u))
      with (base_noise u).
    change (EnrichedProjectInput.distance_to_residential_m (enrich_data res u))
      with (UserInput.distance_to_residential_m u).
    unfold base_noise.
    destruct (UserInput.project_type u =? "Industrial")%string;
      [|destruct (UserInput.project_type u =? "Commercial")%string];
      destruct (Qltb (UserInput.distance_to_residential_m u) 50);
      vm_compute; intuition discriminate. }
  split.
  - change (EnrichedProjectInput.avg_noise_db (enrich_data res u))
      with (base_noise u).
    unfold base_noise.
    destruct (UserInput.project_type u =? "Industrial")%string;
      [|destruct (UserInput.project_type u =? "Commercial")%string]; auto.
  - split; [exact H|].
    destruct H as [H|[H|[H|[H|H]]]]; rewrite H; split; discriminate.
Qed.

(** X6.  Truncating the green-area percentage to an int never changes the
    land penalty: the stored int is below 10 exactly when the percentage
    the caller sent is below 10. *)
Theorem green_truncation_never_changes_penalty
  (res : Resources) (u : UserInput.t) :
  (EnrichedProjectInput.green_area_percent (enrich_data res u) <? 10)%Z
    = Qltb (UserInput.green_area_percent u) 10.
Proof.
  change (EnrichedProjectInput.green_area_percent (enrich_data res u))
    with (int (UserInput.green_area_percent u)).
  destruct (Qltb_spec (UserInput.green_area_percent u) 10) as [H|H].
  - apply Z.ltb_lt. now apply int_lt_10_iff.
  - apply Z.ltb_ge. apply Z.nlt_ge. intros Hlt. apply H.
    now apply int_lt_10_iff.
Qed.

Lemma near_sensitive_loop_cases (lng0 lat0 : Q) (rows : list SensitiveRow) :
  (near_sensitive_loop lng0 lat0 rows = 1%Z /\
   exists row, In row rows /\ (zone_distance lng0 lat0 row < 5)%R) \/
  (near_sensitive_loop lng0 lat0 rows = 0%Z /\
   forall row, In row rows -> (5 <= zone_distance lng0 lat0 row)%R).
Proof.
  induction rows as [|row rest IH]; cbn [near_sensitive_loop].
  - right. split; [reflexivity|]. intros row [].
  - fold (zone_distance lng0 lat0 row).
    destruct (Rlt_dec (zone_distance lng0 lat0 row) 5) as [Hlt|Hge].
    + left. split; [reflexivity|]. exists row. split; [now left|exact Hlt].
    + destruct IH as [[H1 (r & Hin & Hd)]|[H0 Hall]].
      * left. split; [exact H1|]. exists r. split; [now right|exact Hd].
      * right. split; [exact H0|].
        intros r [<-|Hin]; [Lra.lra|now apply Hall].
Qed.

(** X7.  The flag [near_sensitive_zone] is 0 or 1, and it is 1 exactly when
    the zone table is loaded and holds a zone less than 5 km from the
    resolved coordinates. *)
Theorem near_sensitive_zone_iff_zone_within_5km
  (res : Resources) (u : UserInput.t) :
  (EnrichedProjectInput.near_sensitive_zone (enrich_data res u) = 1%Z /\
   exists rows row, SENSITIVE_LOCS res = Some rows /\ In row rows /\
     (zone_distance (resolved_lng res u) (resolved_lat res u) row < 5)%R) \/
  (EnrichedProjectInput.near_sensitive_zone (enrich_data res u) = 0%Z /\
   forall rows row, SENSITIVE_LOCS res = Some rows -> In row rows ->
     (5 <= zone_distance (resolved_lng res u) (resolved_lat res u) row)%R).
Proof.
  change (EnrichedProjectInput.near_sensitive_zone (enrich_data res u))
    with (near_sensitive (SENSITIVE_LOCS res) (resolved_lng res u)
                         (resolved_lat res u)).
  unfold near_sensitive.
  destruct (SENSITIVE_LOCS res) as [rows|].
  - destruct (near_sensitive_loop_cases (resolved_lng res u)
                (resolved_lat res u) rows)
      as [[H1 (r & Hin & Hd)]|[H0 Hall]].
    + left. split; [exact H1|]. exists rows, r. auto.
    + right. split; [exact H0|]. intros rows' r [= <-]. apply Hall.
  - right. split; [reflexivity|]. intros rows r H. discriminate H.
Qed.

Lemma find_first_match {A : Type} (f : A -> bool) (before after : list A) (x : A) :
  (forall y, In y before -> f y = false) -> f x = true ->
  find f (before ++ x :: after) = Some x.
Proof.
  intros Hb Hx. induction before as [|y before IH]; cbn.
  - rewrite Hx. reflexivity.
  - rewrite (Hb y (or_introl eq_refl)). apply IH.
    intros z Hz. apply Hb. now right.
Qed.

(** X8.  After a successful load, a request whose trimmed, lower-cased city
    name equals the lower-cased name of a CSV row is enriched with the
    coordinates and the five baselines of that row, provided no earlier
    row has the same lower-cased name: the first match wins. *)
Theorem listed_city_resolves_to_its_first_row
  (model : Model) (zones : list SensitiveRow)
  (before after : list CsvCity) (r : CsvCity) (u : UserInput.t) :
  (forall r', In r' before -> lower (city r') <> lower (city r)) ->
  strip (lower (UserInput.city u)) = lower (city r) ->
  let res :=
    load_resources (Some model) (Some zones)
                   (Some (before ++ r :: after)%list) in
  resolved_lat res u = latitude r /\
  resolved_lng res u = longitude r /\
  EnrichedProjectInput.baseline_pm25 (enrich_data res u) = pm25 r /\
  EnrichedProjectInput.baseline_no2 (enrich_data res u) = no2 r /\
  EnrichedProjectInput.baseline_so2 (enrich_data res u) = so2 r /\
  EnrichedProjectInput.baseline_co (enrich_data res u) = co_mg_m3 r /\
  EnrichedProjectInput.baseline_o3 (enrich_data res u) = o3 r.
Proof.
  intros Hfirst Hkey res.
  assert (Hfind : city_data res u = Some (mkCityRow r (lower (city r)))).
  { unfold city_data, res, load_resources. cbn [CITIES_DB].
    rewrite map_app. cbn [map].
    apply find_first_match.
    - intros y Hy. apply in_map_iff in Hy. destruct Hy as (r' & <- & Hin).
      cbn [city_lower]. apply String.eqb_neq. unfold city_key. rewrite Hkey.
      now apply Hfirst.
    - cbn [city_lower]. apply String.eqb_eq. unfold city_key. now rewrite Hkey. }
  unfold resolved_lat, resolved_lng.
  cbn [enrich_data EnrichedProjectInput.baseline_pm25
       EnrichedProjectInput.baseline_no2 EnrichedProjectInput.baseline_so2
       EnrichedProjectInput.baseline_co EnrichedProjectInput.baseline_o3].
  rewrite Hfind. cbn [csv]. repeat split; reflexivity.
Qed.

(** X8 at the sample request, whose city is written "  Pune ", against the
    sample table, where Pune is the second row. *)
Lemma listed_city_resolves_to_its_first_row_witness :
  EnrichedProjectInput.baseline_pm25 (enrich_data sample_resources sample_input)
    = 58.0 /\
  resolved_lat sample_resources sample_input = 18.5204.
Proof.
  destruct (listed_city_resolves_to_its_first_row sample_model sample_zones
              [ {| city := "Delhi"; latitude := 28.6139; longitude := 77.2090;
                   pm25 := 153.0; no2 := 61.0; so2 := 14.0; co_mg_m3 := 1.8;
                   o3 := 42.0 |} ]
              []
              {| city := "Pune"; latitude := 18.5204; longitude := 73.8567;
                 pm25 := 58.0; no2 := 32.0; so2 := 9.0; co_mg_m3 := 0.9;
                 o3 := 27.0 |}
              sample_input)
    as (Hlat & _ & Hpm & _).
  - intros r' [<-|[]]. vm_compute. discriminate.
  - reflexivity.
  - split; [exact Hpm | exact Hlat].
Defined.

(** *** [str.strip] and table rows with padded names *)

Lemma rstrip_idem (s : string) : rstrip (rstrip s) = rstrip s.
Proof.
  induction s as [|c r IH]; [reflexivity|].
  cbn [rstrip]. destruct (rstrip r) as [|c' r'] eqn:E.
  - destruct (isspace c) eqn:Ec; [reflexivity|].
    cbn [rstrip]. rewrite Ec. reflexivity.
  - change (rstrip (String c (String c' r')))
      with (match rstrip (String c' r') with
            | EmptyString =>
                if isspace c then EmptyString else String c EmptyString
            | String a b => String c (String a b)
            end).
    rewrite IH. reflexivity.
Qed.

Lemma rstrip_keeps_head (c : ascii) (r : string) :
  isspace c = false -> exists r', rstrip (String c r) = String c r'.
Proof.
  intros Hc. cbn [rstrip]. destruct (rstrip r).
  - rewrite Hc. eexists. reflexivity.
  - eexists. reflexivity.
Qed.

Lemma lstrip_head (s : string) :
  lstrip s = EmptyString \/
  exists c r, lstrip s = String c r /\ isspace c = false.
Proof.
  induction s as [|c r IH]; [now left|].
  cbn [lstrip]. destruct (isspace c) eqn:Ec; [exact IH|].
  right. exists c, r. auto.
Qed.

Lemma strip_idem (s : string) : strip (strip s) = strip s.
Proof.
  unfold strip.
  destruct (lstrip_head s) as [E|(c & r & E & Hc)].
  - rewrite E. reflexivity.
  - rewrite E. destruct (rstrip_keeps_head c r Hc) as [r' Er].
    rewrite Er. cbn [lstrip]. rewrite Hc. rewrite <- Er. apply rstrip_idem.
Qed.

(** X9.  A table row whose lower-cased name carries leading or trailing
    whitespace is dead: enrichment trims the request's city name but not
    the table's, so no request ever resolves to that row. *)
Theorem padded_table_row_is_never_matched
  (res : Resources) (u : UserInput.t) (row : CityRow) :
  strip (city_lower row) <> city_lower row ->
  city_data res u <> Some row.
Proof.
  intros Hpad Hfound.
  apply city_data_In in Hfound. destruct Hfound as (_ & _ & _ & Hkey).
  apply Hpad. rewrite Hkey. unfold city_key. apply strip_idem.
Qed.

(** X9 for a row named "pune " (one trailing blank). *)
Lemma padded_table_row_is_never_matched_witness :
  strip "pune " = "pune" /\
  city_data sample_resources sample_input
    <> Some (mkCityRow (mkCsvCity "Pune " 18.5204 73.8567 58.0 32.0 9.0 0.9 27.0)
                       "pune ").
Proof.
  split; [reflexivity|].
  apply padded_table_row_is_never_matched. vm_compute. discriminate.
Defined.

(** *** [haversine]: range and dependence on longitude *)

Lemma sin_half_sqr (x : R) : ((sin (x / 2)) ^ 2 = (1 - cos x) / 2)%R.
Proof.
  replace x with (2 * (x / 2))%R at 2 by Lra.lra.
  rewrite cos_2a_sin. Lra.lra.
Qed.

Lemma haversine_a_range (lon1 lat1 lon2 lat2 : R) :
  (0 <= haversine_a lon1 lat1 lon2 lat2 <= 1)%R.
Proof.
  unfold haversine_a. rewrite !sin_half_sqr, cos_minus.
  set (p1 := radians lat1). set (p2 := radians lat2).
  set (dl := (radians lon2 - radians lon1)%R).
  pose proof (sin2_cos2 p1) as H1. pose proof (sin2_cos2 p2) as H2.
  pose proof (COS_bound dl) as Hd. unfold Rsqr in H1, H2.
  generalize dependent (sin p1). generalize dependent (cos p1).
  generalize dependent (sin p2). generalize dependent (cos p2).
  generalize dependent (cos dl).
  intros cd Hd c2 s2 H2 c1 s1 H1.
  assert (Hc : (0 <= c2 * c2 * (1 - cd * cd))%R).
  { apply Rmult_le_pos; Lra.nra. }
  pose proof (Rle_0_sqr (s1 - s2)) as Q1.
  pose proof (Rle_0_sqr (c1 - c2 * cd)) as Q2.
  pose proof (Rle_0_sqr (s1 + s2)) as Q3.
  pose proof (Rle_0_sqr (c1 + c2 * cd)) as Q4.
  unfold Rsqr in Q1, Q2, Q3, Q4.
  split; Lra.nra.
Qed.

Lemma asin_nonneg (x : R) : (0 <= x <= 1)%R -> (0 <= asin x)%R.
Proof.
  intros [H0 H1].
  destruct (Rle_lt_dec 0 (asin x)) as [H|H]; [exact H|exfalso].
  pose proof (asin_bound x) as [Hlo _].
  pose proof (sin_asin x ltac:(Lra.lra)) as Hs.
  assert (Hpos : (0 < sin (- asin x))%R).
  { apply sin_gt_0; pose proof PI_RGT_0; Lra.lra. }
  rewrite sin_neg in Hpos. Lra.lra.
Qed.

(** X10.  For all coordinates, in range or not, the quantity under the
    square root lies between 0 and 1, so the square root and the arcsine
    are taken inside their domains, and the distance lies between 0 and
    half the circumference, 6371 times pi. *)
Theorem haversine_within_half_circumference (lon1 lat1 lon2 lat2 : R) :
  (0 <= haversine_a lon1 lat1 lon2 lat2 <= 1)%R /\
  haversine lon1 lat1 lon2 lat2
    = (2 * asin (sqrt (haversine_a lon1 lat1 lon2 lat2)) * 6371)%R /\
  (0 <= haversine lon1 lat1 lon2 lat2 <= PI * 6371)%R.
Proof.
  pose proof (haversine_a_range lon1 lat1 lon2 lat2) as Ha.
  split; [exact Ha|]. split; [reflexivity|].
  change (haversine lon1 lat1 lon2 lat2)
    with (2 * asin (sqrt (haversine_a lon1 lat1 lon2 lat2)) * 6371)%R.
  set (a := haversine_a lon1 lat1 lon2 lat2) in *.
  assert (Hs : (0 <= sqrt a <= 1)%R).
  { split; [apply sqrt_pos|]. rewrite <- sqrt_1. apply sqrt_le_1; Lra.lra. }
  pose proof (asin_nonneg (sqrt a) Hs) as Hlo.
  pose proof (asin_bound (sqrt a)) as [_ Hhi].
  split; Lra.nra.
Qed.

Lemma sin_sqr_shift_PI (x : R) : ((sin (x + PI)) ^ 2 = (sin x) ^ 2)%R.
Proof. rewrite neg_sin. ring. Qed.

(** X11.  The distance depends on the longitudes only through their
    difference, and a full turn of 360 degrees added to one longitude
    changes nothing. *)
Theorem haversine_longitude_invariance (lon1 lat1 lon2 lat2 d : R) :
  haversine (lon1 + d) lat1 (lon2 + d) lat2 = haversine lon1 lat1 lon2 lat2 /\
  haversine lon1 lat1 (lon2 + 360) lat2 = haversine lon1 lat1 lon2 lat2.
Proof.
  split.
  - unfold haversine, radians. cbv zeta.
    replace (((lon2 + d) * PI / 180 - (lon1 + d) * PI / 180) / 2)%R
      with ((lon2 * PI / 180 - lon1 * PI / 180) / 2)%R by Lra.lra.
    reflexivity.
  - unfold haversine, radians. cbv zeta.
    replace (((lon2 + 360) * PI / 180 - lon1 * PI / 180) / 2)%R
      with ((lon2 * PI / 180 - lon1 * PI / 180) / 2 + PI)%R by Lra.lra.
    rewrite sin_sqr_shift_PI. reflexivity.
Qed.

(** *** [analyze_location_proximity]: the nearest-zone scan *)

Lemma scan_inv_step (lng0 lat0 : Q) (seen : list SensitiveRow)
  (st : Dist * option SensitiveRow) (row : SensitiveRow) :
  scan_inv lng0 lat0 seen st ->
  scan_inv lng0 lat0 (seen ++ [row]) (nearest_step lng0 lat0 st row).
Proof.
  intros [[-> ->]|(pre & r & post & -> & -> & Hpre & Hpost)].
  - right. exists [], row, []. cbn. repeat split; intros r' [].
  - unfold nearest_step. fold (zone_distance lng0 lat0 row).
    cbn [fst lt_dist].
    destruct (Rlt_dec (zone_distance lng0 lat0 row) (zone_distance lng0 lat0 r))
      as [Hlt|Hge]; right.
    + exists (pre ++ r :: post)%list, row, []. repeat split.
      * intros r' Hin. apply in_app_or in Hin.
        destruct Hin as [Hin|[<-|Hin]].
        -- specialize (Hpre r' Hin). Lra.lra.
        -- exact Hlt.
        -- specialize (Hpost r' Hin). Lra.lra.
      * intros r' [].
    + exists pre, r, (post ++ [row])%list. repeat split.
      * rewrite <- app_assoc. reflexivity.
      * exact Hpre.
      * intros r' Hin. apply in_app_or in Hin.
        destruct Hin as [Hin|[<-|[]]]; [now apply Hpost|Lra.lra].
Qed.

Lemma scan_inv_fold (lng0 lat0 : Q) (rows seen : list SensitiveRow)
  (st : Dist * option SensitiveRow) :
  scan_inv lng0 lat0 seen st ->
  scan_inv lng0 lat0 (seen ++ rows)
    (fold_left (nearest_step lng0 lat0) rows st).
Proof.
  revert seen st. induction rows as [|row rows IH]; intros seen st Hinv.
  - rewrite app_nil_r. exact Hinv.
  - cbn [fold_left].
    replace (seen ++ row :: rows)%list with ((seen ++ [row]) ++ rows)%list
      by (rewrite <- app_assoc; reflexivity).
    apply IH. now apply scan_inv_step.
Qed.

Lemma nearest_scan_correct (lng0 lat0 : Q) (rows : list SensitiveRow) :
  scan_inv lng0 lat0 rows (fold_left (nearest_step lng0 lat0) rows (Inf, None)).
Proof.
  apply (scan_inv_fold lng0 lat0 rows [] (Inf, None)). left. auto.
Qed.

Lemma risk_cases (d : R) :
  let risk := if dist_lt (Km d) 2 then "High"
              else if dist_lt (Km d) 10 then "Moderate" else "Low" in
  ((d < 2)%R /\ risk = "High") \/
  ((2 <= d < 10)%R /\ risk = "Moderate") \/
  ((10 <= d)%R /\ risk = "Low").
Proof.
  cbn [dist_lt].
  destruct (Rlt_dec d 2); [left; auto|].
  destruct (Rlt_dec d 10); [right; left; split; [Lra.lra|reflexivity]|].
  right; right. split; [Lra.lra|reflexivity].
Qed.

(** X12.  For a listed city and a zone table with at least one row, the
    endpoint reports the first row of minimum distance from the city
    centre: every earlier row is strictly farther, every later row at
    least as far.  The reported distance is that minimum rounded to two
    decimals, and the risk is High below 2 km, Moderate from 2 km to
    below 10 km, Low from 10 km on, decided on the unrounded minimum. *)
Theorem proximity_reports_first_nearest_zone
  (res : Resources) (city : string) (db : list CityRow) (c : CityRow)
  (rows : list SensitiveRow) :
  CITIES_DB res = Some db ->
  find (fun row => String.eqb (city_lower row) (lower city)) db = Some c ->
  SENSITIVE_LOCS res = Some rows ->
  rows <> [] ->
  let d := zone_distance (longitude (csv c)) (latitude (csv c)) in
  exists pre r post info,
    rows = (pre ++ r :: post)%list /\
    (forall r', In r' pre -> (d r < d r')%R) /\
    (forall r', In r' post -> (d r <= d r')%R) /\
    analyze_location_proximity res city = Returns info /\
    nearest_location info = name r /\
    type info = Some (category r) /\
    distance_km info = Km (PyReal.round (d r) 2) /\
    (((d r < 2)%R /\ risk info = "High") \/
     ((2 <= d r < 10)%R /\ risk info = "Moderate") \/
     ((10 <= d r)%R /\ risk info = "Low")).
Proof.
  intros Hdb Hfind Hlocs Hne d.
  unfold analyze_location_proximity. rewrite Hdb, Hfind, Hlocs.
  destruct (nearest_scan_correct (longitude (csv c)) (latitude (csv c)) rows)
    as [[-> _]|(pre & r & post & Hrows & Hst & Hpre & Hpost)];
    [contradiction|].
  rewrite Hst. exists pre, r, post. eexists.
  split; [exact Hrows|]. split; [exact Hpre|]. split; [exact Hpost|].
  split; [reflexivity|].
  cbn [nearest_location type distance_km risk round_dist].
  repeat (split; [reflexivity|]).
  apply risk_cases.
Qed.

Lemma pune_is_listed :
  find (fun row => String.eqb (city_lower row) (lower "PUNE"))
       (map (fun r => mkCityRow r (lower (Main.city r))) sample_cities)
  = Some (mkCityRow
            {| Main.city := "Pune"; latitude := 18.5204; longitude := 73.8567;
               pm25 := 58.0; no2 := 32.0; so2 := 9.0; co_mg_m3 := 0.9;
               o3 := 27.0 |}
            "pune").
Proof. reflexivity. Defined.

(** X12 for "PUNE" against the sample tables, which hold one zone. *)
Lemma proximity_reports_first_nearest_zone_witness :
  exists info,
    analyze_location_proximity sample_resources "PUNE" = Returns info /\
    nearest_location info = "Sanjay Gandhi National Park" /\
    type info = Some "National Park".
Proof.
  destruct (proximity_reports_first_nearest_zone sample_resources "PUNE"
              _ _ sample_zones eq_refl pune_is_listed eq_refl)
    as (pre & r & post & info & Hrows & _ & _ & Hret & Hname & Htype & _).
  - discriminate.
  - exists info. split; [exact Hret|].
    destruct pre as [|z pre].
    + injection Hrows as <- _. split; [exact Hname | exact Htype].
    + exfalso. destruct pre; discriminate Hrows.
Defined.

(** X13.  When the zone file loads as an empty table, the endpoint raises
    [TypeError] for exactly the listed cities (it subscripts the nearest
    row, which is still [None]); an unlisted city still gets the
    "City Not Found" answer. *)
Theorem proximity_on_empty_zone_table
  (model : Model) (cities : list CsvCity) (city : string) :
  let res := load_resources (Some model) (Some []) (Some cities) in
  ((exists r, In r cities /\ lower (Main.city r) = lower city) /\
   analyze_location_proximity res city = RaisesTypeError) \/
  ((forall r, In r cities -> lower (Main.city r) <> lower city) /\
   analyze_location_proximity res city =
     Returns {| nearest_location := "City Not Found"; type := None;
                distance_km := Km 0; risk := "Unknown" |}).
Proof.
  cbv zeta. unfold analyze_location_proximity, load_resources.
  cbn [CITIES_DB SENSITIVE_LOCS].
  destruct (find _ (map _ cities)) as [c|] eqn:E.
  - left. split; [|reflexivity].
    apply find_some in E. destruct E as [Hin Heq].
    apply in_map_iff in Hin. destruct Hin as (r & <- & Hin).
    exists r. split; [exact Hin|]. now apply String.eqb_eq in Heq.
  - right. split; [|reflexivity].
    intros r Hin Heq.
    assert (Hrow : In (mkCityRow r (lower (Main.city r)))
                      (map (fun r => mkCityRow r (lower (Main.city r))) cities))
      by (apply in_map_iff; exists r; auto).
    pose proof (find_none _ _ E _ Hrow) as Hf. cbn [city_lower] in Hf.
    apply String.eqb_neq in Hf. contradiction.
Qed.

(** X14.  The two proximity judgements agree.  For a city name without
    surrounding whitespace, whenever the endpoint returns: risk High
    implies that enrichment sets [near_sensitive_zone] to 1, and risk Low
    implies that it sets it to 0. *)
Theorem proximity_risk_agrees_with_near_flag
  (res : Resources) (u : UserInput.t) (info : LocationInfo) :
  strip (lower (UserInput.city u)) = lower (UserInput.city u) ->
  analyze_location_proximity res (UserInput.city u) = Returns info ->
  (risk info = "High" ->
   EnrichedProjectInput.near_sensitive_zone (enrich_data res u) = 1%Z) /\
  (risk info = "Low" ->
   EnrichedProjectInput.near_sensitive_zone (enrich_data res u) = 0%Z).
Proof.
  intros Hkey.
  change (EnrichedProjectInput.near_sensitive_zone (enrich_data res u))
    with (near_sensitive (SENSITIVE_LOCS res) (resolved_lng res u)
                         (resolved_lat res u)).
  unfold analyze_location_proximity, resolved_lng, resolved_lat, city_data,
    city_key, near_sensitive.
  rewrite Hkey.
  destruct (CITIES_DB res) as [db|];
    [|intros [= <-]; split; intros H; discriminate H].
  destruct (find _ db) as [c|];
    [|intros [= <-]; split; intros H; discriminate H].
  destruct (SENSITIVE_LOCS res) as [rows|];
    [|intros [= <-]; split; intros H; discriminate H].
  set (lng0 := longitude (csv c)). set (lat0 := latitude (csv c)).
  destruct (nearest_scan_correct lng0 lat0 rows)
    as [[-> ->]|(pre & r & post & Hrows & -> & Hpre & Hpost)];
    [intros H; discriminate H|].
  intros [= <-]. cbn [risk].
  pose proof (risk_cases (zone_distance lng0 lat0 r)) as Hrisk.
  cbn [dist_lt] in Hrisk.
  destruct (near_sensitive_loop_cases lng0 lat0 rows)
    as [[H1 (z & Hin & Hz)]|[H0 Hall]].
  - rewrite H1. split; [reflexivity|]. intros Hlow. exfalso.
    assert (Hmin : (zone_distance lng0 lat0 r <= zone_distance lng0 lat0 z)%R).
    { rewrite Hrows in Hin. apply in_app_or in Hin.
      destruct Hin as [Hin|[<-|Hin]].
      - specialize (Hpre z Hin). Lra.lra.
      - Lra.lra.
      - now apply Hpost. }
    destruct Hrisk as [[_ E]|[[_ E]|[Hd _]]];
      [rewrite E in Hlow; discriminate Hlow
      |rewrite E in Hlow; discriminate Hlow
      |Lra.lra].
  - rewrite H0. split; [|reflexivity]. intros Hhigh. exfalso.
    assert (Hr : (5 <= zone_distance lng0 lat0 r)%R).
    { apply Hall. rewrite Hrows. apply in_or_app. right. now left. }
    destruct Hrisk as [[Hd _]|[[_ E]|[_ E]]];
      [Lra.lra
      |rewrite E in Hhigh; discriminate Hhigh
      |rewrite E in Hhigh; discriminate Hhigh].
Qed.

(** X14 at the request for "Pune" against the sample tables. *)
Lemma proximity_risk_agrees_with_near_flag_witness :
  exists info,
    analyze_location_proximity sample_resources "Pune" = Returns info /\
    (risk info = "High" ->
     EnrichedProjectInput.near_sensitive_zone
       (enrich_data sample_resources pune_request) = 1%Z).
Proof.
  assert (H : exists info,
            analyze_location_proximity sample_resources
              (UserInput.city pune_request) = Returns info).
  { unfold analyze_location_proximity, sample_resources, load_resources.
    cbn [CITIES_DB SENSITIVE_LOCS].
    pose proof pune_is_listed as Hf.
    change (lower "PUNE") with (lower (UserInput.city pune_request)) in Hf.
    rewrite Hf.
    destruct (nearest_scan_correct
                (longitude (csv (mkCityRow
                   {| Main.city := "Pune"; latitude := 18.5204;
                      longitude := 73.8567; pm25 := 58.0; no2 := 32.0;
                      so2 := 9.0; co_mg_m3 := 0.9; o3 := 27.0 |} "pune")))
                (latitude (csv (mkCityRow
                   {| Main.city := "Pune"; latitude := 18.5204;
                      longitude := 73.8567; pm25 := 58.0; no2 := 32.0;
                      so2 := 9.0; co_mg_m3 := 0.9; o3 := 27.0 |} "pune")))
                sample_zones)
      as [[Hnil _]|(pre & r & post & _ & Hst & _)]; [discriminate Hnil|].
    rewrite Hst. eexists. reflexivity. }
  destruct H as [info H]. exists info. split; [exact H|].
  exact (proj1 (proximity_risk_agrees_with_near_flag sample_resources
                  pune_request info eq_refl H)).
Defined.

(** X15.  The endpoint lower-cases the city name but does not trim it:
    against a table whose names carry no surrounding whitespace, a name
    with leading or trailing whitespace is answered "City Not Found",
    although enrichment would resolve it. *)
Theorem padded_city_name_is_not_found_by_proximity
  (res : Resources) (db : list CityRow) (city : string) :
  CITIES_DB res = Some db ->
  (forall row, In row db -> strip (city_lower row) = city_lower row) ->
  strip (lower city) <> lower city ->
  analyze_location_proximity res city =
    Returns {| nearest_location := "City Not Found"; type := None;
               distance_km := Km 0; risk := "Unknown" |}.
Proof.
  intros Hdb Hclean Hpad.
  unfold analyze_location_proximity. rewrite Hdb.
  destruct (find _ db) as [c|] eqn:E; [exfalso|reflexivity].
  apply find_some in E. destruct E as [Hin Heq].
  apply String.eqb_eq in Heq. apply Hpad.
  rewrite <- Heq. now apply Hclean.
Qed.

(** X15 for "  Pune ", the city of the sample request, which enrichment
    resolves to the row of Pune. *)
Lemma padded_city_name_is_not_found_by_proximity_witness :
  analyze_location_proximity sample_resources "  Pune " =
    Returns {| nearest_location := "City Not Found"; type := None;
               distance_km := Km 0; risk := "Unknown" |} /\
  EnrichedProjectInput.baseline_pm25 (enrich_data sample_resources sample_input)
    = 58.0.
Proof.
  split; [|reflexivity].
  apply (padded_city_name_is_not_found_by_proximity sample_resources
           (map (fun r => mkCityRow r (lower (Main.city r))) sample_cities)).
  - reflexivity.
  - intros row [<-|[<-|[]]]; reflexivity.
  - vm_compute. discriminate.
Defined.

(** *** [predict_impact_ml] and the failed load *)

(** X16.  After a failed load the two endpoints that need the resources
    answer without them, for every request: [predict_impact_ml] raises
    HTTP 503 "ML Model not loaded", and [analyze_location_proximity]
    returns the Unknown answer with distance 0.  A missing classifier file
    alone is enough, since the load is all or nothing. *)
Theorem failed_load_disables_classifier_and_proximity
  (model_file : option Model) (sensitive_csv : option (list SensitiveRow))
  (cities_csv : option (list CsvCity)) (u : UserInput.t) (city : string) :
  model_file = None \/ sensitive_csv = None \/ cities_csv = None ->
  let res := load_resources model_file sensitive_csv cities_csv in
  predict_impact_ml res u = Raise (HTTPException 503 "ML Model not loaded") /\
  analyze_location_proximity res city =
    Returns {| nearest_location := "Unknown"; type := None;
               distance_km := Km 0; risk := "Unknown" |}.
Proof.
  intros Hfail res. unfold res.
  rewrite (load_failure_degraded _ _ _ Hfail). split; reflexivity.
Qed.

(** X16 when only the classifier file is missing. *)
Lemma failed_load_disables_classifier_and_proximity_witness :
  predict_impact_ml
    (load_resources None (Some sample_zones) (Some sample_cities)) sample_input
    = Raise (HTTPException 503 "ML Model not loaded") /\
  analyze_location_proximity
    (load_resources None (Some sample_zones) (Some sample_cities)) "Pune"
    = Returns {| nearest_location := "Unknown"; type := None;
                 distance_km := Km 0; risk := "Unknown" |}.
Proof.
  exact (failed_load_disables_classifier_and_proximity
           None (Some sample_zones) (Some sample_cities) sample_input "Pune"
           (or_introl eq_refl)).
Defined.




(** X18.  The two endpoints see the same dispersion estimate: entries 13
    and 14 of the classifier's feature vector are the final PM2.5 and NO2
    concentrations that [calculate_impact] reports rounded to two
    decimals, and entries 15 and 16 are the SO2 and CO baselines,
    untouched by the dispersion model. *)
Theorem classifier_sees_the_reported_concentrations
  (res : Resources) (u : UserInput.t) :
  let data := enrich_data res u in
  exists r,
    calculate_impact res u = Ok r /\
    ImpactResult.final_pollution r
      = [ ("PM2.5", round (nth 12 (features data) 0) 2);
          ("NO2", round (nth 13 (features data) 0) 2) ] /\
    nth 14 (features data) 0 = EnrichedProjectInput.baseline_so2 data /\
    nth 15 (features data) 0 = EnrichedProjectInput.baseline_co data /\
    (forall model, ML_MODEL res = Some model ->
       predict_impact_ml res u
         = (confidence <- max_seq (predict_proba model (features data)) ;;
            Ok {| MLPrediction.predicted_class := predict model (features data);
                  MLPrediction.label :=
                    labels_get (predict model (features data));
                  MLPrediction.confidence := round (confidence * 100) 2 |})).
Proof.
  cbv zeta.
  destruct (calculate_impact_returns res u) as (w & _ & H).
  eexists. split; [exact H|].
  cbn [ImpactResult.final_pollution].
  repeat (split; [reflexivity|]).
  intros model Hmodel. unfold predict_impact_ml. rewrite Hmodel. reflexivity.
Qed.

(* ================================================================== *)
(** ** Properties of [blueprint_utils.py] and of [upload_blueprint] *)
(* ================================================================== *)

Import BlueprintUtils.

(** *** The analysis of a document *)

Lemma complexity_returns (n : Z) (area : Float.t) :
  exists c, complexity n area = Ok c /\ (1 <= c <= 4)%Z.
Proof.
  unfold complexity.
  destruct (Float.ltb (Float.of_int 0) area) eqn:Hpos.
  - assert (Hdiv : exists d, Float.truediv (Float.of_int n) area = Ok d).
    { destruct area as [| |b|]; try discriminate Hpos.
      - cbn [Float.ltb Float.of_int] in Hpos.
        unfold Float.truediv, Float.of_int.
        destruct (Qeq_bool b 0) eqn:Eb.
        + apply Qeq_bool_eq in Eb. unfold Qltb in Hpos.
          apply negb_true_iff in Hpos.
          assert (Hle : Qle_bool b (inject_Z 0) = true)
            by (apply Qle_bool_iff; rewrite Eb; discriminate).
          congruence.
        + eexists. reflexivity.
      - eexists. reflexivity. }
    destruct Hdiv as [d Hd]. rewrite Hd. cbn [bind].
    eexists. split; [reflexivity|].
    destruct (Float.ltb (Float.Fin 0.1) d), (Float.ltb (Float.Fin 0.01) d),
      (1000 <? n)%Z; lia.
  - cbn [bind]. eexists. split; [reflexivity|].
    destruct (1000 <? n)%Z; lia.
Qed.

Lemma dict_incr_absent (key : string) (d : list (string * Z)) :
  dict_mem key d = false -> dict_incr key d = d.
Proof.
  unfold dict_mem, dict_incr. induction d as [|kv d IH]; [reflexivity|].
  cbn [existsb map]. intros H. apply orb_false_iff in H. destruct H as [H1 H2].
  rewrite H1, (IH H2). reflexivity.
Qed.

Lemma counts_step (acc : Acc) (e : Entity) :
  counts (loop_body acc e) = dict_incr (dxftype e) (counts acc).
Proof.
  unfold loop_body.
  destruct (dict_mem (dxftype e) (counts acc)) eqn:Hm;
    destruct (dxftype e =? "LINE")%string; cbn [counts];
    try reflexivity; symmetry; now apply dict_incr_absent.
Qed.

Lemma entity_count_step (acc : Acc) (e : Entity) :
  entity_count (loop_body acc e) = (entity_count acc + 1)%Z.
Proof. unfold loop_body. destruct (dxftype e =? "LINE")%string; reflexivity. Qed.

Lemma fold_entity_count (msp : list Entity) (acc : Acc) :
  entity_count (fold_left loop_body msp acc)
    = (entity_count acc + Z.of_nat (List.length msp))%Z.
Proof.
  revert acc. induction msp as [|e msp IH]; intros acc; cbn [fold_left List.length].
  - lia.
  - rewrite IH, entity_count_step. lia.
Qed.

Lemma fold_counts (msp : list Entity) (acc : Acc) :
  counts (fold_left loop_body msp acc)
    = map (fun kv =>
             (fst kv,
              (snd kv + Z.of_nat (List.length
                 (filter (fun e => String.eqb (dxftype e) (fst kv)) msp)))%Z))
          (counts acc).
Proof.
  revert acc. induction msp as [|e msp IH]; intros acc; cbn [fold_left].
  - cbn. rewrite <- (map_id (counts acc)) at 1. apply map_ext.
    intros [k v]. cbn. f_equal. lia.
  - rewrite IH, counts_step. unfold dict_incr. rewrite map_map.
    apply map_ext. intros [k v]. cbn [fst snd filter].
    rewrite (String.eqb_sym (dxftype e) k).
    destruct (k =? dxftype e)%string; cbn [fst snd List.length]; f_equal; lia.
Qed.

Lemma fold_box (msp : list Entity) (acc : Acc) :
  let acc' := fold_left loop_body msp acc in
  min_x acc' = run_min (min_x acc) (line_xs msp) /\
  max_x acc' = run_max (max_x acc) (line_xs msp) /\
  min_y acc' = run_min (min_y acc) (line_ys msp) /\
  max_y acc' = run_max (max_y acc) (line_ys msp).
Proof.
  revert acc. induction msp as [|e msp IH]; intros acc; cbn [fold_left].
  - cbn. auto.
  - destruct (IH (loop_body acc e)) as (H1 & H2 & H3 & H4).
    cbv zeta. rewrite H1, H2, H3, H4.
    unfold line_xs, line_ys. cbn [flat_map].
    unfold loop_body. change (dxftype e =? "LINE")%string with (is_line e).
    destruct (is_line e);
      cbn [min_x max_x min_y max_y app]; unfold run_min, run_max;
      unfold Float.min3, Float.max3; cbn [fold_left]; repeat split; reflexivity.
Qed.

Lemma run_min_fin (a : Q) (xs : list Q) :
  exists m, run_min (Float.Fin a) xs = Float.Fin m /\
            In m (a :: xs) /\ forall x, In x (a :: xs) -> m <= x.
Proof.
  revert a. induction xs as [|x xs IH]; intros a.
  - exists a. cbn. split; [reflexivity|]. split; [auto|].
    intros y [<-|[]]. lra.
  - unfold run_min. cbn [fold_left Float.ltb].
    destruct (Qltb_spec x a) as [Hlt|Hge].
    + destruct (IH x) as (m & Hm & Hin & Hle).
      exists m. split; [exact Hm|]. split.
      * right. exact Hin.
      * intros y [<-|Hy]; [|now apply Hle].
        specialize (Hle x (or_introl eq_refl)). lra.
    + destruct (IH a) as (m & Hm & Hin & Hle).
      exists m. split; [exact Hm|]. split.
      * destruct Hin as [<-|Hin]; [now left|right; now right].
      * intros y [<-|[<-|Hy]].
        -- apply Hle. now left.
        -- specialize (Hle a (or_introl eq_refl)). lra.
        -- apply Hle. now right.
Qed.

Lemma run_max_fin (a : Q) (xs : list Q) :
  exists m, run_max (Float.Fin a) xs = Float.Fin m /\
            In m (a :: xs) /\ forall x, In x (a :: xs) -> x <= m.
Proof.
  revert a. induction xs as [|x xs IH]; intros a.
  - exists a. cbn. split; [reflexivity|]. split; [auto|].
    intros y [<-|[]]. lra.
  - unfold run_max. cbn [fold_left Float.ltb].
    destruct (Qltb_spec a x) as [Hlt|Hge].
    + destruct (IH x) as (m & Hm & Hin & Hle).
      exists m. split; [exact Hm|]. split.
      * right. exact Hin.
      * intros y [<-|Hy]; [|now apply Hle].
        specialize (Hle x (or_introl eq_refl)). lra.
    + destruct (IH a) as (m & Hm & Hin & Hle).
      exists m. split; [exact Hm|]. split.
      * destruct Hin as [<-|Hin]; [now left|right; now right].
      * intros y [<-|[<-|Hy]].
        -- apply Hle. now left.
        -- specialize (Hle a (or_introl eq_refl)). lra.
        -- apply Hle. now right.
Qed.

Lemma run_min_from_inf (xs : list Q) :
  (xs = [] /\ run_min Float.PosInf xs = Float.PosInf) \/
  (exists m, run_min Float.PosInf xs = Float.Fin m /\
             In m xs /\ forall x, In x xs -> m <= x).
Proof.
  destruct xs as [|x xs]; [left; auto|right].
  exact (run_min_fin x xs).
Qed.

Lemma run_max_from_inf (xs : list Q) :
  (xs = [] /\ run_max Float.NegInf xs = Float.NegInf) \/
  (exists m, run_max Float.NegInf xs = Float.Fin m /\
             In m xs /\ forall x, In x xs -> x <= m).
Proof.
  destruct xs as [|x xs]; [left; auto|right].
  exact (run_max_fin x xs).
Qed.

Lemma lines_cases (msp : list Entity) :
  (line_xs msp = [] /\ line_ys msp = [] /\ forall e, In e msp -> is_line e = false) \/
  (line_xs msp <> [] /\ line_ys msp <> [] /\ exists e, In e msp /\ is_line e = true).
Proof.
  induction msp as [|e msp IH].
  - left. repeat split. intros e [].
  - unfold line_xs, line_ys. cbn [flat_map].
    destruct (is_line e) eqn:He.
    + right. repeat split; try discriminate. exists e. split; [now left|exact He].
    + cbn [app]. destruct IH as [(Hx & Hy & Hno)|(Hx & Hy & e' & Hin & He')].
      * left. repeat split; try assumption.
        intros e' [<-|Hin]; [exact He|now apply Hno].
      * right. repeat split; try assumption.
        exists e'. split; [now right|exact He'].
Qed.

Lemma dimensions_cases (msp : list Entity) :
  let acc := fold_left loop_body msp acc0 in
  (line_xs msp = [] /\
   dimensions acc = (Float.of_int 0, Float.of_int 0, Float.of_int 0)) \/
  (exists a b c d,
     In a (line_xs msp) /\ In b (line_xs msp) /\
     In c (line_ys msp) /\ In d (line_ys msp) /\
     (forall x, In x (line_xs msp) -> a <= x <= b) /\
     (forall y, In y (line_ys msp) -> c <= y <= d) /\
     dimensions acc
       = (Float.Fin (b - a), Float.Fin (d - c), Float.Fin ((b - a) * (d - c)))).
Proof.
  cbv zeta. destruct (fold_box msp acc0) as (H1 & H2 & H3 & H4).
  cbn [acc0 min_x max_x min_y max_y] in H1, H2, H3, H4.
  unfold dimensions. rewrite H1, H2, H3, H4.
  destruct (lines_cases msp) as [(Hx & Hy & _)|(Hx & Hy & _)].
  - left. rewrite Hx. split; [reflexivity|]. reflexivity.
  - right.
    destruct (run_min_from_inf (line_xs msp)) as [[E _]|(a & Ea & Ia & La)];
      [contradiction|].
    destruct (run_max_from_inf (line_xs msp)) as [[E _]|(b & Eb & Ib & Lb)];
      [contradiction|].
    destruct (run_min_from_inf (line_ys msp)) as [[E _]|(c & Ec & Ic & Lc)];
      [contradiction|].
    destruct (run_max_from_inf (line_ys msp)) as [[E _]|(d & Ed & Id & Ld)];
      [contradiction|].
    exists a, b, c, d. rewrite Ea, Eb, Ec, Ed.
    repeat (split; [assumption|]).
    split; [intros x Hx'; split; auto|].
    split; [intros y Hy'; split; auto|].
    reflexivity.
Qed.

(** X19.  Once the file has been read, the analysis cannot fail: the
    division by the area is guarded, so for every modelspace the result is
    a success, and its complexity score is 2, 4, 6 or 8, never 10 and never
    below 2. *)
Theorem analysis_of_a_readable_drawing (msp : list Entity) :
  exists m : Metrics,
    analyze_document msp
      = Ok {| success := true; metrics := Some m;
              message := "DXF Analysis Successful" |} /\
    (complexity_score m = 2 \/ complexity_score m = 4 \/
     complexity_score m = 6 \/ complexity_score m = 8)%Z.
Proof.
  unfold analyze_document.
  destruct (dimensions (fold_left loop_body msp acc0)) as [[width height] area].
  destruct (complexity_returns
              (entity_count (fold_left loop_body msp acc0)) area)
    as (c & Hc & Hr).
  rewrite Hc. cbn [bind]. eexists. split; [reflexivity|].
  cbn [complexity_score]. lia.
Qed.

Lemma analyze_document_metrics (msp : list Entity) :
  exists m, analyze_document msp
              = Ok {| success := true; metrics := Some m;
                      message := "DXF Analysis Successful" |} /\
    entity_counts m = counts (fold_left loop_body msp acc0) /\
    total_entities m = entity_count (fold_left loop_body msp acc0) /\
    (exists c, complexity (entity_count (fold_left loop_body msp acc0))
                          (snd (dimensions (fold_left loop_body msp acc0))) = Ok c /\
               complexity_score m = Z.min 10 (c * 2)) /\
    estimated_width_m m
      = Float.round (fst (fst (dimensions (fold_left loop_body msp acc0)))) 2 /\
    estimated_height_m m
      = Float.round (snd (fst (dimensions (fold_left loop_body msp acc0)))) 2 /\
    estimated_area_m2 m
      = Float.round (snd (dimensions (fold_left loop_body msp acc0))) 2.
Proof.
  unfold analyze_document.
  destruct (dimensions (fold_left loop_body msp acc0)) as [[w h] a].
  destruct (complexity_returns (entity_count (fold_left loop_body msp acc0)) a)
    as (c & Hc & _).
  cbn [fst snd]. rewrite Hc. cbn [bind].
  eexists. split; [reflexivity|].
  cbn [entity_counts total_entities complexity_score estimated_width_m
       estimated_height_m estimated_area_m2].
  repeat split. exists c. auto.
Qed.

Lemma filter_partition_length (msp : list Entity) :
  (List.length (filter (fun e => (dxftype e =? "LINE")%string) msp)
   + List.length (filter (fun e => (dxftype e =? "CIRCLE")%string) msp)
   + List.length (filter (fun e => (dxftype e =? "ARC")%string) msp)
   + List.length (filter (fun e => (dxftype e =? "LWPOLYLINE")%string) msp)
   + List.length (filter (fun e => (dxftype e =? "TEXT")%string) msp)
   + List.length (filter (fun e => (dxftype e =? "MTEXT")%string) msp)
   = List.length (filter known_type msp))%nat.
Proof.
  induction msp as [|e msp IH]; [reflexivity|].
  cbn [filter]. unfold known_type at 1, dict_mem, counts0. cbn [existsb fst].
  rewrite (String.eqb_sym "LINE"), (String.eqb_sym "CIRCLE"),
    (String.eqb_sym "ARC"), (String.eqb_sym "LWPOLYLINE"),
    (String.eqb_sym "TEXT"), (String.eqb_sym "MTEXT").
  destruct (String.eqb_spec (dxftype e) "LINE") as [E|_];
    [try rewrite E; cbn; lia|].
  destruct (String.eqb_spec (dxftype e) "CIRCLE") as [E|_];
    [try rewrite E; cbn; lia|].
  destruct (String.eqb_spec (dxftype e) "ARC") as [E|_];
    [try rewrite E; cbn; lia|].
  destruct (String.eqb_spec (dxftype e) "LWPOLYLINE") as [E|_];
    [try rewrite E; cbn; lia|].
  destruct (String.eqb_spec (dxftype e) "TEXT") as [E|_];
    [try rewrite E; cbn; lia|].
  destruct (String.eqb_spec (dxftype e) "MTEXT") as [E|_];
    [try rewrite E; cbn; lia|].
  cbn. exact IH.
Qed.

(** X20.  [total_entities] is the number of entities of the modelspace,
    each of the six counters is the number of entities of its type, and
    the counters add up to the number of entities of a counted type, at
    most the total. *)
Theorem entity_counts_tally_the_drawing (msp : list Entity) :
  exists m, analyze_document msp
              = Ok {| success := true; metrics := Some m;
                      message := "DXF Analysis Successful" |} /\
    total_entities m = Z.of_nat (List.length msp) /\
    entity_counts m = tally msp /\
    fold_right Z.add 0%Z (map snd (entity_counts m))
      = Z.of_nat (List.length (filter known_type msp)) /\
    (fold_right Z.add 0%Z (map snd (entity_counts m)) <= total_entities m)%Z.
Proof.
  destruct (analyze_document_metrics msp) as (m & Hm & Hc & Ht & _).
  exists m. split; [exact Hm|].
  rewrite Ht, Hc, fold_entity_count, fold_counts.
  cbn [acc0 entity_count counts].
  split; [lia|]. split; [reflexivity|].
  assert (Hsum : fold_right Z.add 0%Z
            (map snd
               (map (fun kv =>
                       (fst kv,
                        (snd kv + Z.of_nat (List.length
                           (filter (fun e => (dxftype e =? fst kv)%string) msp)))%Z))
                    counts0))
          = Z.of_nat (List.length (filter known_type msp))).
  { rewrite <- filter_partition_length. cbn. lia. }
  split; [exact Hsum|].
  rewrite Hsum. pose proof (filter_length_le known_type msp). lia.
Qed.

(** X21.  When the drawing has a LINE, the reported width and height are
    the spans of the end points of its LINE entities, rounded to two
    decimals: the bounds a, b, c and d are attained by end points and no
    end point lies outside them; the area is the rounded product of the
    unrounded spans.  Entities of other types do not count. *)
Theorem reported_extent_spans_the_line_endpoints (msp : list Entity) :
  (exists e, In e msp /\ dxftype e = "LINE") ->
  exists m a b c d,
    analyze_document msp
      = Ok {| success := true; metrics := Some m;
              message := "DXF Analysis Successful" |} /\
    In a (line_xs msp) /\ In b (line_xs msp) /\
    In c (line_ys msp) /\ In d (line_ys msp) /\
    (forall x, In x (line_xs msp) -> a <= x <= b) /\
    (forall y, In y (line_ys msp) -> c <= y <= d) /\
    estimated_width_m m = Float.Fin (round (b - a) 2) /\
    estimated_height_m m = Float.Fin (round (d - c) 2) /\
    estimated_area_m2 m = Float.Fin (round ((b - a) * (d - c)) 2).
Proof.
  intros (e & Hin & He).
  destruct (analyze_document_metrics msp) as (m & Hm & _ & _ & _ & Hw & Hh & Ha).
  destruct (dimensions_cases msp)
    as [[Hx _]|(a & b & c & d & Ia & Ib & Ic & Id & Lx & Ly & E)].
  - exfalso. destruct (lines_cases msp) as [(_ & _ & Hno)|(Hne & _)].
    + specialize (Hno e Hin). unfold is_line in Hno. rewrite He in Hno.
      discriminate Hno.
    + contradiction.
  - exists m, a, b, c, d. rewrite E in Hw, Hh, Ha. cbn [fst snd Float.round] in *.
    repeat (split; [assumption|]). exact Ha.
Qed.

(** X22.  A drawing without a LINE, the empty drawing among them, is
    analyzed successfully with width, height and area 0, and its
    complexity score is 2, or 4 when it has more than 1000 entities. *)
Theorem drawing_without_lines_has_no_extent (msp : list Entity) :
  (forall e, In e msp -> dxftype e <> "LINE") ->
  exists m w h a,
    analyze_document msp
      = Ok {| success := true; metrics := Some m;
              message := "DXF Analysis Successful" |} /\
    estimated_width_m m = Float.Fin w /\ w == 0 /\
    estimated_height_m m = Float.Fin h /\ h == 0 /\
    estimated_area_m2 m = Float.Fin a /\ a == 0 /\
    complexity_score m
      = (if (1000 <? Z.of_nat (List.length msp))%Z then 4 else 2)%Z.
Proof.
  intros Hno.
  destruct (analyze_document_metrics msp)
    as (m & Hm & _ & _ & (c & Hc & Hcs) & Hw & Hh & Ha).
  destruct (dimensions_cases msp)
    as [[_ E]|(a & _ & _ & _ & Ia & _)].
  - rewrite E in Hw, Hh, Ha, Hc. cbn [fst snd] in *.
    rewrite fold_entity_count in Hc. cbn [acc0 entity_count Z.add] in Hc.
    exists m. do 3 eexists. split; [exact Hm|].
    split; [exact Hw|]. split; [reflexivity|].
    split; [exact Hh|]. split; [reflexivity|].
    split; [exact Ha|]. split; [reflexivity|].
    rewrite Hcs. unfold complexity in Hc. cbn [Float.ltb Float.of_int bind] in Hc.
    change (Qltb (inject_Z 0) (inject_Z 0)) with false in Hc. cbn [bind] in Hc.
    injection Hc as <-.
    destruct (1000 <? Z.of_nat (List.length msp))%Z; reflexivity.
  - exfalso. unfold line_xs in Ia. apply in_flat_map in Ia.
    destruct Ia as (e & Hin & Hx). unfold is_line in Hx.
    destruct (String.eqb_spec (dxftype e) "LINE") as [E|_]; [|destruct Hx].
    exact (Hno e Hin E).
Qed.

(** X21 at the sample drawing, two lines and a circle. *)
Lemma reported_extent_spans_the_line_endpoints_witness :
  exists m a b,
    analyze_document sample_drawing
      = Ok {| success := true; metrics := Some m;
              message := "DXF Analysis Successful" |} /\
    estimated_width_m m = Float.Fin (round (b - a) 2).
Proof.
  destruct (reported_extent_spans_the_line_endpoints sample_drawing)
    as (m & a & b & c & d & Hm & _ & _ & _ & _ & _ & _ & Hw & _).
  - eexists. split; [left; reflexivity | reflexivity].
  - exists m, a, b. split; [exact Hm | exact Hw].
Defined.

(** X22 at a drawing of one circle. *)
Lemma drawing_without_lines_has_no_extent_witness :
  exists m,
    analyze_document
      [ {| dxftype := "CIRCLE"; dxf_start := (0, 0); dxf_end := (0, 0) |} ]
      = Ok {| success := true; metrics := Some m;
              message := "DXF Analysis Successful" |} /\
    complexity_score m = 2%Z.
Proof.
  destruct (drawing_without_lines_has_no_extent
              [ {| dxftype := "CIRCLE"; dxf_start := (0, 0); dxf_end := (0, 0) |} ])
    as (m & w & h & a & Hm & _ & _ & _ & _ & _ & _ & Hc).
  - intros e [<-|[]]. discriminate.
  - exists m. split; [exact Hm | exact Hc].
Defined.

Section BlueprintOutcomes.

Variable ezdxf_parse : string -> ReadOutcome.

(** X23.  [analyze_blueprint] reports success exactly when the file exists
    and the parser returns a document.  The handler for exceptions of the
    analysis itself is dead code, so the result does not depend on how
    such an exception would print; a missing file gives the IOError
    message. *)
Theorem analyze_blueprint_succeeds_iff_parsed
  (str_exn : exn -> string) (fs : FS) (file_path : string) :
  (success (analyze_blueprint ezdxf_parse str_exn fs file_path) = true <->
   exists content msp,
     fs_read fs file_path = Some content /\
     ezdxf_parse content = Document msp) /\
  (forall str_exn' : exn -> string,
     analyze_blueprint ezdxf_parse str_exn' fs file_path
       = analyze_blueprint ezdxf_parse str_exn fs file_path) /\
  (fs_read fs file_path = None ->
   analyze_blueprint ezdxf_parse str_exn fs file_path
     = {| success := false; metrics := None;
          message := "Not a valid DXF file or file not found." |}).
Proof.
  unfold analyze_blueprint, readfile.
  destruct (fs_read fs file_path) as [content|].
  - destruct (ezdxf_parse content) as [| |s|msp] eqn:Ep.
    + repeat split; try discriminate; try reflexivity.
      intros (c & msp & [= <-] & H). congruence.
    + repeat split; try discriminate; try reflexivity.
      intros (c & msp & [= <-] & H). congruence.
    + repeat split; try discriminate; try reflexivity.
      intros (c & msp & [= <-] & H). congruence.
    + destruct (analyze_document_metrics msp) as (m & Hm & _).
      rewrite Hm. repeat split; try discriminate; try reflexivity.
      intros _. exists content, msp. auto.
  - repeat split; try discriminate; try reflexivity.
    intros (c & msp & H & _). discriminate H.
Qed.

End BlueprintOutcomes.

Lemma substring_split (s : string) (n : nat) :
  (n <= String.length s)%nat ->
  s = substring 0 n s ++ substring n (String.length s - n) s.
Proof.
  revert n. induction s as [|c s IH]; intros n Hn.
  - cbn in Hn. assert (n = 0)%nat by lia. subst. reflexivity.
  - destruct n as [|n].
    + cbn [substring append String.length Nat.sub].
      f_equal. clear. induction s as [|d s IH]; [reflexivity|].
      cbn. f_equal. exact IH.
    + cbn [substring append String.length Nat.sub]. f_equal.
      apply IH. cbn in Hn. lia.
Qed.

Lemma endswith_true (s suffix : string) :
  endswith s suffix = true -> exists p, s = p ++ suffix.
Proof.
  unfold endswith. intros H. apply andb_true_iff in H. destruct H as [Hlen Heq].
  apply Nat.leb_le in Hlen. apply String.eqb_eq in Heq.
  exists (substring 0 (String.length s - String.length suffix) s).
  pose proof (substring_split s (String.length s - String.length suffix)) as Hs.
  replace (String.length s - (String.length s - String.length suffix))%nat
    with (String.length suffix) in Hs by lia.
  rewrite Heq in Hs. apply Hs. lia.
Qed.

Lemma length_app (p q : string) :
  String.length (p ++ q) = (String.length p + String.length q)%nat.
Proof. induction p as [|c p IH]; cbn; [reflexivity|]. now rewrite IH. Qed.

Lemma substring_all (s : string) : substring 0 (String.length s) s = s.
Proof. induction s as [|c s IH]; cbn; [reflexivity|]. now rewrite IH. Qed.

Lemma substring_suffix (p q : string) :
  substring (String.length p) (String.length q) (p ++ q) = q.
Proof.
  induction p as [|c p IH]; cbn [String.length append substring].
  - apply substring_all.
  - exact IH.
Qed.

Lemma endswith_app (p suffix : string) : endswith (p ++ suffix) suffix = true.
Proof.
  unfold endswith. rewrite length_app. apply andb_true_iff. split.
  - apply Nat.leb_le. lia.
  - replace (String.length p + String.length suffix - String.length suffix)%nat
      with (String.length p) by lia.
    rewrite substring_suffix. apply String.eqb_refl.
Qed.

Lemma endswith_other (p suffix other : string) :
  String.length other = String.length suffix -> other <> suffix ->
  endswith (p ++ suffix) other = false.
Proof.
  intros Hlen Hne. unfold endswith. rewrite length_app, Hlen.
  replace (String.length p + String.length suffix - String.length suffix)%nat
    with (String.length p) by lia.
  rewrite substring_suffix. apply andb_false_iff. right.
  apply String.eqb_neq. congruence.
Qed.

Lemma lower_app (p q : string) : lower (p ++ q) = lower p ++ lower q.
Proof. induction p as [|c p IH]; cbn; [reflexivity|]. now rewrite IH. Qed.

Lemma dxf_name_is_not_dwg (name : string) :
  endswith name ".dxf" = true \/ endswith name ".DXF" = true ->
  endswith (lower name) ".dwg" = false.
Proof.
  intros [H|H]; apply endswith_true in H; destruct H as [p ->];
    rewrite lower_app; change (lower ".dxf") with ".dxf";
    change (lower ".DXF") with ".dxf";
    apply endswith_other; [reflexivity|discriminate|reflexivity|discriminate].
Qed.

Lemma fs_remove_absent (fs : FS) (path : string) :
  fs_read fs path = None ->
  filter (fun kv => negb (String.eqb (fst kv) path)) fs = fs.
Proof.
  induction fs as [|[p c] fs IH]; [reflexivity|].
  cbn [fs_read filter fst]. destruct (String.eqb p path); [discriminate|].
  intros H. cbn [negb]. f_equal. now apply IH.
Qed.

Lemma os_remove_fresh (fs : FS) (path content : string) :
  fs_read fs path = None ->
  os_remove ((path, content) :: fs) path = Some fs.
Proof.
  intros H. unfold os_remove, os_path_exists. cbn [fs_read filter fst].
  rewrite String.eqb_refl. cbn [negb]. now rewrite fs_remove_absent.
Qed.

Lemma os_remove_written (fs : FS) (path content : string) :
  exists fs', os_remove ((path, content) :: fs) path = Some fs' /\
              fs_read fs' path = None.
Proof.
  unfold os_remove, os_path_exists. cbn [fs_read].
  rewrite String.eqb_refl. eexists. split; [reflexivity|].
  cbn [filter fst]. rewrite String.eqb_refl. cbn [negb].
  induction fs as [|[p c] fs IH]; [reflexivity|].
  cbn [filter fst]. destruct (String.eqb p path) eqn:E; cbn [negb].
  - exact IH.
  - cbn [fs_read]. rewrite E. exact IH.
Qed.

Lemma analyze_written_file (ezdxf_parse : string -> ReadOutcome)
  (str_exn : exn -> string) (fs : FS) (path content : string) :
  analyze_blueprint ezdxf_parse str_exn ((path, content) :: fs) path
    = analyze_blueprint ezdxf_parse str_exn [(path, content)] path.
Proof.
  unfold analyze_blueprint, readfile. cbn [fs_read].
  rewrite String.eqb_refl. reflexivity.
Qed.

Section UploadProperties.

Variable ezdxf_parse : string -> ReadOutcome.
Variable str_exn : exn -> string.
Variable NamedTemporaryFile : FS -> string.

(** X24.  The upload handler cleans up after itself: when the temporary
    name is fresh, the disk after the request is the disk before it,
    whether the upload was rejected, analyzed or unreadable. *)
Theorem upload_leaves_the_disk_as_it_was (fs : FS) (upload : UploadFile) :
  fs_read fs (NamedTemporaryFile fs) = None ->
  fst (upload_blueprint ezdxf_parse str_exn NamedTemporaryFile fs upload) = fs.
Proof.
  intros Hfresh. unfold upload_blueprint.
  destruct (endswith (lower (filename upload)) ".dwg"); [reflexivity|].
  destruct (negb _); [reflexivity|].
  rewrite (os_remove_fresh fs _ (file upload) Hfresh). reflexivity.
Qed.

(** X25.  A file named *.dxf or *.DXF is never taken for a DWG file, and
    when its content parses, the response is the successful analysis of
    that content: what the handler wrote to the temporary file is what
    the analyzer read back. *)
Theorem accepted_upload_is_analyzed (fs : FS) (upload : UploadFile)
  (msp : list Entity) :
  endswith (filename upload) ".dxf" = true
  \/ endswith (filename upload) ".DXF" = true ->
  ezdxf_parse (file upload) = Document msp ->
  exists m,
    analyze_document msp
      = Ok {| success := true; metrics := Some m;
              message := "DXF Analysis Successful" |} /\
    snd (upload_blueprint ezdxf_parse str_exn NamedTemporaryFile fs upload)
      = {| BlueprintResult.success := true;
           BlueprintResult.data :=
             Some {| success := true; metrics := Some m;
                     message := "DXF Analysis Successful" |};
           BlueprintResult.message := "DXF Analysis Successful" |}.
Proof.
  intros Hname Hparse.
  destruct (analyze_document_metrics msp) as (m & Hm & _).
  exists m. split; [exact Hm|].
  unfold upload_blueprint.
  rewrite (dxf_name_is_not_dwg _ Hname).
  assert (Hacc : negb (endswith (filename upload) ".dxf"
                       || endswith (filename upload) ".DXF") = false).
  { apply negb_false_iff. apply orb_true_iff. exact Hname. }
  rewrite Hacc.
  destruct (os_remove_written fs (NamedTemporaryFile fs) (file upload))
    as (fs' & Hrm & _).
  rewrite Hrm. cbn [snd].
  unfold analyze_blueprint, readfile. cbn [fs_read].
  rewrite String.eqb_refl, Hparse, Hm. reflexivity.
Qed.

End UploadProperties.

(** X24 on a disk that holds the two CSV files. *)
Lemma upload_leaves_the_disk_as_it_was_witness :
  fst (upload_blueprint sample_parse (fun _ => "error")
         (fun _ => "/tmp/tmpk3v9.dxf")
         [ ("data/cities_aqi.csv", "city,latitude");
           ("data/sensitive_locations.csv", "name,category") ]
         sample_upload)
  = [ ("data/cities_aqi.csv", "city,latitude");
      ("data/sensitive_locations.csv", "name,category") ].
Proof.
  apply (upload_leaves_the_disk_as_it_was sample_parse (fun _ => "error")
           (fun _ => "/tmp/tmpk3v9.dxf")).
  reflexivity.
Defined.

(** X25 at the sample upload, "plan.dxf". *)
Lemma accepted_upload_is_analyzed_witness :
  BlueprintResult.success
    (snd (upload_blueprint sample_parse (fun _ => "error")
            (fun _ => "/tmp/tmpk3v9.dxf") [] sample_upload)) = true.
Proof.
  destruct (accepted_upload_is_analyzed sample_parse (fun _ => "error")
              (fun _ => "/tmp/tmpk3v9.dxf") [] sample_upload sample_drawing
              (or_introl eq_refl) eq_refl) as (m & _ & Hr).
  rewrite Hr. reflexivity.
Defined.

(** X26.  The response to an upload depends on the name and the content
    of the file only, not on the disk or on the temporary name; its
    [data] is empty exactly for the two rejections by name (a name ending
    in .dwg in any letter case, or ending in neither .dxf nor .DXF). *)
Theorem upload_response_ignores_the_disk
  (ezdxf_parse : string -> ReadOutcome)
  (str_exn str_exn' : exn -> string)
  (NamedTemporaryFile NamedTemporaryFile' : FS -> string)
  (fs fs' : FS) (upload : UploadFile) :
  snd (upload_blueprint ezdxf_parse str_exn NamedTemporaryFile fs upload)
    = snd (upload_blueprint ezdxf_parse str_exn' NamedTemporaryFile' fs' upload) /\
  (BlueprintResult.data
     (snd (upload_blueprint ezdxf_parse str_exn NamedTemporaryFile fs upload)) = None
   <-> endswith (lower (filename upload)) ".dwg" = true
       \/ (endswith (filename upload) ".dxf" = false
           /\ endswith (filename upload) ".DXF" = false)).
Proof.
  unfold upload_blueprint.
  destruct (endswith (lower (filename upload)) ".dwg") eqn:Hdwg.
  { split; [reflexivity|]. cbn. split; auto. }
  destruct (endswith (filename upload) ".dxf") eqn:H1;
    destruct (endswith (filename upload) ".DXF") eqn:H2; cbn [orb negb].
  4: { split; [reflexivity|]. cbn. split; auto. }
  all: destruct (os_remove_written fs (NamedTemporaryFile fs) (file upload))
         as (f1 & Hrm1 & _);
       destruct (os_remove_written fs' (NamedTemporaryFile' fs') (file upload))
         as (f2 & Hrm2 & _);
       rewrite Hrm1, Hrm2; cbn [snd BlueprintResult.data];
       rewrite (analyze_written_file _ _ fs), (analyze_written_file _ _ fs');
       unfold analyze_blueprint, readfile; cbn [fs_read];
       rewrite !String.eqb_refl;
       (split;
        [destruct (ezdxf_parse (file upload)) as [| |s|msp]; try reflexivity;
         destruct (analyze_document_metrics msp) as (m & Hm & _);
         rewrite Hm; reflexivity
        |split; [intros H; discriminate H
                |intros [H|[Ha Hb]]; discriminate]]).
Qed.

(* ================================================================== *)
(** ** Inputs without effect, emissions, and the training labels *)
(* ================================================================== *)

(** X27.  The land area and the floor count of a request have no effect
    on [calculate_impact]: two requests that differ in these two fields
    only get the same response, field for field.  The classifier is the
    only reader of the two fields: they are the first and third entries
    of its feature vector. *)
Theorem land_area_and_floors_do_not_affect_the_score
  (res : Resources) (u : UserInput.t) (land : Q) (floors : Z) :
  calculate_impact res (with_land_floors u land floors) = calculate_impact res u /\
  nth 0 (features (enrich_data res (with_land_floors u land floors))) 0 = land /\
  nth 2 (features (enrich_data res (with_land_floors u land floors))) 0
    = inject_Z floors.
Proof.
  split; [|split; reflexivity].
  unfold calculate_impact.
  change (water_score (enrich_data res (with_land_floors u land floors)))
    with (water_score (enrich_data res u)).
  destruct (water_score (enrich_data res u)) as [w|e]; reflexivity.
Qed.

(** X28.  With non-negative vehicle count and fuel use, the reported added
    pollution is non-negative and the reported final concentrations are at
    least the rounded baselines: the project never cleans the air. *)
Theorem emissions_never_lower_the_baseline (res : Resources) (u : UserInput.t) :
  (0 <= UserInput.vehicles_per_day u)%Z ->
  0 <= UserInput.fuel_consumption_l_per_day u ->
  exists r a b p n,
    calculate_impact res u = Ok r /\
    ImpactResult.added_pollution r = [ ("PM2.5", a); ("NO2", b) ] /\
    ImpactResult.final_pollution r = [ ("PM2.5", p); ("NO2", n) ] /\
    0 <= a /\ 0 <= b /\
    round (EnrichedProjectInput.baseline_pm25 (enrich_data res u)) 2 <= p /\
    round (EnrichedProjectInput.baseline_no2 (enrich_data res u)) 2 <= n.
Proof.
  intros Hv Hf. apply inject_Z_nonneg in Hv.
  destruct (calculate_impact_returns res u) as (w & _ & H).
  do 5 eexists. split; [exact H|].
  cbn [ImpactResult.added_pollution ImpactResult.final_pollution].
  split; [reflexivity|]. split; [reflexivity|].
  assert (Ha : 0 <= added_pm25 (enrich_data res u)).
  { unfold added_pm25.
    change (EnrichedProjectInput.vehicles_per_day (enrich_data res u))
      with (UserInput.vehicles_per_day u).
    change (EnrichedProjectInput.fuel_consumption_l_per_day (enrich_data res u))
      with (UserInput.fuel_consumption_l_per_day u).
    qlra. }
  assert (Hb : 0 <= added_no2 (enrich_data res u)).
  { unfold added_no2.
    change (EnrichedProjectInput.vehicles_per_day (enrich_data res u))
      with (UserInput.vehicles_per_day u).
    change (EnrichedProjectInput.fuel_consumption_l_per_day (enrich_data res u))
      with (UserInput.fuel_consumption_l_per_day u).
    qlra. }
  split; [now apply round_nonneg|]. split; [now apply round_nonneg|].
  split; apply round_mono; unfold final_pm25, final_no2; lra.
Qed.

(** X28 at the sample request. *)
Lemma emissions_never_lower_the_baseline_witness :
  exists r a b,
    calculate_impact degraded sample_input = Ok r /\
    ImpactResult.added_pollution r = [ ("PM2.5", a); ("NO2", b) ] /\
    0 <= a /\ 0 <= b.
Proof.
  destruct (emissions_never_lower_the_baseline degraded sample_input)
    as (r & a & b & p & n & Hr & Ha & _ & H0 & H1 & _);
    try (vm_compute; discriminate).
  exists r, a, b. auto.
Defined.

(** X29.  The label of a synthetic training row.  With the noise drawn in
    [-5, 5), the final score lies between 5 and 100, so the lower clamp at
    0 never applies; the class is 0 below 40, 1 from 40 to 69 and 2 from
    70 on; and the label written beside the class is the one
    [predict_impact_ml] gives to that class at inference. *)
Theorem training_label_of_a_row
  (water waste haz_waste : Q) (vehicles sensitive dist_res : Z)
  (veg_removed : Q) (noise : Z) :
  (-5 <= noise < 5)%Z ->
  let s := GenerateData.score water waste haz_waste vehicles sensitive
                              dist_res veg_removed in
  let fs := GenerateData.final_score s noise in
  (10 <= s <= 110)%Z /\
  (5 <= fs <= 100)%Z /\
  fs = Z.min 100 (s + noise) /\
  (((fs < 40)%Z /\ fst (GenerateData.impact_class fs) = 0%Z) \/
   ((40 <= fs < 70)%Z /\ fst (GenerateData.impact_class fs) = 1%Z) \/
   ((70 <= fs)%Z /\ fst (GenerateData.impact_class fs) = 2%Z)) /\
  snd (GenerateData.impact_class fs)
    = labels_get (fst (GenerateData.impact_class fs)).
Proof.
  intros Hn s fs.
  assert (Hs : (10 <= s <= 110)%Z).
  { unfold s, GenerateData.score.
    destruct (Qltb 1000 water), (Qltb 100 water), (Qltb 500 waste),
      (Qltb 50 waste), (Qltb 50 haz_waste), (500 <? vehicles)%Z,
      (negb (sensitive =? 0)%Z), (dist_res <? 100)%Z, (Qltb 50 veg_removed);
      cbn; lia. }
  split; [exact Hs|].
  unfold fs, GenerateData.final_score, GenerateData.impact_class.
  split; [lia|]. split; [lia|].
  destruct (Z.ltb_spec (Z.max 0 (Z.min 100 (s + noise))) 40);
    [|destruct (Z.ltb_spec (Z.max 0 (Z.min 100 (s + noise))) 70)];
    cbn [fst snd]; (split; [|reflexivity]).
  - left. split; [assumption|reflexivity].
  - right; left. split; [lia|reflexivity].
  - right; right. split; [lia|reflexivity].
Qed.

(** X29 for a large industrial row near a sensitive zone, with noise 4. *)
Lemma training_label_of_a_row_witness :
  (5 <= GenerateData.final_score
          (GenerateData.score 1200 600 60 800 1 80 75.5) 4 <= 100)%Z /\
  snd (GenerateData.impact_class
         (GenerateData.final_score
            (GenerateData.score 1200 600 60 800 1 80 75.5) 4))
  = labels_get 2.
Proof.
  pose proof (training_label_of_a_row 1200 600 60 800 1 80 75.5 4
                (conj (proj1 (Z.leb_le (-5) 4) eq_refl)
                      (proj1 (Z.ltb_lt 4 5) eq_refl)))
    as (_ & Hfs & _ & _ & Hl).
  cbv zeta in Hfs, Hl. split; [exact Hfs | exact Hl].
Defined.
